(** * Account and realm validation rules of the Zulip application layer

    A shallow embedding of the request handlers of [zerver/forms.py] and
    [zerver/views/users.py] that validate input, call the domain actions and
    produce a response, followed by the properties established about them.

    Conventions of the embedding:
    - a Python function that may raise returns a [result]; a function that
      also reads or mutates server state is a computation [M S A] over an
      explicit state [S], and an exception leaves the state as it was at the
      point of the [raise];
    - collaborators that live outside the two source files (the ORM helpers,
      the captcha library, the rate limiter, the permission checks) are
      passed in as records of functions;
    - [gettext] is the identity on the English message. *)

From Stdlib Require Import ZArith Lia Ascii.
From Stdlib Require String.
From stdpp Require Import base option list strings pretty gmap.

Local Open Scope Z_scope.

(** ** Exceptions and results *)

Module Exceptions.

(** The exception classes the two source files raise, catch or let pass. *)
Inductive exn : Type :=
| ValidationError (message : string)
| OverridableValidationError (message code : string)
| JsonableError (msg : string)
| RateLimitedError (secs_to_freedom : Z)
| CannotDeactivateLastUserError (is_last_owner : bool)
| OrganizationOwnerRequiredError
| OrganizationAdministratorRequiredError
| MissingAuthenticationError
| EmailAlreadyInUseError
| InvalidFakeEmailDomainError
| ValueError (msg : string)
| IndexError (msg : string)
| KeyError (key : string)
| AssertionError
| RealmDoesNotExist
| ExternalError (name : string).

#[global] Instance exn_eq_dec : EqDecision exn.
Proof. solve_decision. Defined.

Inductive result (A : Type) : Type :=
| Ok (a : A)
| Raise (e : exn).

Arguments Ok {A} a.
Arguments Raise {A} e.

Definition is_ok {A} (r : result A) : bool :=
  match r with Ok _ => true | Raise _ => false end.

Definition rbind {A B} (r : result A) (k : A → result B) : result B :=
  match r with
  | Ok a => k a
  | Raise e => Raise e
  end.

(** Computations over a state [S] that may raise. *)
Definition M (S A : Type) : Type := S → result A * S.

Definition ret {S A} (a : A) : M S A := λ s, (Ok a, s).

Definition raise {S A} (e : exn) : M S A := λ s, (Raise e, s).

Definition bind {S A B} (m : M S A) (k : A → M S B) : M S B :=
  λ s, match m s with
       | (Ok a, s') => k a s'
       | (Raise e, s') => (Raise e, s')
       end.

Definition lift {S A} (r : result A) : M S A := λ s, (r, s).

Definition gets {S A} (f : S → A) : M S A := λ s, (Ok (f s), s).

Definition modify {S} (f : S → S) : M S unit := λ s, (Ok tt, f s).

(** [when c m] is the statement [if c: m]. *)
Definition when {S} (c : bool) (m : M S unit) : M S unit :=
  if c then m else ret tt.

(** A computation that leaves the part [f] of the state as it is, whether it
    returns or raises. *)
Definition preserves {S A T : Type} (f : S → T) (m : M S A) : Prop :=
  ∀ s r s', m s = (r, s') → f s' = f s.

End Exceptions.

Export Exceptions.

Declare Scope py_scope.
Delimit Scope py_scope with py.
Notation "x <- m ;; k" := (bind m (λ x, k))
  (at level 100, m at next level, right associativity) : py_scope.
Notation "m ;; k" := (bind m (λ _, k))
  (at level 100, right associativity) : py_scope.
Notation "x <~ r ;; k" := (rbind r (λ x, k))
  (at level 100, r at next level, right associativity) : py_scope.

(** ** The Python built-ins the handlers use *)

Module Py.

Definition len (s : string) : Z := Z.of_nat (String.length s).

(** [s[i]] on a [str]: a negative index counts from the end, and an index
    outside the string raises [IndexError]. *)
Definition str_getitem (s : string) (i : Z) : result ascii :=
  let j := if i <? 0 then i + len s else i in
  if (j <? 0) || (len s <=? j) then Raise (IndexError "string index out of range")
  else match String.get (Z.to_nat j) s with
       | Some c => Ok c
       | None => Raise (IndexError "string index out of range")
       end.

(** Truth value of a [str]: the empty string is falsy. *)
Definition truthy (s : string) : bool := negb (bool_decide (s = "")).

(** Truth value of an [Optional[str]]: [None] and the empty string are falsy. *)
Definition truthy_opt (o : option string) : bool :=
  match o with
  | Some s => truthy s
  | None => false
  end.

(** [str.isspace] on one character of an 8-bit string. *)
Definition isspace (c : ascii) : bool :=
  let n := Ascii.N_of_ascii c in
  ((9 <=? n) && (n <=? 13) || (28 <=? n) && (n <=? 32) || (n =? 133) || (n =? 160))%N.

Fixpoint lstrip (s : string) : string :=
  match s with
  | EmptyString => EmptyString
  | String c rest => if isspace c then lstrip rest else s
  end.

(** [str.strip()] with no argument. *)
Definition strip (s : string) : string :=
  String.rev (lstrip (String.rev (lstrip s))).

(** [str(b)] for a [bool]. *)
Definition str_of_bool (b : bool) : string := if b then "True" else "False".

End Py.

(** [gettext], written [_] in the source. *)
Definition gettext (s : string) : string := s.

(** ** The data model: realms and user profiles *)

Record Realm : Type := mkRealm {
  realm_id : Z;
  string_id : string;
  realm_name : string;
  deactivated : bool;
}.

#[global] Instance Realm_eq_dec : EqDecision Realm.
Proof. solve_decision. Defined.

Record Stream : Type := mkStream {
  stream_id : Z;
  stream_name : string;
}.

#[global] Instance Stream_eq_dec : EqDecision Stream.
Proof. solve_decision. Defined.

(** A row of [UserProfile]; a bot is a row with [is_bot] set. [user_id] is
    the attribute [id], and [can_change_user_emails] the property of that
    name, read here as an attribute of the acting user. *)
Record UserProfile : Type := mkUserProfile {
  user_id : Z;
  realm : Realm;
  delivery_email : string;
  email : string;
  full_name : string;
  role : Z;
  is_bot : bool;
  bot_type : option Z;
  bot_owner_id : option Z;
  is_active : bool;
  avatar_source : string;
  api_key : string;
  default_sending_stream : option Stream;
  default_events_register_stream : option Stream;
  default_all_public_streams : option bool;
  can_change_user_emails : bool;
}.

#[global] Instance UserProfile_eq_dec : EqDecision UserProfile.
Proof. solve_decision. Defined.

(** The [META] entries the handlers index, taken as always present. *)
Record RequestMeta : Type := mkRequestMeta {
  REMOTE_ADDR : string;
  QUERY_STRING : string;
}.

Record UploadedFile : Type := mkUploadedFile {
  file_name : string;
  file_size : option Z;
}.

(** [request.FILES], a [MultiValueDict]: every form field name that carries
    uploads has the list of the files uploaded under it. *)
Definition MultiValueDict : Type := gmap string (list UploadedFile).

(** [len(d)]: the number of keys, however many files a key has. *)
Definition MultiValueDict_len (d : MultiValueDict) : nat := size d.

(** [d.values()]: for every key [d[key]], the last item of the key's list;
    for an empty list [d[key]] is [[]], which is no file. *)
Definition MultiValueDict_values (d : MultiValueDict) : list (option UploadedFile) :=
  (λ entry, last entry.2) <$> map_to_list d.

(** An [HttpRequest]: the host it was sent to, its [META] and its uploaded
    [FILES]. The session, which handlers mutate, is part of the state. *)
Record HttpRequest : Type := mkHttpRequest {
  request_host : string;
  META : RequestMeta;
  FILES : MultiValueDict;
}.

(** Calls of the [logging] module. *)
Inductive log_record : Type :=
| LogInfo (msg : string)
| LogWarning (msg : string)
| LogException (e : exn).

(** ** [zerver/forms.py] *)

Module Forms.

(** *** [check_subdomain_available] *)

(** The keys of the [error_strings] dictionary. *)
Inductive error_key : Type :=
| too_short
| extremal_dash
| bad_character
| unavailable
| reserved.

Definition error_strings (k : error_key) : string :=
  match k with
  | too_short => gettext "Subdomain needs to have length 3 or greater."
  | extremal_dash => gettext "Subdomain cannot start or end with a '-'."
  | bad_character => gettext "Subdomain can only have lowercase letters, numbers, and '-'s."
  | unavailable => gettext "Subdomain is already in use. Please choose a different one."
  | reserved => gettext "Subdomain reserved. Please choose a different one."
  end.

(** What the validator reads from outside [forms.py]: the constant
    [Realm.SUBDOMAIN_FOR_ROOT_DOMAIN], the helper [is_reserved_subdomain] and
    the table behind [Realm.objects]. *)
Record SubdomainEnv : Type := mkSubdomainEnv {
  SUBDOMAIN_FOR_ROOT_DOMAIN : string;
  is_reserved_subdomain : string → bool;
  realm_objects : list Realm;
}.

(** [Realm.objects.filter(string_id=subdomain).exists()]. *)
Definition realm_with_string_id_exists (realms : list Realm) (subdomain : string) : bool :=
  bool_decide (Exists (λ r, string_id r = subdomain) realms).

(** Modelled from the spec: [is_root_domain_available] of
    [zerver/lib/subdomains.py], which is not among the source files; the root
    domain is "available only if no realm already claims it". *)
Definition is_root_domain_available (E : SubdomainEnv) : bool :=
  negb (realm_with_string_id_exists (realm_objects E) (SUBDOMAIN_FOR_ROOT_DOMAIN E)).

(** The character class [[a-z0-9-]]. *)
Definition in_subdomain_class (c : ascii) : bool :=
  let n := Ascii.N_of_ascii c in
  ((97 <=? n) && (n <=? 122) || (48 <=? n) && (n <=? 57) || (n =? 45))%N.

Definition newline : ascii := Ascii.ascii_of_N 10.

(** [re.match(r"^[a-z0-9-]{n,}$", s)] as Python's [re] decides it: at least
    [n] characters of the class, up to the end of the string or up to a single
    newline that ends the string (which is where [$] matches). The pattern of
    the source, [^[a-z0-9-]*$], is the case [n = 0]. *)
Fixpoint re_match_subdomain_class (n : nat) (s : string) : bool :=
  match s with
  | EmptyString => bool_decide (n = 0%nat)
  | String c rest =>
      if in_subdomain_class c then re_match_subdomain_class (Nat.pred n) rest
      else bool_decide (n = 0%nat) && bool_decide (c = newline) && bool_decide (rest = EmptyString)
  end.

Definition dash : ascii := Ascii.ascii_of_N 45.

Definition check_subdomain_available (E : SubdomainEnv)
    (subdomain : string) (allow_reserved_subdomain : bool) : result unit :=
  if bool_decide (subdomain = SUBDOMAIN_FOR_ROOT_DOMAIN E) then
    if is_root_domain_available E then Ok tt
    else Raise (ValidationError (error_strings unavailable))
  else
    (first <~ Py.str_getitem subdomain 0 ;;
     extremal <~ (if bool_decide (first = dash) then Ok true
                  else (last <~ Py.str_getitem subdomain (-1) ;;
                        Ok (bool_decide (last = dash)))) ;;
     if extremal : bool then Raise (ValidationError (error_strings extremal_dash))
     else if negb (re_match_subdomain_class 0 subdomain) then
       Raise (ValidationError (error_strings bad_character))
     else if Py.len subdomain <? 3 then
       Raise (ValidationError (error_strings too_short))
     else if realm_with_string_id_exists (realm_objects E) subdomain then
       Raise (ValidationError (error_strings unavailable))
     else if is_reserved_subdomain E subdomain && negb allow_reserved_subdomain then
       Raise (OverridableValidationError (error_strings reserved)
                "Pass --allow-reserved-subdomain to override")
     else Ok tt)%py.

(** *** [CaptchaRealmCreationForm.clean_captcha] *)

Record CaptchaSettings : Type := mkCaptchaSettings {
  USING_CAPTCHA : bool;
  ALTCHA_HMAC_KEY : option string;
}.

(** What a call of the captcha library's [verify_solution] does: it returns
    a pair [(ok, err)] or raises. *)
Inductive verify_outcome : Type :=
| VerifyReturned (ok : bool) (err : option string)
| VerifyRaised (e : exn).

(** The libraries [clean_captcha] calls. [verify_solution now payload key
    check_expires] is the captcha library's check; with [check_expires] it
    compares the expiry carried by the payload with the current time, so its
    outcome depends on the clock reading [now] of the call as well. *)
Record CaptchaLib : Type := mkCaptchaLib {
  verify_solution : Z → string → string → bool → verify_outcome;
  b64decode : string → result string;
  orjson_loads : string → result (gmap string string);
}.

(** An entry of [session["altcha_challenges"]]: the challenge identifier,
    [e[0]], and what is stored beside it. *)
Definition challenge_entry : Type := string * Z.

(** The state [clean_captcha] works on: [request.session] and the log. *)
Record CaptchaState : Type := mkCaptchaState {
  session : gmap string (list challenge_entry);
  captcha_log : list log_record;
}.

Definition captcha_logging (r : log_record) : M CaptchaState unit :=
  modify (λ s, mkCaptchaState (session s) (captcha_log s ++ [r])).

(** [request.session.get("altcha_challenges", [])]. *)
Definition session_get_altcha_challenges (s : CaptchaState) : list challenge_entry :=
  default [] (session s !! "altcha_challenges").

(** [d[key]] on a dictionary. *)
Definition dict_getitem (d : gmap string string) (key : string) : result string :=
  match d !! key with
  | Some v => Ok v
  | None => Raise (KeyError key)
  end.

(** ["%s" % err] for an optional string. *)
Definition format_optional (o : option string) : string := default "None" o.

Definition is_validation_error (e : exn) : bool :=
  match e with
  | ValidationError _ | OverridableValidationError _ _ => true
  | _ => false
  end.

Definition validation_failed : exn :=
  ValidationError (gettext "Validation failed, please try again.").

Definition clean_captcha (S : CaptchaSettings) (L : CaptchaLib) (now : Z)
    (data : gmap string string) : M CaptchaState (gmap string string) :=
  let payload := default "" (data !! "captcha") in
  if negb (USING_CAPTCHA S) || negb (Py.truthy_opt (ALTCHA_HMAC_KEY S)) then
    raise (ValidationError (gettext "Challenges are not enabled."))
  else
    ((match verify_solution L now payload (default "" (ALTCHA_HMAC_KEY S)) true with
      | VerifyReturned ok err =>
          if negb ok then
            captcha_logging (LogWarning ("Invalid altcha solution: " +:+ format_optional err)) ;;
            raise validation_failed
          else ret tt
      | VerifyRaised e =>
          if is_validation_error e then raise e
          else captcha_logging (LogException e) ;; raise validation_failed
      end) ;;
     raw <- lift (b64decode L payload) ;;
     decoded <- lift (orjson_loads L raw) ;;
     challenge <- lift (dict_getitem decoded "challenge") ;;
     session_challenges <- gets (λ s, (session_get_altcha_challenges s).*1) ;;
     if bool_decide (challenge ∉ session_challenges) then
       captcha_logging (LogWarning "Expired or replayed altcha solution") ;;
       raise validation_failed
     else
       (* Remove the successful solve from the session, to prevent replay *)
       modify (λ s, mkCaptchaState
                      (<["altcha_challenges" :=
                           filter (λ e, e.1 ≠ challenge) (session_get_altcha_challenges s)]>
                         (session s))
                      (captcha_log s)) ;;
       ret decoded)%py.

(** *** [ZulipPasswordResetForm.save] and the rate limit by email *)

(** What [save] and [rate_limit_password_reset_form_by_email] use from
    outside [forms.py], over a rate-limiter state [RL]:
    [rate_limit key rules] is [RateLimitedObject.rate_limit] for an object
    with that key and those rules, and returns [(ratelimited,
    secs_to_freedom)]; [rate_limit_request_by_ip] either returns or raises;
    [get_user_by_delivery_email] returns [None] where the look-up raises
    [UserProfile.DoesNotExist]. *)
Record PasswordResetEnv (RL : Type) : Type := mkPasswordResetEnv {
  RATE_LIMITING : bool;
  RATE_LIMITING_RULES_password_reset_form_by_email : list (Z * Z);
  get_subdomain : HttpRequest → string;
  get_realm : string → result Realm;
  email_auth_enabled : Realm → bool;
  email_belongs_to_ldap : Realm → string → bool;
  rate_limit : string → list (Z * Z) → RL → (bool * Z) * RL;
  rate_limit_request_by_ip : HttpRequest → string → RL → result unit * RL;
  get_user_by_delivery_email : string → Realm → option UserProfile;
}.

Arguments RATE_LIMITING {RL} _.
Arguments RATE_LIMITING_RULES_password_reset_form_by_email {RL} _.
Arguments get_subdomain {RL} _ _.
Arguments get_realm {RL} _ _.
Arguments email_auth_enabled {RL} _ _.
Arguments email_belongs_to_ldap {RL} _ _ _.
Arguments rate_limit {RL} _ _ _ _.
Arguments rate_limit_request_by_ip {RL} _ _ _ _.
Arguments get_user_by_delivery_email {RL} _ _ _.

(** A call of [do_send_password_reset_email(email, realm, user, ...)]. *)
Record reset_email : Type := mkResetEmail {
  reset_to : string;
  reset_realm : Realm;
  reset_user : option UserProfile;
}.

(** The state [save] works on: the rate limiter, the reset emails handed to
    the mailer, and the log. *)
Record ResetState (RL : Type) : Type := mkResetState {
  limiter : RL;
  outbox : list reset_email;
  reset_log : list log_record;
}.

Arguments mkResetState {RL} _ _ _.
Arguments limiter {RL} _.
Arguments outbox {RL} _.
Arguments reset_log {RL} _.

Section PasswordReset.
Context {RL : Type} (E : PasswordResetEnv RL).

Definition reset_logging (r : log_record) : M (ResetState RL) unit :=
  modify (λ s, mkResetState (limiter s) (outbox s) (reset_log s ++ [r])).

(** Runs a rate-limiter call on the limiter component of the state. *)
Definition with_limiter {A} (f : RL → A * RL) : M (ResetState RL) A :=
  λ s, let '(a, l) := f (limiter s) in (Ok a, mkResetState l (outbox s) (reset_log s)).

(** [RateLimitedPasswordResetByEmail(email).key()]. *)
Definition RateLimitedPasswordResetByEmail_key (email : string) : string :=
  "RateLimitedPasswordResetByEmail" +:+ ":" +:+ email.

(** [RateLimitedPasswordResetByEmail(email).rules()]. *)
Definition RateLimitedPasswordResetByEmail_rules : list (Z * Z) :=
  RATE_LIMITING_RULES_password_reset_form_by_email E.

Definition rate_limit_password_reset_form_by_email (email : string) : M (ResetState RL) unit :=
  (answer <- with_limiter (rate_limit E (RateLimitedPasswordResetByEmail_key email)
                             RateLimitedPasswordResetByEmail_rules) ;;
   let '(ratelimited, secs_to_freedom) := answer in
   if ratelimited : bool then raise (RateLimitedError secs_to_freedom) else ret tt)%py.

(** Modelled from the spec: the action [do_send_password_reset_email] of
    [zerver/actions/users.py], which is not among the source files; it hands
    one reset email for the address to the mailer ("sends to the user", and "a
    different email if an associated account does not exist"). *)
Definition do_send_password_reset_email (to : string) (r : Realm) (user : option UserProfile)
    : M (ResetState RL) unit :=
  modify (λ s, mkResetState (limiter s) (outbox s ++ [mkResetEmail to r user]) (reset_log s)).

(** The body of the [try] of [save]: both rate-limit checks. *)
Definition save_rate_limits (email : string) (request : HttpRequest) : M (ResetState RL) unit :=
  (rate_limit_password_reset_form_by_email email ;;
   (λ s, let '(r, l) := rate_limit_request_by_ip E request "sends_email_by_ip" (limiter s) in
         (r, mkResetState l (outbox s) (reset_log s))))%py.

Definition is_rate_limited_error (e : exn) : bool :=
  match e with RateLimitedError _ => true | _ => false end.

Definition save (email : string) (request : option HttpRequest) : M (ResetState RL) unit :=
  match request with
  | None => raise AssertionError
  | Some request =>
      (realm <- lift (get_realm E (get_subdomain E request)) ;;
       if negb (email_auth_enabled E realm) then
         reset_logging (LogInfo ("Password reset attempted for " +:+ email +:+
                                 " even though password auth is disabled."))
       else if email_belongs_to_ldap E realm email then
         reset_logging (LogInfo "Password reset not allowed for user in LDAP domain")
       else if deactivated realm then
         reset_logging (LogInfo "Realm is deactivated")
       else
         when (RATE_LIMITING E)
           (λ s, match save_rate_limits email request s with
                 | (Raise e, s') =>
                     if is_rate_limited_error e then
                       (reset_logging (LogInfo ("Too many password reset attempts for email " +:+
                                                email +:+ " from " +:+ REMOTE_ADDR (META request))) ;;
                        (* The view will handle the RateLimit exception *)
                        raise e) s'
                     else (Raise e, s')
                 | ok => ok
                 end) ;;
         let user := get_user_by_delivery_email E email realm in
         do_send_password_reset_email email realm user)%py
  end.

(** The three conditions under which [save] returns before it looks at the
    rate limiter: password authentication is off for the realm, the address
    is managed in LDAP, or the realm is deactivated. *)
Definition returns_early (r : Realm) (address : string) : bool :=
  negb (email_auth_enabled E r) || email_belongs_to_ldap E r address || deactivated r.

End PasswordReset.

(** *** [RealmDetailsForm.clean_realm_subdomain] *)

(** [cleaned_subdomain] is [cleaned_data["realm_subdomain"]] and [data] the
    submitted form data. *)
Definition clean_realm_subdomain (E : SubdomainEnv) (realm_creation : bool)
    (cleaned_subdomain : string) (data : gmap string string) : result string :=
  if negb realm_creation then
    (* This field is only used if realm_creation *)
    Ok ""
  else
    let subdomain := if bool_decide (is_Some (data !! "realm_in_root_domain"))
                     then SUBDOMAIN_FOR_ROOT_DOMAIN E
                     else cleaned_subdomain in
    (_ <~ check_subdomain_available E subdomain false ;;
     Ok subdomain)%py.

(** *** [MultiEmailField] and [FindMyTeamForm] *)

Definition comma : ascii := Ascii.ascii_of_N 44.

(** [s.split(sep)] for a separator of one character: the pieces between the
    separators, empty pieces included. *)
Fixpoint str_split (sep : ascii) (s : string) : list string :=
  match s with
  | EmptyString => [EmptyString]
  | String c rest =>
      if bool_decide (c = sep) then EmptyString :: str_split sep rest
      else match str_split sep rest with
           | piece :: pieces => String c piece :: pieces
           | [] => [String c EmptyString]
           end
  end.

(** The number of occurrences of a character, [s.count(c)]. *)
Fixpoint str_count (c : ascii) (s : string) : nat :=
  match s with
  | EmptyString => 0
  | String d rest => (if bool_decide (d = c) then 1 else 0) + str_count c rest
  end.

(** Every character of the string is in the class [[a-z0-9-]]. *)
Fixpoint all_in_subdomain_class (s : string) : bool :=
  match s with
  | EmptyString => true
  | String c rest => in_subdomain_class c && all_in_subdomain_class rest
  end.

(** [MultiEmailField.to_python]: normalize data to a list of strings. *)
Definition MultiEmailField_to_python (emails : option string) : list string :=
  if negb (Py.truthy_opt emails) then []
  else Py.strip <$> str_split comma (default "" emails).

(** The loop [for email in emails: validate_email(email)]; [validate_email]
    is Django's validator, which returns or raises. *)
Fixpoint validate_each (validate_email : string → result unit) (emails : list string)
    : result unit :=
  match emails with
  | [] => Ok tt
  | address :: rest =>
      (_ <~ validate_email address ;; validate_each validate_email rest)%py
  end.

(** [MultiEmailField.validate]: the check of [Field.validate] that a required
    field has a value, then every address. *)
Definition MultiEmailField_validate (validate_email : string → result unit) (required : bool)
    (emails : list string) : result unit :=
  if bool_decide (emails = []) && required then
    Raise (ValidationError "This field is required.")
  else validate_each validate_email emails.

Definition clean_emails (emails : list string) : result (list string) :=
  if 10 <? Z.of_nat (length emails) then
    Raise (ValidationError (gettext "Please enter at most 10 emails."))
  else Ok emails.

(** The cleaning of the [emails] field of [FindMyTeamForm], a required
    [MultiEmailField]: the field's [to_python] and [validate], then the form's
    [clean_emails]. *)
Definition FindMyTeamForm_emails (validate_email : string → result unit) (raw : option string)
    : result (list string) :=
  (let emails := MultiEmailField_to_python raw in
   _ <~ MultiEmailField_validate validate_email true emails ;;
   clean_emails emails)%py.

(** *** [OurAuthenticationForm.clean] *)

(** What [authenticate] does with the [return_data] dictionary it is given:
    it returns a user or [None] and leaves flags in the dictionary, with the
    text of the ids it stores under
    ["matching_user_ids_in_different_realms"], or it raises [RateLimitedError]
    with or without the seconds to wait. *)
Inductive authenticate_outcome : Type :=
| Authenticated (user_cache : option UserProfile) (return_data : gmap string bool)
    (matching_user_ids : string)
| AuthRateLimited (secs : option Z).

Record AuthEnv : Type := mkAuthEnv {
  auth_get_subdomain : HttpRequest → string;
  auth_get_realm : string → result Realm;
  authenticate : HttpRequest → string → string → Realm → authenticate_outcome;
  confirm_login_allowed : UserProfile → result unit;
}.

Definition INVALID_ACCOUNT_CREDENTIALS_ERROR : string := "Incorrect email or password.".

(** [DEACTIVATED_ACCOUNT_ERROR.format(username=username)]. *)
Definition DEACTIVATED_ACCOUNT_ERROR (username : string) : string :=
  "Your account " +:+ username +:+ " has been deactivated."
  +:+ " Please contact your organization administrator to reactivate it.".

(** [return_data.get(key)] as a truth value. *)
Definition return_data_get (return_data : gmap string bool) (key : string) : bool :=
  default false (return_data !! key).

(** The state is the log of the form's logger; the seconds to wait are an
    integer here, where the source truncates a float. *)
Definition OurAuthenticationForm_clean (A : AuthEnv) (request : option HttpRequest)
    (username password : option string) : M (list log_record) unit :=
  match username with
  | Some name =>
      if Py.truthy_opt password then
        match request with
        | None => raise AssertionError
        | Some request =>
            (let subdomain := auth_get_subdomain A request in
             realm <- lift (auth_get_realm A subdomain) ;;
             match authenticate A request name (default "" password) realm with
             | AuthRateLimited None => raise AssertionError
             | AuthRateLimited (Some secs_to_freedom) =>
                 raise (ValidationError
                          ("You're making too many attempts to sign in."
                           +:+ " Try again in " +:+ pretty secs_to_freedom
                           +:+ " seconds or contact your organization administrator"
                           +:+ " for help."))
             | Authenticated user_cache return_data matching =>
                 if return_data_get return_data "inactive_realm" then raise AssertionError
                 else if return_data_get return_data "password_reset_needed" then
                   raise (ValidationError
                            ("Your password has been disabled because it is too weak. "
                             +:+ "Reset your password to create a new one."))
                 else if return_data_get return_data "inactive_user"
                         && negb (return_data_get return_data "is_mirror_dummy") then
                   raise (ValidationError (DEACTIVATED_ACCOUNT_ERROR name))
                 else
                   (if return_data_get return_data "invalid_subdomain" then
                      modify (λ log, log ++
                                [LogInfo ("User attempted password login to wrong subdomain "
                                          +:+ subdomain +:+ ". Matching accounts: "
                                          +:+ matching)]) ;;
                      (* We don't want to leak information by revealing there
                         are matching accounts on different subdomain *)
                      if bool_decide (user_cache ≠ None) then raise AssertionError else ret tt
                    else ret tt) ;;
                   match user_cache with
                   | None => raise (ValidationError INVALID_ACCOUNT_CREDENTIALS_ERROR)
                   | Some user => lift (confirm_login_allowed A user)
                   end
             end)%py
        end
      else ret tt
  | None => ret tt
  end.

End Forms.

(** ** [zerver/views/users.py]

    The handlers are embedded as the functions the source defines; the
    decorators around them ([typed_endpoint], [require_member_or_admin],
    [transaction.atomic]) run outside these bodies and are not part of the
    embedding. *)

Module Users.

(** Calls of actions whose work happens outside the handlers (mail, uploads,
    bot services, events); the journal keeps them in call order. *)
Inductive effect : Type :=
| UserDeactivated (target acting : Z)
| UserRoleChanged (target new_role acting : Z)
| FullNameChanged (target : Z) (name : string) (acting : Z)
| ProfileFieldValueRemoved (target field acting : Z)
| ProfileDataUpdated (target : Z) (data : list (Z * (string + list Z)))
| DeliveryEmailChanged (target : Z) (address : string) (acting : Z)
| SpectatorAttachmentAccess (key : string)
| BotOwnerChanged (bot owner acting : Z)
| DefaultSendingStreamChanged (bot : Z) (stream : option Stream) (acting : Z)
| DefaultEventsRegisterStreamChanged (bot : Z) (stream : option Stream) (acting : Z)
| DefaultAllPublicStreamsChanged (bot : Z) (value : bool) (acting : Z)
| OutgoingWebhookServiceUpdated (bot interface : Z) (base_url : string) (acting : Z)
| BotConfigDataUpdated (bot : Z) (config : list (string * string))
| AvatarImageUploaded (file : UploadedFile) (user : Z)
| AvatarFieldsChanged (user : Z) (source : string) (acting : Z)
| UserCreated (user : Z)
| ServiceAdded (name : string) (bot : Z) (base_url : string) (interface : Z) (token : string)
| BotConfigSet (bot : Z) (key value : string)
| CreatedBotNotified (bot : Z).

(** The server state the handlers work on: the [UserProfile] table and the
    journal of the other effects. *)
Record DB : Type := mkDB {
  users : list UserProfile;
  journal : list effect;
}.

Record ProfileDataElement : Type := mkProfileDataElement {
  pd_id : Z;
  pd_value : option (string + list Z);
}.

Inductive json : Type :=
| JNull
| JBool (b : bool)
| JInt (z : Z)
| JStr (s : string)
| JDict (items : list (string * string)).

Inductive HttpResponse : Type :=
| JsonSuccess (data : list (string * json))
| HttpRedirect (url : string).

Definition json_opt_str (o : option string) : json :=
  match o with Some s => JStr s | None => JNull end.

Definition json_opt_bool (o : option bool) : json :=
  match o with Some b => JBool b | None => JNull end.

(** What the handlers use from outside [views/users.py]: constants of the
    models, settings, and the checks and look-ups of the libraries. A check
    reads the state and returns or raises; a look-up that raises
    [UserProfile.DoesNotExist] returns [None]. The fields named [.._checks]
    are the validation done by the function of that name, whose effect the
    handler journals; for a change of the full name the validation returns
    the name to store. [new_user_defaults] gives the attributes that
    [do_create_user] chooses by itself. *)
Record UsersEnv : Type := mkUsersEnv {
  ROLE_REALM_OWNER : Z;
  ROLE_REALM_ADMINISTRATOR : Z;
  ROLE_GUEST : Z;
  DEFAULT_BOT : Z;
  INCOMING_WEBHOOK_BOT : Z;
  OUTGOING_WEBHOOK_BOT : Z;
  EMBEDDED_BOT : Z;
  AVATAR_FROM_GRAVATAR : string;
  AVATAR_FROM_USER : string;
  BILLING_ENABLED : bool;
  RATE_LIMITING : bool;
  EMBEDDED_BOTS_ENABLED : bool;
  EMBEDDED_BOTS : list string;
  check_spare_license_available_for_changing_guest_user_role : Realm → DB → result unit;
  check_change_full_name_checks : UserProfile → string → UserProfile → DB → result string;
  check_change_bot_full_name_checks : UserProfile → string → UserProfile → DB → result string;
  check_remove_custom_profile_field_value_checks : UserProfile → Z → DB → result unit;
  validate_user_custom_profile_data :
    Z → list (Z * (string + list Z)) → UserProfile → DB → result unit;
  validate_email : string → bool;
  validate_email_not_already_in_realm : Realm → string → DB → result unit;
  get_valid_realm_from_request : HttpRequest → DB → result Realm;
  allow_web_public_streams_access : Realm → bool;
  rate_limit_spectator_attachment_access_by_file_checks : string → DB → result unit;
  get_user_by_id_in_realm_including_cross_realm : Z → Realm → DB → option UserProfile;
  get_user_including_cross_realm : string → Realm → DB → option UserProfile;
  check_can_access_user : UserProfile → UserProfile → DB → bool;
  get_avatar_for_inaccessible_user : option string;
  avatar_url : UserProfile → bool → option string;
  get_gravatar_url : string → Z → Z → bool → option string;
  append_url_query_string : string → string → string;
  access_bot_by_id : UserProfile → Z → DB → result UserProfile;
  get_user_profile_by_id_in_realm : Z → Realm → DB → option UserProfile;
  access_stream_by_name : UserProfile → string → DB → result Stream;
  check_valid_interface_type : Z → result unit;
  check_short_name : string → result string;
  check_full_name : string → UserProfile → Realm → DB → result string;
  get_bot_domain : Realm → result string;
  email_field_valid : string → bool;
  check_can_create_bot : UserProfile → Z → DB → result unit;
  check_valid_bot_type : UserProfile → Z → DB → result unit;
  check_valid_bot_config : Z → string → list (string * string) → result unit;
  generate_api_key : DB → string;
  new_user_defaults : DB → UserProfile;
}.

Section Handlers.
Context (E : UsersEnv).

(** *** Properties and queries of the models *)

(** Modelled from the spec: the property [UserProfile.is_realm_owner] of
    [zerver/models/users.py], which is not among the source files; the owner
    role is the highest of the "ordered privilege levels". *)
Definition is_realm_owner (u : UserProfile) : bool :=
  bool_decide (role u = ROLE_REALM_OWNER E).

(** Modelled from the spec: the property [UserProfile.is_realm_admin] (not
    among the source files); an owner has the administrator privilege too
    ("otherwise admin privilege suffices"). *)
Definition is_realm_admin (u : UserProfile) : bool :=
  bool_decide (role u = ROLE_REALM_ADMINISTRATOR E) || bool_decide (role u = ROLE_REALM_OWNER E).

(** Modelled from the spec: the property [UserProfile.is_guest] (not among
    the source files). *)
Definition is_guest (u : UserProfile) : bool :=
  bool_decide (role u = ROLE_GUEST E).

(** [UserProfile.objects.filter(realm=r, is_active=True)]. *)
Definition active_users_of_realm (r : Realm) (db : DB) : list UserProfile :=
  filter (λ u, realm_id (realm u) = realm_id r ∧ is_active u = true) (users db).

(** Modelled from the spec: [Realm.get_human_owner_users] of
    [zerver/models/realms.py], which is not among the source files; the
    realm's active "owner" role holders that are not bots. *)
Definition get_human_owner_users (r : Realm) (db : DB) : list UserProfile :=
  filter (λ u, realm_id (realm u) = realm_id r ∧ is_bot u = false
               ∧ role u = ROLE_REALM_OWNER E ∧ is_active u = true) (users db).

(** Writes [f] to the row of the user [uid]. *)
Definition update_row (uid : Z) (f : UserProfile → UserProfile) (db : DB) : DB :=
  mkDB ((λ u, if bool_decide (user_id u = uid) then f u else u) <$> users db) (journal db).

Definition record_effect (e : effect) : M DB unit :=
  modify (λ db, mkDB (users db) (journal db ++ [e])).

Definition set_is_active (b : bool) (u : UserProfile) : UserProfile :=
  mkUserProfile (user_id u) (realm u) (delivery_email u) (email u) (full_name u) (role u)
    (is_bot u) (bot_type u) (bot_owner_id u) b (avatar_source u) (api_key u)
    (default_sending_stream u) (default_events_register_stream u)
    (default_all_public_streams u) (can_change_user_emails u).

Definition set_role (r : Z) (u : UserProfile) : UserProfile :=
  mkUserProfile (user_id u) (realm u) (delivery_email u) (email u) (full_name u) r
    (is_bot u) (bot_type u) (bot_owner_id u) (is_active u) (avatar_source u) (api_key u)
    (default_sending_stream u) (default_events_register_stream u)
    (default_all_public_streams u) (can_change_user_emails u).

Definition set_full_name (n : string) (u : UserProfile) : UserProfile :=
  mkUserProfile (user_id u) (realm u) (delivery_email u) (email u) n (role u)
    (is_bot u) (bot_type u) (bot_owner_id u) (is_active u) (avatar_source u) (api_key u)
    (default_sending_stream u) (default_events_register_stream u)
    (default_all_public_streams u) (can_change_user_emails u).

Definition set_delivery_email (a : string) (u : UserProfile) : UserProfile :=
  mkUserProfile (user_id u) (realm u) a (email u) (full_name u) (role u)
    (is_bot u) (bot_type u) (bot_owner_id u) (is_active u) (avatar_source u) (api_key u)
    (default_sending_stream u) (default_events_register_stream u)
    (default_all_public_streams u) (can_change_user_emails u).

(** Modelled from the spec: the [do_change_...] actions of [zerver/actions],
    which are not among the source files ("perform the actual mutation"). Such
    an action stores one attribute of a user, in the object the handler holds
    and in its row, and the call is journalled. *)
Definition change_user (u : UserProfile) (f : UserProfile → UserProfile) (e : effect)
    : M DB UserProfile :=
  (modify (update_row (user_id u) f) ;;
   record_effect e ;;
   ret (f u))%py.

(** Modelled from the spec: the action [do_deactivate_user] of
    [zerver/actions/users.py], which is not among the source files ("soft
    deactivation": the active flag of the account is cleared). *)
Definition do_deactivate_user (target acting_user : UserProfile) : M DB UserProfile :=
  change_user target (set_is_active false) (UserDeactivated (user_id target) (user_id acting_user)).

(** Modelled from the spec: the action [do_change_user_role] (not among
    the source files), which stores the new role of the user. *)
Definition do_change_user_role (target : UserProfile) (value : Z) (acting_user : UserProfile)
    : M DB UserProfile :=
  change_user target (set_role value)
    (UserRoleChanged (user_id target) value (user_id acting_user)).

Definition json_success (request : HttpRequest) (data : list (string * json)) : HttpResponse :=
  JsonSuccess data.

(** *** Deactivating one's own account *)

Definition check_last_owner (user_profile : UserProfile) (db : DB) : bool :=
  let owners := remove_dups (user_id <$> get_human_owner_users (realm user_profile) db) in
  is_realm_owner user_profile && negb (is_bot user_profile)
  && bool_decide (length owners = 1%nat).

Definition deactivate_user_own_backend (request : HttpRequest) (user_profile : UserProfile)
    : M DB HttpResponse :=
  (count <- gets (λ db, length (active_users_of_realm (realm user_profile) db)) ;;
   if bool_decide (count = 1%nat) then raise (CannotDeactivateLastUserError false)
   else
     last_owner <- gets (λ db, is_realm_owner user_profile && check_last_owner user_profile db) ;;
     if last_owner : bool then raise (CannotDeactivateLastUserError true)
     else
       do_deactivate_user user_profile user_profile ;;
       ret (json_success request []))%py.

(** *** Updating a user *)

(** Truth value of the [value] of a profile data element. *)
Definition pd_value_truthy (v : option (string + list Z)) : bool :=
  match v with
  | None => false
  | Some (inl s) => Py.truthy s
  | Some (inr l) => negb (bool_decide (l = []))
  end.

(** The loop of [update_user_backend] over [profile_data]: an element with
    no value removes the field's value, the other elements are collected. *)
Fixpoint clean_profile_data_loop (target user_profile : UserProfile)
    (profile_data : list ProfileDataElement) (clean : list (Z * (string + list Z)))
    : M DB (list (Z * (string + list Z))) :=
  match profile_data with
  | [] => ret clean
  | entry :: rest =>
      match pd_value entry with
      | Some v =>
          if pd_value_truthy (Some v)
          then clean_profile_data_loop target user_profile rest (clean ++ [(pd_id entry, v)])
          else
            (c <- gets (check_remove_custom_profile_field_value_checks E target (pd_id entry)) ;;
             lift c ;;
             record_effect (ProfileFieldValueRemoved (user_id target) (pd_id entry)
                              (user_id user_profile)) ;;
             clean_profile_data_loop target user_profile rest clean)%py
      | None =>
          (c <- gets (check_remove_custom_profile_field_value_checks E target (pd_id entry)) ;;
           lift c ;;
           record_effect (ProfileFieldValueRemoved (user_id target) (pd_id entry)
                            (user_id user_profile)) ;;
           clean_profile_data_loop target user_profile rest clean)%py
      end
  end.

Definition update_user_backend (request : HttpRequest) (user_profile target : UserProfile)
    (full_name_param new_email : option string)
    (profile_data : option (list ProfileDataElement))
    (role_param : option Z) : M DB HttpResponse :=
  (when (bool_decide (new_email ≠ None)
         && (negb (can_change_user_emails user_profile) || negb (is_realm_admin user_profile)))
     (raise (JsonableError (gettext "User not authorized to change user emails"))) ;;
   target <- match role_param with
             | Some new_role =>
                 if bool_decide (role target ≠ new_role) then
                   (* Require that the current user has permissions to
                      grant/remove the role in question. *)
                   (if bool_decide (ROLE_REALM_OWNER E ∈ [new_role; role target])
                       && negb (is_realm_owner user_profile)
                    then raise OrganizationOwnerRequiredError
                    else if negb (is_realm_admin user_profile)
                    then raise OrganizationAdministratorRequiredError
                    else ret tt) ;;
                   last <- gets (λ db, bool_decide (role target = ROLE_REALM_OWNER E)
                                       && check_last_owner target db) ;;
                   when last
                     (raise (JsonableError (gettext
                        "The owner permission cannot be removed from the only organization owner."))) ;;
                   (if BILLING_ENABLED E && is_guest target then
                      c <- gets (check_spare_license_available_for_changing_guest_user_role E
                                   (realm user_profile)) ;;
                      lift c
                    else ret tt) ;;
                   do_change_user_role target new_role user_profile
                 else ret target
             | None => ret target
             end ;;
   target <- match full_name_param with
             | Some name =>
                 if bool_decide (full_name target ≠ name)
                    && negb (bool_decide (Py.strip name = ""))
                 then
                   c <- gets (check_change_full_name_checks E target name user_profile) ;;
                   checked <- lift c ;;
                   change_user target (set_full_name checked)
                     (FullNameChanged (user_id target) checked (user_id user_profile))
                 else ret target
             | None => ret target
             end ;;
   match profile_data with
   | Some entries =>
       clean <- clean_profile_data_loop target user_profile entries [] ;;
       c <- gets (validate_user_custom_profile_data E (realm_id (realm target)) clean user_profile) ;;
       lift c ;;
       record_effect (ProfileDataUpdated (user_id target) clean)
   | None => ret tt
   end ;;
   match new_email with
   | Some address =>
       if bool_decide (delivery_email target ≠ address) then
         when (negb (can_change_user_emails user_profile && is_realm_admin user_profile))
           (raise AssertionError) ;;
         when (negb (validate_email E address))
           (raise (JsonableError (gettext "Invalid new email address."))) ;;
         c <- gets (validate_email_not_already_in_realm E (realm user_profile) address) ;;
         match c with
         | Raise (ValidationError message) =>
             raise (JsonableError ("New email value error: " +:+ message))
         | Raise (OverridableValidationError message _) =>
             raise (JsonableError ("New email value error: " +:+ message))
         | other => lift other
         end ;;
         change_user target (set_delivery_email address)
           (DeliveryEmailChanged (user_id target) address (user_id user_profile)) ;;
         ret tt
       else ret tt
   | None => ret tt
   end ;;
   ret (json_success request []))%py.

(** *** Avatars *)

(** [assert url is not None]. *)
Definition assert_url (url : option string) : M DB string :=
  match url with
  | Some u => ret u
  | None => raise AssertionError
  end.

(** The end of both avatar handlers: the query string of the request is
    appended to the URL, and the response redirects to it. *)
Definition redirect_with_query (request : HttpRequest) (url : string) : HttpResponse :=
  HttpRedirect (if Py.truthy (QUERY_STRING (META request))
                then append_url_query_string E url (QUERY_STRING (META request))
                else url).

(** [rate_limit_spectator_attachment_access_by_file]: the access is counted,
    and the limiter returns or raises. *)
Definition rate_limit_spectator_attachment_access_by_file (key : string) : M DB unit :=
  (record_effect (SpectatorAttachmentAccess key) ;;
   c <- gets (rate_limit_spectator_attachment_access_by_file_checks E key) ;;
   lift c)%py.

Definition avatar_by_id (request : HttpRequest) (maybe_user_profile : option UserProfile)
    (user_id_param : Z) (medium : bool) : M DB HttpResponse :=
  (realm <- match maybe_user_profile with
            | None =>
                (* Allow anonymous access to avatars only if spectators are
                   enabled in the organization. *)
                c <- gets (get_valid_realm_from_request E request) ;;
                realm <- lift c ;;
                if negb (allow_web_public_streams_access E realm)
                then raise MissingAuthenticationError
                else
                  when (RATE_LIMITING E)
                    (let unique_avatar_key :=
                       pretty (realm_id realm) +:+ "/" +:+ pretty user_id_param +:+ "/" +:+
                       Py.str_of_bool medium in
                     rate_limit_spectator_attachment_access_by_file unique_avatar_key) ;;
                  ret realm
            | Some user => ret (realm user)
            end ;;
   found <- gets (get_user_by_id_in_realm_including_cross_realm E user_id_param realm) ;;
   url <- match found with
          | Some avatar_user_profile =>
              inaccessible <- match maybe_user_profile with
                              | Some user =>
                                  gets (λ db, negb (check_can_access_user E avatar_user_profile
                                                      user db))
                              | None => ret false
                              end ;;
              checked <- assert_url (if inaccessible : bool
                                     then get_avatar_for_inaccessible_user E
                                     else avatar_url E avatar_user_profile medium) ;;
              ret (Some checked)
          | None => ret (get_avatar_for_inaccessible_user E)
          end ;;
   url <- assert_url url ;;
   ret (redirect_with_query request url))%py.

Definition avatar_by_email (request : HttpRequest) (maybe_user_profile : option UserProfile)
    (address : string) (medium : bool) : M DB HttpResponse :=
  match maybe_user_profile with
  | None =>
      (* We only allow the ID format for accessing a user's avatar for
         spectators. *)
      raise MissingAuthenticationError
  | Some user =>
      (let realm := realm user in
       found <- gets (get_user_including_cross_realm E address realm) ;;
       url <- match found with
              | Some avatar_user_profile =>
                  accessible <- gets (check_can_access_user E avatar_user_profile user) ;;
                  checked <- assert_url (if negb accessible
                                         then get_avatar_for_inaccessible_user E
                                         else avatar_url E avatar_user_profile medium) ;;
                  ret (Some checked)
              | None =>
                  (* If there is no such user, treat it as a new gravatar *)
                  let avatar_version := 1 in
                  ret (get_gravatar_url E address avatar_version (realm_id realm) medium)
              end ;;
       url <- assert_url url ;;
       ret (redirect_with_query request url))%py
  end.

Definition avatar_medium (request : HttpRequest) (maybe_user_profile : option UserProfile)
    (address : option string) (user_id_param : option Z) : M DB HttpResponse :=
  if Py.truthy_opt address then
    avatar_by_email request maybe_user_profile (default "" address) true
  else
    match user_id_param with
    | Some uid => avatar_by_id request maybe_user_profile uid true
    | None => raise AssertionError
    end.

Definition get_stream_name (stream : option Stream) : option string :=
  stream_name <$> stream.

(** *** Patching a bot *)

Definition set_bot_owner_id (o : option Z) (u : UserProfile) : UserProfile :=
  mkUserProfile (user_id u) (realm u) (delivery_email u) (email u) (full_name u) (role u)
    (is_bot u) (bot_type u) o (is_active u) (avatar_source u) (api_key u)
    (default_sending_stream u) (default_events_register_stream u)
    (default_all_public_streams u) (can_change_user_emails u).

Definition set_default_sending_stream (st : option Stream) (u : UserProfile) : UserProfile :=
  mkUserProfile (user_id u) (realm u) (delivery_email u) (email u) (full_name u) (role u)
    (is_bot u) (bot_type u) (bot_owner_id u) (is_active u) (avatar_source u) (api_key u)
    st (default_events_register_stream u)
    (default_all_public_streams u) (can_change_user_emails u).

Definition set_default_events_register_stream (st : option Stream) (u : UserProfile)
    : UserProfile :=
  mkUserProfile (user_id u) (realm u) (delivery_email u) (email u) (full_name u) (role u)
    (is_bot u) (bot_type u) (bot_owner_id u) (is_active u) (avatar_source u) (api_key u)
    (default_sending_stream u) st
    (default_all_public_streams u) (can_change_user_emails u).

Definition set_default_all_public_streams (b : option bool) (u : UserProfile) : UserProfile :=
  mkUserProfile (user_id u) (realm u) (delivery_email u) (email u) (full_name u) (role u)
    (is_bot u) (bot_type u) (bot_owner_id u) (is_active u) (avatar_source u) (api_key u)
    (default_sending_stream u) (default_events_register_stream u)
    b (can_change_user_emails u).

Definition set_avatar_source (a : string) (u : UserProfile) : UserProfile :=
  mkUserProfile (user_id u) (realm u) (delivery_email u) (email u) (full_name u) (role u)
    (is_bot u) (bot_type u) (bot_owner_id u) (is_active u) a (api_key u)
    (default_sending_stream u) (default_events_register_stream u)
    (default_all_public_streams u) (can_change_user_emails u).

(** [bot.bot_owner]: the row the owner id of the bot refers to. *)
Definition bot_owner (bot : UserProfile) (db : DB) : option UserProfile :=
  o ← bot_owner_id bot; head (filter (λ u, user_id u = o) (users db)).

(** The look-up of a stream by the name given for a default stream: the
    empty name stands for no stream. *)
Definition stream_for_name (user_profile : UserProfile) (name : string)
    : M DB (option Stream) :=
  if bool_decide (name = "") then ret None
  else (c <- gets (access_stream_by_name E user_profile name) ;;
        stream <- lift c ;;
        ret (Some stream))%py.

(** [assert user_file.size is not None]. *)
Definition assert_file_size (f : UploadedFile) : M DB unit :=
  match file_size f with
  | Some _ => ret tt
  | None => raise AssertionError
  end.

(** The file both bot handlers upload: [[user_file] = request.FILES.values()],
    then the assertions that it is an [UploadedFile] and has a size. *)
Definition only_uploaded_file (request : HttpRequest) : M DB UploadedFile :=
  match MultiValueDict_values (FILES request) with
  | [] => raise (ValueError "not enough values to unpack (expected 1, got 0)")
  | [value] =>
      match value with
      | Some user_file => (assert_file_size user_file ;; ret user_file)%py
      | None => raise AssertionError
      end
  | _ => raise (ValueError "too many values to unpack (expected 1)")
  end.

Definition patch_bot_backend (request : HttpRequest) (user_profile : UserProfile)
    (bot_id : Z) (bot_owner_id_param : option Z) (config_data : option (list (string * string)))
    (default_all_public_streams_param : option bool)
    (default_events_register_stream_param default_sending_stream_param
       full_name_param : option string)
    (role_param : option Z) (service_interface : Z) (service_payload_url : option string)
    : M DB HttpResponse :=
  (c <- gets (access_bot_by_id E user_profile bot_id) ;;
   bot <- lift c ;;
   bot <- match full_name_param with
          | Some name =>
              c <- gets (check_change_bot_full_name_checks E bot name user_profile) ;;
              checked <- lift c ;;
              change_user bot (set_full_name checked)
                (FullNameChanged (user_id bot) checked (user_id user_profile))
          | None => ret bot
          end ;;
   bot <- match role_param with
          | Some new_role =>
              if bool_decide (role bot ≠ new_role) then
                (* Logic duplicated from update_user_backend. *)
                (if bool_decide (ROLE_REALM_OWNER E ∈ [new_role; role bot])
                    && negb (is_realm_owner user_profile)
                 then raise OrganizationOwnerRequiredError
                 else if negb (is_realm_admin user_profile)
                 then raise OrganizationAdministratorRequiredError
                 else ret tt) ;;
                do_change_user_role bot new_role user_profile
              else ret bot
          | None => ret bot
          end ;;
   bot <- match bot_owner_id_param with
          | Some owner_id =>
              if bool_decide (bot_owner_id bot ≠ Some owner_id) then
                found <- gets (get_user_profile_by_id_in_realm E owner_id (realm user_profile)) ;;
                match found with
                | None => raise (JsonableError (gettext "Failed to change owner, no such user"))
                | Some owner =>
                    if negb (is_active owner) then
                      raise (JsonableError (gettext "Failed to change owner, user is deactivated"))
                    else if is_bot owner then
                      raise (JsonableError
                               (gettext "Failed to change owner, bots can't own other bots"))
                    else if bool_decide (bot_owner_id bot ≠ Some (user_id owner)) then
                      change_user bot (set_bot_owner_id (Some (user_id owner)))
                        (BotOwnerChanged (user_id bot) (user_id owner) (user_id user_profile))
                    else ret bot
                end
              else ret bot
          | None => ret bot
          end ;;
   bot <- match default_sending_stream_param with
          | Some name =>
              stream <- stream_for_name user_profile name ;;
              change_user bot (set_default_sending_stream stream)
                (DefaultSendingStreamChanged (user_id bot) stream (user_id user_profile))
          | None => ret bot
          end ;;
   bot <- match default_events_register_stream_param with
          | Some name =>
              stream <- stream_for_name user_profile name ;;
              change_user bot (set_default_events_register_stream stream)
                (DefaultEventsRegisterStreamChanged (user_id bot) stream (user_id user_profile))
          | None => ret bot
          end ;;
   bot <- match default_all_public_streams_param with
          | Some value =>
              change_user bot (set_default_all_public_streams (Some value))
                (DefaultAllPublicStreamsChanged (user_id bot) value (user_id user_profile))
          | None => ret bot
          end ;;
   match service_payload_url with
   | Some base_url =>
       lift (check_valid_interface_type E service_interface) ;;
       record_effect (OutgoingWebhookServiceUpdated (user_id bot) service_interface base_url
                        (user_id user_profile))
   | None => ret tt
   end ;;
   match config_data with
   | Some config => record_effect (BotConfigDataUpdated (user_id bot) config)
   | None => ret tt
   end ;;
   bot <- (if bool_decide (MultiValueDict_len (FILES request) = 0%nat) then ret bot
           else if bool_decide (MultiValueDict_len (FILES request) = 1%nat) then
             user_file <- only_uploaded_file request ;;
             record_effect (AvatarImageUploaded user_file (user_id bot)) ;;
             let avatar_source := AVATAR_FROM_USER E in
             change_user bot (set_avatar_source avatar_source)
               (AvatarFieldsChanged (user_id bot) avatar_source (user_id user_profile))
           else raise (JsonableError (gettext "You may only upload one file at a time"))) ;;
   owner <- gets (bot_owner bot) ;;
   let json_result :=
     [("full_name", JStr (full_name bot));
      ("avatar_url", json_opt_str (avatar_url E bot false));
      ("service_interface", JInt service_interface);
      ("service_payload_url", json_opt_str service_payload_url);
      ("config_data", match config_data with Some c => JDict c | None => JNull end);
      ("default_sending_stream", json_opt_str (get_stream_name (default_sending_stream bot)));
      ("default_events_register_stream",
         json_opt_str (get_stream_name (default_events_register_stream bot)));
      ("default_all_public_streams", json_opt_bool (default_all_public_streams bot))]
     (* Don't include the bot owner in case it is not set. *)
     ++ match owner with
        | Some o => [("bot_owner", JStr (email o))]
        | None => []
        end in
   ret (json_success request json_result))%py.

(** *** Creating a bot *)

(** The keyword parameters of [add_bot_backend]. *)
Record AddBotParams : Type := mkAddBotParams {
  bot_type_param : Z;
  config_data_param : option (list (string * string));
  default_all_public_streams_param : option bool;
  default_events_register_stream_name : option string;
  default_sending_stream_name : option string;
  full_name_raw : string;
  interface_type : Z;
  payload_url : string;
  service_name_param : option string;
  short_name_raw : string;
}.

Definition carriage_return : ascii := Ascii.ascii_of_N 13.
Definition double_quote : ascii := Ascii.ascii_of_N 34.
Definition backslash : ascii := Ascii.ascii_of_N 92.

Fixpoint string_exists (p : ascii → bool) (s : string) : bool :=
  match s with
  | EmptyString => false
  | String c rest => p c || string_exists p rest
  end.

(** The characters that end a dot-atom in [email._header_value_parser]:
    the specials other than the dot, and white space. *)
Definition in_DOT_ATOM_ENDS (c : ascii) : bool :=
  bool_decide (Ascii.N_of_ascii c ∈ [40; 41; 60; 62; 64; 44; 58; 59; 92; 34; 91; 93; 32; 9]%N).

(** [email._header_value_parser.quote_string]. *)
Fixpoint quote_string_body (s : string) : string :=
  match s with
  | EmptyString => EmptyString
  | String c rest =>
      if bool_decide (c = backslash) || bool_decide (c = double_quote)
      then String backslash (String c (quote_string_body rest))
      else String c (quote_string_body rest)
  end.

Definition quote_string (s : string) : string :=
  String double_quote (quote_string_body s +:+ String double_quote EmptyString).

(** [Address(username=username, domain=domain).addr_spec] of the standard
    library's [email.headerregistry]: the constructor refuses parts with a
    CR or LF, and a local part that is no dot-atom is quoted. *)
Definition Address_addr_spec (username domain : string) : result string :=
  if string_exists (λ c, bool_decide (c = carriage_return) || bool_decide (c = Forms.newline))
       (username +:+ domain)
  then Raise (ValueError "invalid arguments; address parts cannot contain CR or LF")
  else
    let lp := if string_exists in_DOT_ATOM_ENDS username then quote_string username
              else username in
    if Py.truthy domain then Ok (lp +:+ "@" +:+ domain)
    else if negb (Py.truthy lp) then Ok "<>"
    else Ok lp.

(** [CreateUserForm({"full_name": .., "email": ..}).is_valid()] for the form
    declared in [forms.py]: [full_name] is a required [CharField] of at most
    100 characters, validated after stripping, and [email] an [EmailField],
    whose validation is the environment's. *)
Definition CreateUserForm_is_valid (name address : string) : bool :=
  negb (bool_decide (Py.strip name = "")) && (Py.len (Py.strip name) <=? 100)
  && email_field_valid E address.

(** Modelled from the spec: the look-up [get_user_by_delivery_email] of
    [zerver/models/users.py], which is not among the source files; the
    account of the realm that uses the address ("email already in use"). *)
Definition get_user_by_delivery_email (address : string) (r : Realm) (db : DB)
    : option UserProfile :=
  head (filter (λ u, delivery_email u = address ∧ realm_id (realm u) = realm_id r) (users db)).

(** The error of a bot name that is taken. *)
Definition bot_name_collision_error : exn :=
  JsonableError (gettext "Name is already in use.").

(** Modelled from the spec: the check [check_bot_name_available] of
    [zerver/lib/users.py], which is not among the source files; it fails when
    the "name collides with existing full name". Only active accounts count:
    [reactivate_user_backend] runs the same check for the name of the
    deactivated bot it is about to reactivate. *)
Definition check_bot_name_available (rid : Z) (name : string) (is_activation : bool) (db : DB)
    : result unit :=
  if bool_decide (Exists (λ u, realm_id (realm u) = rid ∧ full_name u = name
                               ∧ is_active u = true) (users db))
  then Raise (if is_activation
              then JsonableError (gettext "There is already an active bot with this name.")
              else bot_name_collision_error)
  else Ok tt.

(** What the checks of [add_bot_backend] compute for the rest of it. *)
Record CheckedBot : Type := mkCheckedBot {
  checked_service_name : option string;
  checked_full_name : string;
  checked_email : string;
}.

(** The first part of [add_bot_backend]: the names and the address of the
    bot are derived from the parameters, and the embedded-bot settings and
    the form are checked. It reads the state only through [check_full_name]. *)
Definition add_bot_backend_identity (user_profile : UserProfile) (p : AddBotParams) (db : DB)
    : result CheckedBot :=
  (short_name <~ check_short_name E (short_name_raw p) ;;
   let service_name :=
     if bool_decide (bot_type_param p ≠ INCOMING_WEBHOOK_BOT E)
     then (if Py.truthy_opt (service_name_param p) then service_name_param p
           else Some short_name)
     else service_name_param p in
   let short_name := short_name +:+ "-bot" in
   name <~ check_full_name E (full_name_raw p) user_profile (realm user_profile) db ;;
   address <~ match rbind (get_bot_domain E (realm user_profile)) (Address_addr_spec short_name) with
              | Raise InvalidFakeEmailDomainError =>
                  Raise (JsonableError (gettext
                    "Can't create bots until FAKE_EMAIL_DOMAIN is correctly configured.
Please contact your server administrator."))
              | Raise (ValueError _) => Raise (JsonableError (gettext "Bad name or username"))
              | other => other
              end ;;
   _ <~ (if bool_decide (bot_type_param p = EMBEDDED_BOT E) then
           if negb (EMBEDDED_BOTS_ENABLED E) then
             Raise (JsonableError (gettext "Embedded bots are not enabled."))
           else if negb (bool_decide (Exists (λ n, service_name = Some n) (EMBEDDED_BOTS E)))
           then Raise (JsonableError (gettext "Invalid embedded bot name."))
           else Ok tt
         else Ok tt) ;;
   if negb (CreateUserForm_is_valid name address) then
     Raise (JsonableError (gettext "Bad name or username"))
   else Ok (mkCheckedBot service_name name address))%py.

(** [add_bot_backend] up to the look at the uploaded files: the identity of
    the bot, then the checks that its address and its name are free and that
    the caller may create it. None of it writes to the state. *)
Definition add_bot_backend_checks (user_profile : UserProfile) (p : AddBotParams) (db : DB)
    : result CheckedBot :=
  (checked <~ add_bot_backend_identity user_profile p db ;;
   match get_user_by_delivery_email (checked_email checked) (realm user_profile) db with
   | Some _ => Raise EmailAlreadyInUseError
   | None =>
       _ <~ check_bot_name_available (realm_id (realm user_profile))
              (checked_full_name checked) false db ;;
       _ <~ check_can_create_bot E user_profile (bot_type_param p) db ;;
       _ <~ check_valid_bot_type E user_profile (bot_type_param p) db ;;
       _ <~ check_valid_interface_type E (interface_type p) ;;
       Ok checked
   end)%py.

(** Modelled from the spec: the action [do_create_user] of
    [zerver/actions/create_user.py], which is not among the source files; it
    "create[s] the account (owner = caller)": a new active row that carries the
    attributes the caller passes. What the action chooses itself (the new id,
    the role, the API key) comes from the environment's [new_user_defaults]. *)
Definition do_create_user (address : string) (r : Realm) (name : string)
    (bot_type_arg : option Z) (owner : option UserProfile) (avatar_source_arg : string)
    (sending events : option Stream) (all_public : option bool) (acting_user : UserProfile)
    : M DB UserProfile :=
  (d <- gets (new_user_defaults E) ;;
   let u := mkUserProfile (user_id d) r address address name (role d)
              (bool_decide (bot_type_arg ≠ None)) bot_type_arg (user_id <$> owner) true
              avatar_source_arg (api_key d) sending events all_public
              (can_change_user_emails d) in
   modify (λ db, mkDB (users db ++ [u]) (journal db)) ;;
   record_effect (UserCreated (user_id u)) ;;
   ret u)%py.

(** [access_stream_by_name] for an optional stream name. *)
Definition stream_for_optional_name (user_profile : UserProfile) (name : option string)
    : M DB (option Stream) :=
  match name with
  | Some n => (c <- gets (access_stream_by_name E user_profile n) ;;
               stream <- lift c ;;
               ret (Some stream))%py
  | None => ret None
  end.

(** The loop [for key, value in config_data.items(): set_bot_config(..)]. *)
Fixpoint set_bot_config_items (bot : Z) (items : list (string * string)) : M DB unit :=
  match items with
  | [] => ret tt
  | (key, value) :: rest =>
      (record_effect (BotConfigSet bot key value) ;; set_bot_config_items bot rest)%py
  end.

Definition add_bot_backend (request : HttpRequest) (user_profile : UserProfile)
    (p : AddBotParams) : M DB HttpResponse :=
  (let config_data := default [] (config_data_param p) in
   c <- gets (add_bot_backend_checks user_profile p) ;;
   checked <- lift c ;;
   let service_name := checked_service_name checked in
   let bot_type := bot_type_param p in
   avatar_source <- (if bool_decide (MultiValueDict_len (FILES request) = 0%nat)
                     then ret (AVATAR_FROM_GRAVATAR E)
                     else if bool_decide (MultiValueDict_len (FILES request) ≠ 1%nat)
                     then raise (JsonableError
                                   (gettext "You may only upload one file at a time"))
                     else ret (AVATAR_FROM_USER E)) ;;
   sending_stream <- stream_for_optional_name user_profile
                       (default_sending_stream_name p) ;;
   events_register_stream <- stream_for_optional_name user_profile
                               (default_events_register_stream_name p) ;;
   (if bool_decide (bot_type ∈ [INCOMING_WEBHOOK_BOT E; EMBEDDED_BOT E])
       && Py.truthy_opt service_name
    then lift (check_valid_bot_config E bot_type (default "" service_name) config_data)
    else ret tt) ;;
   bot_profile <- do_create_user (checked_email checked) (realm user_profile)
                    (checked_full_name checked) (Some bot_type) (Some user_profile)
                    avatar_source sending_stream events_register_stream
                    (default_all_public_streams_param p) user_profile ;;
   (if bool_decide (MultiValueDict_len (FILES request) = 1%nat) then
      user_file <- only_uploaded_file request ;;
      record_effect (AvatarImageUploaded user_file (user_id bot_profile))
    else ret tt) ;;
   (if bool_decide (bot_type ∈ [OUTGOING_WEBHOOK_BOT E; EMBEDDED_BOT E]) then
      match service_name with
      | Some name =>
          token <- gets (generate_api_key E) ;;
          record_effect (ServiceAdded name (user_id bot_profile) (payload_url p)
                           (interface_type p) token)
      | None => raise AssertionError
      end
    else ret tt) ;;
   when (bool_decide (bot_type = INCOMING_WEBHOOK_BOT E) && Py.truthy_opt service_name)
     (record_effect (BotConfigSet (user_id bot_profile) "integration_id"
                       (default "" service_name))) ;;
   when (bool_decide (bot_type ∈ [INCOMING_WEBHOOK_BOT E; EMBEDDED_BOT E]))
     (set_bot_config_items (user_id bot_profile) config_data) ;;
   record_effect (CreatedBotNotified (user_id bot_profile)) ;;
   let key := api_key bot_profile in
   let json_result :=
     [("user_id", JInt (user_id bot_profile));
      ("api_key", JStr key);
      ("avatar_url", json_opt_str (avatar_url E bot_profile false));
      ("default_sending_stream",
         json_opt_str (get_stream_name (default_sending_stream bot_profile)));
      ("default_events_register_stream",
         json_opt_str (get_stream_name (default_events_register_stream bot_profile)));
      ("default_all_public_streams", json_opt_bool (default_all_public_streams bot_profile))] in
   ret (json_success request json_result))%py.

End Handlers.

(** *** Deactivating another user or a bot *)

(** A call of [send_email]. *)
Record sent_email : Type := mkSentEmail {
  template_prefix : string;
  to_user_ids : list Z;
  from_address : string;
  email_context : list (string * string);
}.

(** The state of the handlers that send mail: the server state and the
    emails handed to the mailer. *)
Record MailDB : Type := mkMailDB {
  mail_db : DB;
  mail_outbox : list sent_email;
}.

(** What these handlers use beside [UsersEnv]: [access_user_by_id
    user_profile user_id allow_deactivated allow_bots for_admin], where an
    argument the caller leaves to its default is [None], the property
    [Realm.url], the constant [FromAddress.NOREPLY], and what becomes of an
    email given to [send_email]: it is accepted, or the call raises. *)
Record DeactivateEnv : Type := mkDeactivateEnv {
  access_user_by_id :
    UserProfile → Z → option bool → option bool → bool → DB → result UserProfile;
  realm_url : Realm → string;
  FromAddress_NOREPLY : string;
  send_email_outcome : sent_email → result unit;
}.

(** Runs a computation on the server state inside the larger state. *)
Definition on_db {A} (m : M DB A) : M MailDB A :=
  λ s, let '(r, db) := m (mail_db s) in (r, mkMailDB db (mail_outbox s)).

Section Deactivation.
Context (E : UsersEnv) (D : DeactivateEnv).

(** Modelled from the spec: [send_email] of [zerver/lib/send_email.py],
    which is not among the source files. Email delivery is one of the
    "black-box services the core calls": a call hands the email to the
    mailer, or it raises and hands over nothing. *)
Definition send_email (e : sent_email) : M MailDB unit :=
  (lift (send_email_outcome D e) ;;
   modify (λ s, mkMailDB (mail_db s) (mail_outbox s ++ [e])))%py.

Definition _deactivate_user_profile_backend (request : HttpRequest)
    (user_profile target : UserProfile) (deactivation_notification_comment : option string)
    : M MailDB HttpResponse :=
  (on_db (do_deactivate_user target user_profile) ;;
   (* It's important that we check for None explicitly here, since ""
      encodes sending an email without a custom administrator comment. *)
   match deactivation_notification_comment with
   | Some comment =>
       send_email (mkSentEmail "zerver/emails/deactivate" [user_id target]
                     (FromAddress_NOREPLY D)
                     [("deactivation_notification_comment", comment);
                      ("realm_url", realm_url D (realm target));
                      ("realm_name", realm_name (realm target))])
   | None => ret tt
   end ;;
   ret (json_success request []))%py.

Definition deactivate_user_backend (request : HttpRequest) (user_profile : UserProfile)
    (deactivation_notification_comment : option string) (user_id_param : Z)
    : M MailDB HttpResponse :=
  (c <- gets (λ s, access_user_by_id D user_profile user_id_param None None true (mail_db s)) ;;
   target <- lift c ;;
   if is_realm_owner E target && negb (is_realm_owner E user_profile) then
     raise OrganizationOwnerRequiredError
   else
     last <- gets (λ s, check_last_owner E target (mail_db s)) ;;
     if last : bool then
       raise (JsonableError (gettext "Cannot deactivate the only organization owner"))
     else
       _deactivate_user_profile_backend request user_profile target
         (Py.strip <$> deactivation_notification_comment))%py.

Definition deactivate_bot_backend (request : HttpRequest) (user_profile : UserProfile)
    (bot_id : Z) : M MailDB HttpResponse :=
  (c <- gets (λ s, access_bot_by_id E user_profile bot_id (mail_db s)) ;;
   target <- lift c ;;
   _deactivate_user_profile_backend request user_profile target None)%py.

End Deactivation.

End Users.

(** Splits a hypothesis [H : x ∈ l], for a list [l] given by its elements,
    into one goal per element. *)
Ltac each_element H :=
  repeat (apply elem_of_cons in H as [->|H]); [..|by apply elem_of_nil in H].

(** ** Concrete requests and environments

    Small instances of the environments, used to run the handlers. *)

Module Scenario.

(** A captcha library whose solution ["solved"] carries the challenge
    ["c1"] and expires after the clock reading 1000. *)
Definition captcha_settings : Forms.CaptchaSettings :=
  Forms.mkCaptchaSettings true (Some "secret").

Definition captcha_lib : Forms.CaptchaLib :=
  Forms.mkCaptchaLib
    (λ now payload key check_expires,
       if bool_decide (payload = "solved") then
         if negb check_expires || (now <=? 1000) then Forms.VerifyReturned true None
         else Forms.VerifyReturned false (Some "Altcha payload expired.")
       else Forms.VerifyReturned false (Some "Invalid solution."))
    (λ payload, Ok payload)
    (λ raw, Ok {["challenge" := "c1"]}).

Definition captcha_data : gmap string string := {["captcha" := "solved"]}.

Definition captcha_state : Forms.CaptchaState :=
  Forms.mkCaptchaState {["altcha_challenges" := [("c1", 1000); ("c2", 2000)]]} [].

(** A realm with password authentication, and a rate limiter that keeps the
    keys it was asked about and reports a key as limited, for 60 seconds, once
    it has been asked about it twice. No account uses any address. *)
Definition acme : Realm := mkRealm 1 "acme" "Acme" false.

Definition reset_env : Forms.PasswordResetEnv (list string) :=
  Forms.mkPasswordResetEnv (list string)
    true [(3600, 2)]
    request_host
    (λ subdomain, if bool_decide (subdomain = "acme") then Ok acme else Raise RealmDoesNotExist)
    (λ _, true)
    (λ _ _, false)
    (λ key rules seen,
       (bool_decide (2 ≤ length (filter (λ k, k = key) seen))%nat, 60, key :: seen))
    (λ request domain seen, (Ok tt, seen))
    (λ _ _, None).

(** The same realm with password authentication switched off. *)
Definition reset_env_no_password : Forms.PasswordResetEnv (list string) :=
  Forms.mkPasswordResetEnv (list string)
    true [(3600, 2)]
    request_host
    (λ subdomain, if bool_decide (subdomain = "acme") then Ok acme else Raise RealmDoesNotExist)
    (λ _, false)
    (λ _ _, false)
    (λ key rules seen,
       (bool_decide (2 ≤ length (filter (λ k, k = key) seen))%nat, 60, key :: seen))
    (λ request domain seen, (Ok tt, seen))
    (λ _ _, None).

(** The same realm behind a limiter by IP that refuses the address
    [10.0.0.7] for 30 seconds. *)
Definition reset_env_ip_limited : Forms.PasswordResetEnv (list string) :=
  Forms.mkPasswordResetEnv (list string)
    true [(3600, 2)]
    request_host
    (λ subdomain, if bool_decide (subdomain = "acme") then Ok acme else Raise RealmDoesNotExist)
    (λ _, true)
    (λ _ _, false)
    (λ key rules seen,
       (bool_decide (2 ≤ length (filter (λ k, k = key) seen))%nat, 60, key :: seen))
    (λ request domain seen,
       (if bool_decide (REMOTE_ADDR (META request) = "10.0.0.7")
        then Raise (RateLimitedError 30) else Ok tt, domain :: seen))
    (λ _ _, None).

Definition reset_request : HttpRequest :=
  mkHttpRequest "acme" (mkRequestMeta "10.0.0.7" "") ∅.

Definition reset_state_fresh : Forms.ResetState (list string) :=
  Forms.mkResetState [] [] [].

Definition reset_state_limited : Forms.ResetState (list string) :=
  Forms.mkResetState
    ["RateLimitedPasswordResetByEmail:ghost@example.com";
     "RateLimitedPasswordResetByEmail:ghost@example.com"] [] [].

(** The realm [acme] with the bot domain [bots.example.com], open to
    spectators; the checks of the libraries pass, names are stripped, and
    look-ups read the [UserProfile] table. *)
Definition human (uid : Z) (address name : string) (user_role : Z) (can_change_emails : bool)
    : UserProfile :=
  mkUserProfile uid acme address address name user_role false None None true "G"
    ("key-" +:+ pretty uid) None None None can_change_emails.

Definition iago : UserProfile := human 1 "iago@acme.example" "Iago" 100 true.
Definition hamlet : UserProfile := human 2 "hamlet@acme.example" "Hamlet" 400 false.
Definition othello : UserProfile := human 3 "othello@acme.example" "Othello" 200 false.

Definition users_env : Users.UsersEnv :=
  Users.mkUsersEnv
    100 200 600
    1 2 3 4
    "G" "U"
    false true true ["helloworld"]
    (λ _ _, Ok tt)
    (λ _ name _ _, Ok (Py.strip name))
    (λ _ name _ _, Ok (Py.strip name))
    (λ _ _ _, Ok tt)
    (λ _ _ _ _, Ok tt)
    (λ _, true)
    (λ _ _ _, Ok tt)
    (λ request _, if bool_decide (request_host request = "acme") then Ok acme
                  else Raise RealmDoesNotExist)
    (λ r, bool_decide (realm_id r = 1))
    (λ _ _, Ok tt)
    (λ uid r db, head (filter (λ u, user_id u = uid ∧ realm_id (realm u) = realm_id r)
                         (Users.users db)))
    (λ address r db, head (filter (λ u, email u = address ∧ realm_id (realm u) = realm_id r)
                             (Users.users db)))
    (λ _ _ _, true)
    (Some "/static/images/unknown-user-avatar.png")
    (λ u medium, Some ("/user_avatars/" +:+ pretty (user_id u)
                       +:+ (if medium then "-medium.png" else ".png")))
    (λ address version rid medium, Some ("https://secure.gravatar.com/avatar/" +:+ address))
    (λ url query, url +:+ "?" +:+ query)
    (λ _ bot_id db,
       match head (filter (λ u, user_id u = bot_id ∧ is_bot u = true) (Users.users db)) with
       | Some bot => Ok bot
       | None => Raise (JsonableError "No such bot")
       end)
    (λ uid r db, head (filter (λ u, user_id u = uid ∧ realm_id (realm u) = realm_id r)
                         (Users.users db)))
    (λ _ _ _, Raise (JsonableError "Invalid channel name"))
    (λ _, Ok tt)
    (λ raw, if bool_decide (Py.strip raw = "") then Raise (JsonableError "Bad name or username")
            else Ok (Py.strip raw))
    (λ raw _ _ _, Ok (Py.strip raw))
    (λ _, Ok "bots.example.com")
    (λ _, true)
    (λ _ _ _, Ok tt)
    (λ _ _ _, Ok tt)
    (λ _ _ _, Ok tt)
    (λ db, "token-" +:+ pretty (length (Users.journal db)))
    (λ db, mkUserProfile (1 + Z.of_nat (length (Users.users db))) acme "" "" "" 400 false None
             None true "G" ("key-" +:+ pretty (1 + Z.of_nat (length (Users.users db))))
             None None None false).

Definition plain_request : HttpRequest :=
  mkHttpRequest "acme" (mkRequestMeta "10.0.0.7" "") ∅.

Definition polonius_bot : UserProfile :=
  mkUserProfile 4 acme "polonius-bot@bots.example.com" "polonius-bot@bots.example.com"
    "Polonius" 400 true (Some 1) (Some 2) true "G" "key-4" None None None false.

(** A realm with one user, a realm with its owner and two more users, and
    the latter with a bot of Hamlet's. *)
Definition db_solo : Users.DB := Users.mkDB [iago] [].
Definition db_three : Users.DB := Users.mkDB [iago; hamlet; othello] [].
Definition db_with_bot : Users.DB := Users.mkDB [iago; hamlet; othello; polonius_bot] [].

(** Hamlet's request for a bot with the short name [foo], the same request
    with files under two field names, and with two files under one field
    name; a request for a bot whose address Polonius's bot has. *)
Definition foo_params : Users.AddBotParams :=
  Users.mkAddBotParams 1 None None None None "Foo Bot" 1 "" None "foo".

Definition bar_params : Users.AddBotParams :=
  Users.mkAddBotParams 1 None None None None "Foo Bot" 1 "" None "bar".




(** A validator of addresses that refuses the empty string, and a login on
    the wrong subdomain: [authenticate] resolves no user and flags the
    matching account of another realm. *)
Definition refuse_empty (address : string) : result unit :=
  if bool_decide (address = "") then Raise (ValidationError "Enter a valid email address.")
  else Ok tt.

Definition auth_env : Forms.AuthEnv :=
  Forms.mkAuthEnv
    request_host
    (λ subdomain, if bool_decide (subdomain = "acme") then Ok acme else Raise RealmDoesNotExist)
    (λ _ _ _ _, Forms.Authenticated None {["invalid_subdomain" := true]} "[7]")
    (λ _, Ok tt).

(** A second owner of the realm, the table with both owners, and the
    look-up of [access_user_by_id] by id alone, with the state of the mail
    handlers on that table. *)
Definition emilia : UserProfile := human 5 "emilia@acme.example" "Emilia" 100 true.

Definition db_two_owners : Users.DB := Users.mkDB [iago; emilia; hamlet] [].

Definition deactivate_env : Users.DeactivateEnv :=
  Users.mkDeactivateEnv
    (λ _ uid _ _ _ db,
       match head (filter (λ u, user_id u = uid) (Users.users db)) with
       | Some target => Ok target
       | None => Raise (JsonableError "No such user")
       end)
    (λ r, "https://" +:+ string_id r +:+ ".example.com")
    "noreply@example.com"
    (λ _, Ok tt).

Definition mail_two_owners : Users.MailDB := Users.mkMailDB db_two_owners [].

Definition mail_with_bot : Users.MailDB := Users.mkMailDB db_with_bot [].

(** The same environment where a guest may see no other account, and the
    realm's table with a guest. *)
Definition guarded_users_env : Users.UsersEnv :=
  Users.mkUsersEnv
    (Users.ROLE_REALM_OWNER users_env) (Users.ROLE_REALM_ADMINISTRATOR users_env)
    (Users.ROLE_GUEST users_env) (Users.DEFAULT_BOT users_env)
    (Users.INCOMING_WEBHOOK_BOT users_env) (Users.OUTGOING_WEBHOOK_BOT users_env)
    (Users.EMBEDDED_BOT users_env) (Users.AVATAR_FROM_GRAVATAR users_env)
    (Users.AVATAR_FROM_USER users_env) (Users.BILLING_ENABLED users_env)
    (Users.RATE_LIMITING users_env) (Users.EMBEDDED_BOTS_ENABLED users_env)
    (Users.EMBEDDED_BOTS users_env)
    (Users.check_spare_license_available_for_changing_guest_user_role users_env)
    (Users.check_change_full_name_checks users_env)
    (Users.check_change_bot_full_name_checks users_env)
    (Users.check_remove_custom_profile_field_value_checks users_env)
    (Users.validate_user_custom_profile_data users_env) (Users.validate_email users_env)
    (Users.validate_email_not_already_in_realm users_env)
    (Users.get_valid_realm_from_request users_env)
    (Users.allow_web_public_streams_access users_env)
    (Users.rate_limit_spectator_attachment_access_by_file_checks users_env)
    (Users.get_user_by_id_in_realm_including_cross_realm users_env)
    (Users.get_user_including_cross_realm users_env)
    (λ target user _, bool_decide (role user ≠ Users.ROLE_GUEST users_env))
    (Users.get_avatar_for_inaccessible_user users_env) (Users.avatar_url users_env)
    (Users.get_gravatar_url users_env) (Users.append_url_query_string users_env)
    (Users.access_bot_by_id users_env) (Users.get_user_profile_by_id_in_realm users_env)
    (Users.access_stream_by_name users_env) (Users.check_valid_interface_type users_env)
    (Users.check_short_name users_env) (Users.check_full_name users_env)
    (Users.get_bot_domain users_env) (Users.email_field_valid users_env)
    (Users.check_can_create_bot users_env) (Users.check_valid_bot_type users_env)
    (Users.check_valid_bot_config users_env) (Users.generate_api_key users_env)
    (Users.new_user_defaults users_env).

Definition ophelia : UserProfile := human 6 "ophelia@acme.example" "Ophelia" 600 false.

Definition db_with_guest : Users.DB := Users.mkDB [iago; hamlet; ophelia] [].

End Scenario.

(** * Properties *)

(** ** The subdomain validator *)

Section SubdomainProperties.
Import Forms.

Lemma string_get_in_range (s : string) (n : nat) :
  (n < String.length s)%nat → ∃ c, String.get n s = Some c.
Proof.
  revert n. induction s as [|c s IH]; intros n Hn; simpl in *; [lia|].
  destruct n as [|n]; [by eexists|]. apply IH. lia.
Qed.

Lemma str_getitem_first (c : ascii) (s : string) :
  Py.str_getitem (String c s) 0 = Ok c.
Proof.
  unfold Py.str_getitem, Py.len. simpl String.length.
  replace (0 <? 0) with false by done.
  replace (0 <? 0) with false by done.
  destruct (Z.leb_spec (Z.of_nat (S (String.length s))) 0); [lia|done].
Qed.

Lemma str_getitem_last (s : string) :
  s ≠ EmptyString → ∃ c, Py.str_getitem s (-1) = Ok c.
Proof.
  intros Hs. unfold Py.str_getitem, Py.len.
  assert (0 < String.length s)%nat as Hlen by (destruct s; simpl; [done|lia]).
  replace (-1 <? 0) with true by done.
  destruct (Z.ltb_spec (-1 + Z.of_nat (String.length s)) 0); [lia|].
  destruct (Z.leb_spec (Z.of_nat (String.length s)) (-1 + Z.of_nat (String.length s))); [lia|].
  simpl orb. cbv iota.
  destruct (string_get_in_range s (Z.to_nat (-1 + Z.of_nat (String.length s)))) as [c Hc];
    [lia|]. rewrite Hc. by eexists.
Qed.

(** A string matched with at least [n] characters of the class is matched by
    the pattern with the star, and is at least [n] characters long. *)
Lemma re_match_subdomain_class_weaken (n : nat) (s : string) :
  re_match_subdomain_class n s = true →
  re_match_subdomain_class 0 s = true ∧ (n ≤ String.length s)%nat.
Proof.
  revert n. induction s as [|c s IH]; intros n; simpl.
  - intros Hn%bool_decide_eq_true. by subst.
  - destruct (in_subdomain_class c).
    + intros [H1 H2]%IH. split; [|lia].
      destruct n; [done|]. exact H1.
    + intros [[Hn%bool_decide_eq_true Hc]%andb_prop Hr]%andb_prop. subst n.
      split; [|lia]. by rewrite Hc, Hr.
Qed.

(** Once the sentinel branch is passed, a non-empty subdomain is read at its
    two ends without an [IndexError]. *)
Lemma extremal_reads_in_range (s : string) :
  s ≠ EmptyString →
  ∃ first last,
    Py.str_getitem s 0 = Ok first ∧ Py.str_getitem s (-1) = Ok last.
Proof.
  intros Hs. destruct (str_getitem_last s Hs) as [l Hl].
  destruct s as [|c s]; [done|]. exists c, l. split; [apply str_getitem_first|done].
Qed.

(** C5. Every subdomain that matches [^[a-z0-9-]{3,}$], has no dash at
    either end, is the [string_id] of no realm and is not reserved is
    accepted: the validator returns without raising, whatever the
    [allow_reserved_subdomain] flag. *)
Theorem check_subdomain_available_accepts (E : SubdomainEnv) (subdomain : string)
    (allow_reserved_subdomain : bool) :
  re_match_subdomain_class 3 subdomain = true →
  Py.str_getitem subdomain 0 ≠ Ok dash →
  Py.str_getitem subdomain (-1) ≠ Ok dash →
  realm_with_string_id_exists (realm_objects E) subdomain = false →
  is_reserved_subdomain E subdomain = false →
  check_subdomain_available E subdomain allow_reserved_subdomain = Ok tt.
Proof.
  intros Hre Hfirst Hlast Hfree Hres.
  destruct (re_match_subdomain_class_weaken _ _ Hre) as [Hstar Hlen].
  unfold check_subdomain_available.
  case_bool_decide as Hroot.
  - unfold is_root_domain_available. rewrite <- Hroot, Hfree. done.
  - assert (subdomain ≠ EmptyString) as Hne by (intros ->; simpl in Hlen; lia).
    destruct (extremal_reads_in_range subdomain Hne) as (f & l & Hf & Hl).
    rewrite Hf in *. rewrite Hl in *. simpl.
    rewrite bool_decide_eq_false_2 by congruence. simpl.
    rewrite bool_decide_eq_false_2 by congruence.
    rewrite Hstar. simpl.
    destruct (Z.ltb_spec (Py.len subdomain) 3) as [Hshort|_];
      [unfold Py.len in Hshort; lia|].
    by rewrite Hfree, Hres.
Qed.

(** The validator at a concrete subdomain that meets the five conditions. *)
Lemma check_subdomain_available_accepts_witness :
  check_subdomain_available
    (mkSubdomainEnv "" (λ s, bool_decide (s = "zulip")) [mkRealm 1 "acme" "Acme" false])
    "team-42" false = Ok tt.
Proof.
  apply check_subdomain_available_accepts; vm_compute; congruence.
Defined.

(** C6. The root-domain sentinel is accepted exactly when no realm has it
    as its [string_id]; when a realm has, the check fails with the
    "unavailable" error. *)
Theorem check_subdomain_available_root_domain (E : SubdomainEnv)
    (allow_reserved_subdomain : bool) :
  (check_subdomain_available E (SUBDOMAIN_FOR_ROOT_DOMAIN E) allow_reserved_subdomain = Ok tt
   ↔ ¬ Exists (λ r, string_id r = SUBDOMAIN_FOR_ROOT_DOMAIN E) (realm_objects E))
  ∧ (Exists (λ r, string_id r = SUBDOMAIN_FOR_ROOT_DOMAIN E) (realm_objects E) →
     check_subdomain_available E (SUBDOMAIN_FOR_ROOT_DOMAIN E) allow_reserved_subdomain
     = Raise (ValidationError (error_strings unavailable))).
Proof.
  unfold check_subdomain_available, is_root_domain_available, realm_with_string_id_exists.
  rewrite bool_decide_eq_true_2 by done.
  case_bool_decide as Hex; simpl; (split; [split|]); intros; done.
Qed.

(** C10. The two ends of the input are read only on the branch that the
    sentinel does not take: for an input that is non-empty or is the
    sentinel, no read is out of range, and the validator returns or raises a
    validation error. *)
Theorem check_subdomain_available_no_index_error (E : SubdomainEnv) (subdomain : string)
    (allow_reserved_subdomain : bool) :
  subdomain ≠ EmptyString ∨ subdomain = SUBDOMAIN_FOR_ROOT_DOMAIN E →
  (∀ msg, check_subdomain_available E subdomain allow_reserved_subdomain
          ≠ Raise (IndexError msg))
  ∧ (check_subdomain_available E subdomain allow_reserved_subdomain = Ok tt
     ∨ ∃ e, check_subdomain_available E subdomain allow_reserved_subdomain = Raise e
            ∧ is_validation_error e = true).
Proof.
  intros Hpre.
  assert (check_subdomain_available E subdomain allow_reserved_subdomain = Ok tt
     ∨ ∃ e, check_subdomain_available E subdomain allow_reserved_subdomain = Raise e
            ∧ is_validation_error e = true) as Hres.
  { unfold check_subdomain_available.
    case_bool_decide as Hroot.
    - destruct (is_root_domain_available E); [by left|right; by eexists].
    - destruct Hpre as [Hne|Heq]; [|done].
      destruct (extremal_reads_in_range subdomain Hne) as (f & l & Hf & Hl).
      rewrite Hf, Hl. simpl.
      repeat match goal with
             | |- context [if ?b then _ else _] => destruct b; simpl
             end; (by left) || (right; by eexists). }
  split; [|exact Hres].
  intros msg Hmsg. rewrite Hmsg in Hres.
  destruct Hres as [?|(e & [= <-] & He)]; done.
Qed.

(** The validator at a non-empty input that is not the sentinel. *)
Lemma check_subdomain_available_no_index_error_witness :
  let E := mkSubdomainEnv "" (λ s, bool_decide (s = "zulip")) [mkRealm 1 "acme" "Acme" false] in
  ("-" ≠ EmptyString ∨ "-" = SUBDOMAIN_FOR_ROOT_DOMAIN E)
  ∧ (∀ msg, check_subdomain_available E "-" false ≠ Raise (IndexError msg))
  ∧ (check_subdomain_available E "-" false = Ok tt
     ∨ ∃ e, check_subdomain_available E "-" false = Raise e ∧ is_validation_error e = true).
Proof.
  split; [left; discriminate|].
  apply check_subdomain_available_no_index_error. left. discriminate.
Defined.

End SubdomainProperties.

(** ** Single use of a captcha challenge *)

Section CaptchaProperties.
Import Forms.

Variable S : CaptchaSettings.
Variable L : CaptchaLib.

(** The challenge that a filtered list no longer holds. *)
Lemma challenge_removed (challenge : string) (entries : list challenge_entry) :
  challenge ∉ (filter (λ e, e.1 ≠ challenge) entries).*1.
Proof.
  intros (e & -> & [He _]%list_elem_of_filter)%list_elem_of_fmap. by apply He.
Qed.

(** What a successful [clean_captcha] has gone through. *)
Lemma clean_captcha_ok_inv (now : Z) (data decoded : gmap string string)
    (st st' : CaptchaState) :
  clean_captcha S L now data st = (Ok decoded, st') →
  USING_CAPTCHA S = true ∧ Py.truthy_opt (ALTCHA_HMAC_KEY S) = true
  ∧ (∃ err, verify_solution L now (default "" (data !! "captcha"))
              (default "" (ALTCHA_HMAC_KEY S)) true
            = VerifyReturned true err)
  ∧ ∃ raw challenge,
      b64decode L (default "" (data !! "captcha")) = Ok raw ∧ orjson_loads L raw = Ok decoded
      ∧ dict_getitem decoded "challenge" = Ok challenge
      ∧ challenge ∈ (session_get_altcha_challenges st).*1
      ∧ st' = mkCaptchaState
                (<["altcha_challenges" :=
                     filter (λ e, e.1 ≠ challenge) (session_get_altcha_challenges st)]>
                   (session st))
                (captcha_log st).
Proof.
  unfold clean_captcha. intros H. set (payload := default "" (data !! "captcha")) in *.
  destruct (USING_CAPTCHA S); [|done].
  destruct (Py.truthy_opt (ALTCHA_HMAC_KEY S)); [|done].
  simpl in H. unfold bind, lift, gets, modify, raise, ret, captcha_logging in H.
  destruct (verify_solution L now payload (default "" (ALTCHA_HMAC_KEY S)) true)
    as [ok err|e] eqn:Hv.
  - destruct ok; simpl in H; [|done].
    destruct (b64decode L payload) as [raw|] eqn:Hb; [|done].
    destruct (orjson_loads L raw) as [d|] eqn:Hj; [|done].
    destruct (dict_getitem d "challenge") as [challenge|] eqn:Hc; [|done].
    case_bool_decide as Hin; simpl in H; [done|].
    simplify_eq.
    do 2 (split; [done|]). split; [by eexists|].
    exists raw, challenge. done.
  - destruct (is_validation_error e); simpl in H; done.
Qed.

(** C1. When [clean_captcha] succeeds, the challenge of the payload was in
    the session's list and is removed from it. A second submission of the
    same payload then fails: at the clock reading of the first submission,
    and at every later reading at which the library still accepts the
    solution, it fails at the look-up in the session, with the generic error
    of an expired challenge and the session left as it is; at any other
    reading it fails with a validation error as well. *)
Theorem clean_captcha_single_use (now : Z) (data decoded : gmap string string)
    (st st' : CaptchaState) :
  clean_captcha S L now data st = (Ok decoded, st') →
  ∃ challenge,
    dict_getitem decoded "challenge" = Ok challenge
    ∧ challenge ∈ (session_get_altcha_challenges st).*1
    ∧ (challenge ∉ (session_get_altcha_challenges st').*1)
    ∧ clean_captcha S L now data st'
      = (Raise validation_failed,
         mkCaptchaState (session st')
           (captcha_log st' ++ [LogWarning "Expired or replayed altcha solution"]))
    ∧ ∀ later,
        (∃ e log', clean_captcha S L later data st'
                   = (Raise e, mkCaptchaState (session st') log')
                   ∧ is_validation_error e = true)
        ∧ (∀ err, verify_solution L later (default "" (data !! "captcha"))
                    (default "" (ALTCHA_HMAC_KEY S)) true = VerifyReturned true err →
                  clean_captcha S L later data st'
                  = (Raise validation_failed,
                     mkCaptchaState (session st')
                       (captcha_log st' ++ [LogWarning "Expired or replayed altcha solution"]))).
Proof.
  intros Hok. destruct (clean_captcha_ok_inv _ _ _ _ _ Hok)
    as (Huse & Hkey & [err0 Hv0] & raw & challenge & Hb & Hj & Hc & Hin & ->).
  exists challenge.
  assert (challenge ∉ (session_get_altcha_challenges
            (mkCaptchaState
               (<["altcha_challenges" :=
                    filter (λ e, e.1 ≠ challenge) (session_get_altcha_challenges st)]>
                  (session st)) (captcha_log st))).*1) as Hout.
  { unfold session_get_altcha_challenges at 1. simpl.
    rewrite lookup_insert_eq. simpl. apply challenge_removed. }
  set (st1 := mkCaptchaState _ _) in *.
  assert (∀ later err,
            verify_solution L later (default "" (data !! "captcha"))
              (default "" (ALTCHA_HMAC_KEY S)) true = VerifyReturned true err →
            clean_captcha S L later data st1
            = (Raise validation_failed,
               mkCaptchaState (session st1)
                 (captcha_log st1 ++ [LogWarning "Expired or replayed altcha solution"])))
    as Hreplay.
  { intros later err Hv. unfold clean_captcha. rewrite Huse, Hkey. simpl.
    unfold bind, lift, gets, modify, raise, ret, captcha_logging.
    rewrite Hv. simpl. rewrite Hb, Hj, Hc.
    by rewrite bool_decide_eq_true_2. }
  do 3 (split; [done|]). split; [by eapply Hreplay|].
  intros later. split; [|by apply Hreplay].
  destruct (verify_solution L later (default "" (data !! "captcha"))
              (default "" (ALTCHA_HMAC_KEY S)) true) as [ok err|e] eqn:Hv.
  - destruct ok.
    + eexists _, _. split; [by eapply Hreplay|done].
    + unfold clean_captcha. rewrite Huse, Hkey. simpl.
      unfold bind, lift, gets, modify, raise, ret, captcha_logging.
      rewrite Hv. simpl. eexists _, _. split; [done|done].
  - unfold clean_captcha. rewrite Huse, Hkey. simpl.
    unfold bind, lift, gets, modify, raise, ret, captcha_logging.
    rewrite Hv. destruct (is_validation_error e) eqn:He; simpl.
    + exists e, (captcha_log st1). split; [done|done].
    + eexists _, _. split; [done|done].
Qed.

End CaptchaProperties.

(** A first submission at the clock reading 10, in a session that holds the
    challenge. *)
Lemma clean_captcha_single_use_witness :
  let first := Forms.clean_captcha Scenario.captcha_settings Scenario.captcha_lib 10
                 Scenario.captcha_data Scenario.captcha_state in
  first = (Ok {["challenge" := "c1"]}, first.2)
  ∧ Forms.clean_captcha Scenario.captcha_settings Scenario.captcha_lib 10
      Scenario.captcha_data first.2
    = (Raise Forms.validation_failed,
       Forms.mkCaptchaState (Forms.session first.2)
         (Forms.captcha_log first.2 ++ [LogWarning "Expired or replayed altcha solution"])).
Proof.
  assert (Forms.clean_captcha Scenario.captcha_settings Scenario.captcha_lib 10
            Scenario.captcha_data Scenario.captcha_state
          = (Ok {["challenge" := "c1"]},
             (Forms.clean_captcha Scenario.captcha_settings Scenario.captcha_lib 10
                Scenario.captcha_data Scenario.captcha_state).2)) as H
    by (vm_compute; reflexivity).
  split; [exact H|].
  destruct (clean_captcha_single_use _ _ _ _ _ _ _ H) as (c & _ & _ & _ & Hreplay & _).
  exact Hreplay.
Defined.

(** ** The password reset form *)

Section PasswordResetProperties.
Import Forms.
Context {RL : Type} (E : PasswordResetEnv RL).

(** The per-email limiter raises when the limiter reports the key as limited,
    with the seconds it reports. *)
Lemma rate_limit_password_reset_form_by_email_limited (address : string)
    (st : ResetState RL) (secs : Z) (l : RL) :
  rate_limit E (RateLimitedPasswordResetByEmail_key address)
    (RateLimitedPasswordResetByEmail_rules E) (limiter st) = (true, secs, l) →
  rate_limit_password_reset_form_by_email E address st
  = (Raise (RateLimitedError secs), mkResetState l (outbox st) (reset_log st)).
Proof.
  intros H. unfold rate_limit_password_reset_form_by_email, bind, with_limiter, raise.
  by rewrite H.
Qed.

(** Neither rate-limit check sends an email. *)
Lemma save_rate_limits_outbox (address : string) (request : HttpRequest)
    (st : ResetState RL) :
  outbox (save_rate_limits E address request st).2 = outbox st.
Proof.
  unfold save_rate_limits, rate_limit_password_reset_form_by_email, bind, with_limiter,
    raise, ret.
  destruct (rate_limit E _ _ (limiter st)) as [[limited secs] l]. simpl.
  destruct limited; simpl; [done|].
  by destruct (rate_limit_request_by_ip E request _ l).
Qed.

(** [save] for a request whose subdomain resolves: the three early returns,
    then the rate-limit checks, whose exception is logged and raised again,
    then the email. *)
Lemma save_unfold (address : string) (request : HttpRequest) (st : ResetState RL)
    (r : Realm) :
  get_realm E (get_subdomain E request) = Ok r →
  save E address (Some request) st
  = if negb (email_auth_enabled E r) then
      reset_logging (LogInfo ("Password reset attempted for " +:+ address +:+
                              " even though password auth is disabled.")) st
    else if email_belongs_to_ldap E r address then
      reset_logging (LogInfo "Password reset not allowed for user in LDAP domain") st
    else if deactivated r then reset_logging (LogInfo "Realm is deactivated") st
    else
      match (if RATE_LIMITING E then save_rate_limits E address request st
             else (Ok tt, st)) with
      | (Ok _, s1) =>
          (Ok tt, mkResetState (limiter s1)
                    (outbox s1 ++ [mkResetEmail address r
                                     (get_user_by_delivery_email E address r)])
                    (reset_log s1))
      | (Raise e, s1) =>
          (Raise e,
           if is_rate_limited_error e then
             mkResetState (limiter s1) (outbox s1)
               (reset_log s1 ++
                  [LogInfo ("Too many password reset attempts for email " +:+ address +:+
                            " from " +:+ REMOTE_ADDR (META request))])
           else s1)
      end.
Proof.
  intros Hrealm. unfold save. rewrite Hrealm. unfold bind at 1. unfold lift at 1.
  destruct (email_auth_enabled E r); simpl; [|done].
  destruct (email_belongs_to_ldap E r address); simpl; [done|].
  destruct (deactivated r); simpl; [done|].
  unfold bind at 1, when.
  destruct (RATE_LIMITING E); simpl; [|done].
  destruct (save_rate_limits E address request st) as [[[]|e] s1]; simpl; [done|].
  by destruct (is_rate_limited_error e).
Qed.

(** Both rate-limit checks in terms of the limiter: the check by email, and
    when it passes the check by IP on the limiter it left. *)
Lemma save_rate_limits_unfold (address : string) (request : HttpRequest)
    (st : ResetState RL) :
  save_rate_limits E address request st
  = match rate_limit E (RateLimitedPasswordResetByEmail_key address)
            (RateLimitedPasswordResetByEmail_rules E) (limiter st) with
    | (true, secs, l) =>
        (Raise (RateLimitedError secs), mkResetState l (outbox st) (reset_log st))
    | (false, _, l) =>
        ((rate_limit_request_by_ip E request "sends_email_by_ip" l).1,
         mkResetState (rate_limit_request_by_ip E request "sends_email_by_ip" l).2
           (outbox st) (reset_log st))
    end.
Proof.
  unfold save_rate_limits, rate_limit_password_reset_form_by_email, bind, with_limiter,
    raise, ret.
  destruct (rate_limit E _ _ (limiter st)) as [[[] secs] l]; simpl; [done|].
  by destruct (rate_limit_request_by_ip E request _ l).
Qed.

(** C4, as the code has it. For a request whose subdomain resolves to a
    realm: (1) under each of the three early conditions [save] returns
    without raising, without a look at the rate limiter and without an email;
    (2) otherwise, with rate limiting on, a limiter that reports the address
    as limited makes [save] raise the rate-limit error with the seconds to
    wait, and when the address is not limited a rate-limit error of
    [rate_limit_request_by_ip] is raised in the same way, and in both cases no
    email is sent; (3) otherwise, when rate limiting is off or both checks
    pass, [save] returns without raising and hands one reset email to the
    mailer, also when no account matches the address; (4) an exception of
    [save] is the rate-limit error of the limited address or the exception of
    [rate_limit_request_by_ip]. *)
Theorem save_raises_only_when_rate_limited (address : string) (request : HttpRequest)
    (st : ResetState RL) (r : Realm) :
  get_realm E (get_subdomain E request) = Ok r →
  (returns_early E r address = true →
     ∃ msg, save E address (Some request) st
            = (Ok tt, mkResetState (limiter st) (outbox st) (reset_log st ++ [LogInfo msg])))
  ∧ (returns_early E r address = false → RATE_LIMITING E = true →
     (∀ secs l,
        rate_limit E (RateLimitedPasswordResetByEmail_key address)
          (RateLimitedPasswordResetByEmail_rules E) (limiter st) = (true, secs, l) →
        ∃ st', save E address (Some request) st = (Raise (RateLimitedError secs), st')
               ∧ outbox st' = outbox st)
     ∧ (∀ wait l secs l',
          rate_limit E (RateLimitedPasswordResetByEmail_key address)
            (RateLimitedPasswordResetByEmail_rules E) (limiter st) = (false, wait, l) →
          rate_limit_request_by_ip E request "sends_email_by_ip" l
          = (Raise (RateLimitedError secs), l') →
          ∃ st', save E address (Some request) st = (Raise (RateLimitedError secs), st')
                 ∧ outbox st' = outbox st))
  ∧ (returns_early E r address = false →
     (RATE_LIMITING E = false →
      save E address (Some request) st
      = (Ok tt,
         mkResetState (limiter st)
           (outbox st ++ [mkResetEmail address r (get_user_by_delivery_email E address r)])
           (reset_log st)))
     ∧ (RATE_LIMITING E = true →
        ∀ wait l l',
          rate_limit E (RateLimitedPasswordResetByEmail_key address)
            (RateLimitedPasswordResetByEmail_rules E) (limiter st) = (false, wait, l) →
          rate_limit_request_by_ip E request "sends_email_by_ip" l = (Ok tt, l') →
          save E address (Some request) st
          = (Ok tt,
             mkResetState l'
               (outbox st ++ [mkResetEmail address r (get_user_by_delivery_email E address r)])
               (reset_log st))))
  ∧ (∀ e st', save E address (Some request) st = (Raise e, st') →
     returns_early E r address = false ∧ RATE_LIMITING E = true
     ∧ ((∃ secs l,
           rate_limit E (RateLimitedPasswordResetByEmail_key address)
             (RateLimitedPasswordResetByEmail_rules E) (limiter st) = (true, secs, l)
           ∧ e = RateLimitedError secs)
        ∨ (∃ wait l l',
             rate_limit E (RateLimitedPasswordResetByEmail_key address)
               (RateLimitedPasswordResetByEmail_rules E) (limiter st) = (false, wait, l)
             ∧ rate_limit_request_by_ip E request "sends_email_by_ip" l = (Raise e, l')))).
Proof.
  intros Hrealm. rewrite !(save_unfold _ _ _ _ Hrealm). unfold returns_early.
  destruct (email_auth_enabled E r); simpl.
  2:{ split_and!; [by eexists|done..]. }
  destruct (email_belongs_to_ldap E r address); simpl.
  1:{ split_and!; [by eexists|done..]. }
  destruct (deactivated r); simpl.
  1:{ split_and!; [by eexists|done..]. }
  split; [done|].
  destruct (RATE_LIMITING E); simpl.
  2:{ split_and!; [done| |done]. intros _. split; [done|]. by intros [=]. }
  rewrite save_rate_limits_unfold.
  destruct (rate_limit E (RateLimitedPasswordResetByEmail_key address)
              (RateLimitedPasswordResetByEmail_rules E) (limiter st))
    as [[[] wait] l] eqn:Hemail; simpl.
  - split_and!.
    + intros _ _. split.
      * intros secs l0 [= <- <-]. by eexists.
      * by intros wait0 l0 secs l' [=].
    + intros _. split; [done|]. by intros _ wait0 l0 l' [=].
    + intros e st' [= <- <-]. split_and!; [done..|]. left. by exists wait, l.
  - destruct (rate_limit_request_by_ip E request "sends_email_by_ip" l)
      as [[[]|e] l'] eqn:Hip; simpl.
    + split_and!.
      * intros _ _. split; [by intros secs l0 [=]|].
        by intros wait0 l0 secs l'0 [= <- <-]; rewrite Hip.
      * intros _. split; [done|].
        intros _ wait0 l0 l'0 [= <- <-]. rewrite Hip. by intros [= <-].
      * done.
    + split_and!.
      * intros _ _. split; [by intros secs l0 [=]|].
        intros wait0 l0 secs l'0 [= <- <-]. rewrite Hip. intros [= -> <-]. simpl.
        by eexists.
      * intros _. split; [done|].
        intros _ wait0 l0 l'0 [= <- <-]. by rewrite Hip.
      * intros e0 st' [= <- <-]. split_and!; [done..|]. right. by exists wait, l, l'.
Qed.

End PasswordResetProperties.

(** A first request for an address no account uses: the limiter lets it
    pass, and [save] returns after handing the mailer one email. *)
Lemma save_raises_only_when_rate_limited_witness :
  Forms.get_realm Scenario.reset_env
    (Forms.get_subdomain Scenario.reset_env Scenario.reset_request) = Ok Scenario.acme
  ∧ Forms.save Scenario.reset_env "ghost@example.com" (Some Scenario.reset_request)
      Scenario.reset_state_fresh
    = (Ok tt,
       Forms.mkResetState ["RateLimitedPasswordResetByEmail:ghost@example.com"]
         [Forms.mkResetEmail "ghost@example.com" Scenario.acme None] [])
  ∧ ∃ st', Forms.save Scenario.reset_env_ip_limited "ghost@example.com"
             (Some Scenario.reset_request) Scenario.reset_state_fresh
           = (Raise (RateLimitedError 30), st')
           ∧ Forms.outbox st' = [].
Proof.
  split; [reflexivity|].
  destruct (save_raises_only_when_rate_limited Scenario.reset_env "ghost@example.com"
              Scenario.reset_request Scenario.reset_state_fresh Scenario.acme eq_refl)
    as (_ & _ & Hpass & _).
  destruct (save_raises_only_when_rate_limited Scenario.reset_env_ip_limited
              "ghost@example.com" Scenario.reset_request Scenario.reset_state_fresh
              Scenario.acme eq_refl) as (_ & Hlimited & _).
  split.
  - destruct (Hpass eq_refl) as [_ Hlimits].
    apply (Hlimits eq_refl 60 ["RateLimitedPasswordResetByEmail:ghost@example.com"]);
      reflexivity.
  - destruct (Hlimited eq_refl eq_refl) as [_ Hip].
    apply (Hip 60 ["RateLimitedPasswordResetByEmail:ghost@example.com"] 30
             ["sends_email_by_ip"; "RateLimitedPasswordResetByEmail:ghost@example.com"]);
      reflexivity.
Defined.

(** C4 as stated fails, whichever of its two halves is read first. The
    address of no account is one of the conditions under which the claim has
    [save] return without raising, and yet the third request for such an
    address raises the rate-limit error. And where password authentication is
    off, the per-email limit is exceeded in the same way, and [save] returns
    without raising. *)
Lemma save_rate_limit_and_silent_conditions :
  (Forms.get_user_by_delivery_email Scenario.reset_env "ghost@example.com" Scenario.acme
   = None
   ∧ (Forms.save Scenario.reset_env "ghost@example.com" (Some Scenario.reset_request)
        Scenario.reset_state_limited).1
     = Raise (RateLimitedError 60))
  ∧ (Forms.email_auth_enabled Scenario.reset_env_no_password Scenario.acme = false
     ∧ (Forms.rate_limit Scenario.reset_env_no_password
          (Forms.RateLimitedPasswordResetByEmail_key "ghost@example.com")
          (Forms.RateLimitedPasswordResetByEmail_rules Scenario.reset_env_no_password)
          (Forms.limiter Scenario.reset_state_limited)).1
       = (true, 60)
     ∧ (Forms.save Scenario.reset_env_no_password "ghost@example.com"
          (Some Scenario.reset_request) Scenario.reset_state_limited).1
       = Ok tt).
Proof. repeat split. Qed.

(** ** Deactivating one's own account *)

Section DeactivationProperties.
Import Users.
Variable E : UsersEnv.

Lemma length_le_1_of_same_key {A B : Type} (f : A → B) (a : B) (l : list A) :
  NoDup (f <$> l) → (∀ x, x ∈ l → f x = a) → (length l ≤ 1)%nat.
Proof.
  intros Hnd Hall. destruct l as [|x [|y l]]; simpl; [lia..|].
  exfalso. simpl in Hnd. apply NoDup_cons in Hnd as [Hx _]. apply Hx.
  rewrite (Hall x), (Hall y); [left|set_solver..].
Qed.

Lemma NoDup_fmap_filter {A B : Type} (f : A → B) (P : A → Prop) `{∀ x, Decision (P x)}
    (l : list A) :
  NoDup (f <$> l) → NoDup (f <$> filter P l).
Proof.
  induction l as [|x l IH]; simpl; [done|].
  intros [Hx Hl]%NoDup_cons. rewrite filter_cons. case_decide; [|by apply IH].
  simpl. apply NoDup_cons. split; [|by apply IH].
  intros (y & Hxy & [_ Hy]%list_elem_of_filter)%list_elem_of_fmap.
  apply Hx. rewrite Hxy. by apply list_elem_of_fmap_2.
Qed.

Lemma length_ge_1_of_elem {A : Type} (x : A) (l : list A) : x ∈ l → (1 ≤ length l)%nat.
Proof. destruct l; simpl; [by intros ?%not_elem_of_nil|lia]. Qed.

Lemma length_ge_2_of_two {A : Type} (x y : A) (l : list A) :
  x ∈ l → y ∈ l → x ≠ y → (2 ≤ length l)%nat.
Proof.
  destruct l as [|a [|b l]]; simpl; [| |lia].
  - by intros ?%not_elem_of_nil.
  - intros ->%list_elem_of_singleton ->%list_elem_of_singleton. done.
Qed.

(** The realm's human owners are the caller alone: one owner id is counted. *)
Lemma check_last_owner_only_owner (user_profile : UserProfile) (db : DB) :
  user_profile ∈ users db →
  is_active user_profile = true → is_bot user_profile = false →
  role user_profile = ROLE_REALM_OWNER E →
  (∀ u, u ∈ users db → realm_id (realm u) = realm_id (realm user_profile) →
        is_bot u = false → role u = ROLE_REALM_OWNER E → is_active u = true →
        user_id u = user_id user_profile) →
  check_last_owner E user_profile db = true.
Proof.
  intros Hin Hact Hbot Hrole Honly. unfold check_last_owner, is_realm_owner.
  rewrite bool_decide_eq_true_2 by done. rewrite Hbot. simpl.
  apply bool_decide_eq_true_2.
  set (owners := remove_dups _).
  assert (length owners ≤ 1)%nat.
  { apply (length_le_1_of_same_key id (user_id user_profile)).
    - rewrite list_fmap_id. apply NoDup_remove_dups.
    - intros x (u & -> & Hu)%elem_of_remove_dups%list_elem_of_fmap.
      apply list_elem_of_filter in Hu as [(? & ? & ? & ?) ?]. by apply Honly. }
  assert (1 ≤ length owners)%nat.
  { apply (length_ge_1_of_elem (user_id user_profile)).
    apply elem_of_remove_dups, list_elem_of_fmap_2, list_elem_of_filter. done. }
  lia.
Qed.

(** C2. With a [UserProfile] table whose ids are distinct: a caller who is
    the only active user of the realm gets [CannotDeactivateLastUserError]
    with [is_last_owner=False]; a caller who is the realm's only human owner,
    while another active user of the realm is not an owner, gets it with
    [is_last_owner=True]. In both cases the state is left as it was, so the
    caller is not deactivated. *)
Theorem deactivate_user_own_backend_last_user (request : HttpRequest)
    (user_profile : UserProfile) (db : DB) :
  NoDup (user_id <$> users db) →
  user_profile ∈ users db →
  is_active user_profile = true →
  ((∀ u, u ∈ users db → realm_id (realm u) = realm_id (realm user_profile) →
         is_active u = true → user_id u = user_id user_profile) →
   deactivate_user_own_backend E request user_profile db
   = (Raise (CannotDeactivateLastUserError false), db))
  ∧ (is_bot user_profile = false →
     role user_profile = ROLE_REALM_OWNER E →
     (∀ u, u ∈ users db → realm_id (realm u) = realm_id (realm user_profile) →
           is_bot u = false → role u = ROLE_REALM_OWNER E → is_active u = true →
           user_id u = user_id user_profile) →
     (∃ v, v ∈ users db ∧ realm_id (realm v) = realm_id (realm user_profile)
           ∧ is_active v = true ∧ role v ≠ ROLE_REALM_OWNER E) →
     deactivate_user_own_backend E request user_profile db
     = (Raise (CannotDeactivateLastUserError true), db)).
Proof.
  intros Hnd Hin Hact. unfold deactivate_user_own_backend, bind, gets, raise.
  assert (user_profile ∈ active_users_of_realm (realm user_profile) db) as Hself
    by (apply list_elem_of_filter; done).
  split.
  - intros Hsole. rewrite bool_decide_eq_true_2; [done|].
    pose proof (length_ge_1_of_elem _ _ Hself).
    assert (length (active_users_of_realm (realm user_profile) db) ≤ 1)%nat; [|lia].
    apply (length_le_1_of_same_key user_id (user_id user_profile)).
    + by apply NoDup_fmap_filter.
    + intros u [[? ?] ?]%list_elem_of_filter. by apply Hsole.
  - intros Hbot Hrole Honly (v & Hv & Hvr & Hva & Hvo).
    rewrite bool_decide_eq_false_2.
    + rewrite (check_last_owner_only_owner _ _ Hin Hact Hbot Hrole Honly).
      unfold is_realm_owner. by rewrite bool_decide_eq_true_2.
    + assert (2 ≤ length (active_users_of_realm (realm user_profile) db))%nat; [|lia].
      apply (length_ge_2_of_two user_profile v); [done| |congruence].
      apply list_elem_of_filter. done.
Qed.

End DeactivationProperties.

(** Iago alone in the realm, and Iago as the only owner beside Hamlet and
    Othello. *)
Lemma deactivate_user_own_backend_last_user_witness :
  Users.deactivate_user_own_backend Scenario.users_env Scenario.plain_request Scenario.iago
    Scenario.db_solo
  = (Raise (CannotDeactivateLastUserError false), Scenario.db_solo)
  ∧ Users.deactivate_user_own_backend Scenario.users_env Scenario.plain_request Scenario.iago
      Scenario.db_three
    = (Raise (CannotDeactivateLastUserError true), Scenario.db_three).
Proof.
  split.
  - apply (deactivate_user_own_backend_last_user Scenario.users_env Scenario.plain_request
             Scenario.iago Scenario.db_solo); [compute_done|compute_done|reflexivity|].
    intros u Hu. each_element Hu. reflexivity.
  - apply (deactivate_user_own_backend_last_user Scenario.users_env Scenario.plain_request
             Scenario.iago Scenario.db_three);
      [compute_done|compute_done|reflexivity|reflexivity|reflexivity| |].
    + intros u Hu. each_element Hu; vm_compute; congruence.
    + exists Scenario.hamlet. compute_done.
Defined.

(** ** Role changes that involve the owner role *)

Section RoleChangeProperties.
Import Users.
Variable E : UsersEnv.

(** C3, as the code has it. Let the acting user be no realm owner, and let
    the request change the role of the target to a different one, the
    requested or the current role being the owner role. Then
    [update_user_backend] raises the owner-required error and leaves the state
    as it was, provided the request carries no new email or the acting user may
    change emails; otherwise, with a new email and an acting user who may not
    change emails, it raises "User not authorized to change user emails"
    before it looks at the role, also with the state as it was. And
    [patch_bot_backend] raises the owner-required error once the bot is
    accessible to the acting user and the checks of a requested change of the
    full name pass. *)
Theorem role_change_requires_owner (request : HttpRequest) (user_profile : UserProfile)
    (new_role : Z) :
  is_realm_owner E user_profile = false →
  (∀ target full_name_param new_email profile_data db,
     role target ≠ new_role →
     ROLE_REALM_OWNER E ∈ [new_role; role target] →
     (new_email = None
      ∨ (can_change_user_emails user_profile = true ∧ is_realm_admin E user_profile = true) →
      update_user_backend E request user_profile target full_name_param new_email profile_data
        (Some new_role) db
      = (Raise OrganizationOwnerRequiredError, db))
     ∧ (new_email ≠ None →
        can_change_user_emails user_profile = false ∨ is_realm_admin E user_profile = false →
        update_user_backend E request user_profile target full_name_param new_email
          profile_data (Some new_role) db
        = (Raise (JsonableError (gettext "User not authorized to change user emails")), db)))
  ∧ (∀ bot bot_id bot_owner_id_param config_data all_public events_register sending
       full_name_param service_interface service_payload_url db,
       access_bot_by_id E user_profile bot_id db = Ok bot →
       (∀ name, full_name_param = Some name →
                is_ok (check_change_bot_full_name_checks E bot name user_profile db) = true) →
       role bot ≠ new_role →
       ROLE_REALM_OWNER E ∈ [new_role; role bot] →
       (patch_bot_backend E request user_profile bot_id bot_owner_id_param config_data
          all_public events_register sending full_name_param (Some new_role)
          service_interface service_payload_url db).1
       = Raise OrganizationOwnerRequiredError).
Proof.
  intros Hown. split.
  - intros target full_name_param new_email profile_data db Hneq Hin. split.
    + intros Hmail. unfold update_user_backend. unfold bind at 1.
      assert (bool_decide (new_email ≠ None)
              && (negb (can_change_user_emails user_profile)
                  || negb (is_realm_admin E user_profile)) = false) as ->.
      { destruct Hmail as [->|[-> ->]]; [done|]. by rewrite andb_false_r. }
      simpl. unfold bind at 1.
      rewrite (bool_decide_eq_true_2 _ Hneq). unfold bind at 1.
      by rewrite (bool_decide_eq_true_2 _ Hin), Hown.
    + intros Hmail Hrefused. unfold update_user_backend. unfold bind at 1.
      assert (bool_decide (new_email ≠ None)
              && (negb (can_change_user_emails user_profile)
                  || negb (is_realm_admin E user_profile)) = true) as ->; [|done].
      rewrite (bool_decide_eq_true_2 _ Hmail). simpl.
      destruct Hrefused as [-> | ->]; [done|]. by rewrite orb_true_r.
  - intros bot bot_id bot_owner_id_param config_data all_public events_register sending
      full_name_param service_interface service_payload_url db Hacc Hname Hneq Hin.
    unfold patch_bot_backend. unfold bind at 1. unfold gets at 1.
    rewrite Hacc. unfold bind at 1, lift at 1. unfold bind at 1.
    destruct full_name_param as [name|].
    + specialize (Hname name eq_refl).
      unfold bind at 1, gets at 1.
      destruct (check_change_bot_full_name_checks E bot name user_profile db)
        as [checked|]; [|done].
      unfold bind at 1, lift at 1. unfold change_user, bind, modify, record_effect, ret.
      simpl.
      rewrite (bool_decide_eq_true_2 _ Hneq).
      by rewrite (bool_decide_eq_true_2 _ Hin), Hown.
    + unfold ret at 1. unfold bind at 1.
      rewrite (bool_decide_eq_true_2 _ Hneq). unfold bind at 1.
      by rewrite (bool_decide_eq_true_2 _ Hin), Hown.
Qed.

End RoleChangeProperties.

(** Othello, an administrator, asks to make Hamlet an owner, to make Hamlet
    an owner under a new address, and to make Hamlet's bot an owner. *)
Lemma role_change_requires_owner_witness :
  Users.update_user_backend Scenario.users_env Scenario.plain_request Scenario.othello
    Scenario.hamlet None None None (Some 100) Scenario.db_three
  = (Raise OrganizationOwnerRequiredError, Scenario.db_three)
  ∧ Users.update_user_backend Scenario.users_env Scenario.plain_request Scenario.othello
      Scenario.hamlet None (Some "prince@acme.example") None (Some 100) Scenario.db_three
    = (Raise (JsonableError "User not authorized to change user emails"), Scenario.db_three)
  ∧ (Users.patch_bot_backend Scenario.users_env Scenario.plain_request Scenario.othello
       4 None None None None None (Some "Lord Polonius") (Some 100) 1 None
       Scenario.db_with_bot).1
    = Raise OrganizationOwnerRequiredError.
Proof.
  destruct (role_change_requires_owner Scenario.users_env Scenario.plain_request
              Scenario.othello 100 eq_refl) as [Huser Hbot].
  split_and!.
  - apply (Huser Scenario.hamlet None None None Scenario.db_three);
      [by vm_compute|compute_done|by left].
  - apply (Huser Scenario.hamlet None (Some "prince@acme.example") None Scenario.db_three);
      [by vm_compute|compute_done|done|by left].
  - apply (Hbot Scenario.polonius_bot); [reflexivity| |by vm_compute|compute_done].
    by intros name [= <-].
Defined.

(** C3 as stated fails: with a new email in the request, an administrator
    who may not change emails and asks for the owner role is refused for the
    email, not for the role. *)
Lemma update_user_backend_email_refused_first :
  Users.is_realm_owner Scenario.users_env Scenario.othello = false
  ∧ Users.ROLE_REALM_OWNER Scenario.users_env ∈ [100; role Scenario.hamlet]
  ∧ (Users.update_user_backend Scenario.users_env Scenario.plain_request Scenario.othello
       Scenario.hamlet None (Some "prince@acme.example") None (Some 100) Scenario.db_three).1
    = Raise (JsonableError "User not authorized to change user emails").
Proof. split; [reflexivity|]. split; [compute_done|reflexivity]. Qed.

(** ** Avatars for spectators *)

Section AvatarProperties.
Import Users.
Variable E : UsersEnv.

(** [avatar_by_id] for a spectator whose request resolves to the realm [r]. *)
Lemma avatar_by_id_spectator (request : HttpRequest) (uid : Z) (medium : bool) (db : DB)
    (r : Realm) :
  get_valid_realm_from_request E request db = Ok r →
  avatar_by_id E request None uid medium db
  = if negb (allow_web_public_streams_access E r) then (Raise MissingAuthenticationError, db)
    else
      let key := pretty (realm_id r) +:+ "/" +:+ pretty uid +:+ "/" +:+ Py.str_of_bool medium in
      let db1 := if RATE_LIMITING E
                 then mkDB (users db) (journal db ++ [SpectatorAttachmentAccess key])
                 else db in
      let limiter := if RATE_LIMITING E
                     then rate_limit_spectator_attachment_access_by_file_checks E key db1
                     else Ok tt in
      let url := match get_user_by_id_in_realm_including_cross_realm E uid r db1 with
                 | Some avatar_user_profile => avatar_url E avatar_user_profile medium
                 | None => get_avatar_for_inaccessible_user E
                 end in
      match limiter, url with
      | Raise e, _ => (Raise e, db1)
      | Ok _, Some u => (Ok (redirect_with_query E request u), db1)
      | Ok _, None => (Raise AssertionError, db1)
      end.
Proof.
  intros Hrealm.
  unfold avatar_by_id. unfold bind at 1. unfold bind at 1. unfold gets at 1.
  rewrite Hrealm. unfold bind at 1, lift at 1.
  destruct (allow_web_public_streams_access E r); simpl; [|done].
  destruct (RATE_LIMITING E); simpl.
  - unfold rate_limit_spectator_attachment_access_by_file, bind, record_effect, modify,
      gets, lift, ret, assert_url. simpl.
    destruct (rate_limit_spectator_attachment_access_by_file_checks E _ _); [|done].
    destruct (get_user_by_id_in_realm_including_cross_realm E uid r _) as [profile|].
    + by destruct (avatar_url E profile medium).
    + by destruct (get_avatar_for_inaccessible_user E).
  - unfold bind, gets, lift, ret, assert_url. simpl.
    destruct (get_user_by_id_in_realm_including_cross_realm E uid r db) as [profile|].
    + by destruct (avatar_url E profile medium).
    + by destruct (get_avatar_for_inaccessible_user E).
Qed.

(** C9, as the code has it. An unauthenticated request for an avatar by
    email is refused with the missing-authentication error whatever the realm
    allows. An unauthenticated request for an avatar by user id, in a realm
    [r] that the request resolves to, is refused with that error when [r] does
    not allow web-public access; when [r] allows it, the request is counted by
    the spectator rate limit, if rate limiting is on, and unless the limiter
    raises it is answered with a redirect to the avatar URL computed for the
    user. *)
Theorem spectator_avatar_access (request : HttpRequest) (uid : Z) (address : string)
    (medium : bool) (db : DB) (r : Realm) :
  get_valid_realm_from_request E request db = Ok r →
  avatar_by_email E request None address medium db = (Raise MissingAuthenticationError, db)
  ∧ (allow_web_public_streams_access E r = false →
     avatar_by_id E request None uid medium db = (Raise MissingAuthenticationError, db))
  ∧ (allow_web_public_streams_access E r = true →
     let key := pretty (realm_id r) +:+ "/" +:+ pretty uid +:+ "/" +:+ Py.str_of_bool medium in
     let db1 := if RATE_LIMITING E
                then mkDB (users db) (journal db ++ [SpectatorAttachmentAccess key])
                else db in
     let limiter := if RATE_LIMITING E
                    then rate_limit_spectator_attachment_access_by_file_checks E key db1
                    else Ok tt in
     let url := match get_user_by_id_in_realm_including_cross_realm E uid r db1 with
                | Some avatar_user_profile => avatar_url E avatar_user_profile medium
                | None => get_avatar_for_inaccessible_user E
                end in
     avatar_by_id E request None uid medium db
     = match limiter, url with
       | Raise e, _ => (Raise e, db1)
       | Ok _, Some u => (Ok (redirect_with_query E request u), db1)
       | Ok _, None => (Raise AssertionError, db1)
       end).
Proof.
  intros Hrealm. split; [done|].
  rewrite (avatar_by_id_spectator _ _ _ _ _ Hrealm).
  split; intros ->; done.
Qed.

End AvatarProperties.

(** A spectator of the realm [acme], which allows web-public access, asks
    for Hamlet's avatar by id. *)
Lemma spectator_avatar_access_witness :
  Users.get_valid_realm_from_request Scenario.users_env Scenario.plain_request
    Scenario.db_three = Ok Scenario.acme
  ∧ (Users.avatar_by_id Scenario.users_env Scenario.plain_request None 2 false
       Scenario.db_three).1
    = Ok (Users.HttpRedirect "/user_avatars/2.png").
Proof.
  split; [reflexivity|].
  destruct (spectator_avatar_access Scenario.users_env Scenario.plain_request 2
              "hamlet@acme.example" false Scenario.db_three Scenario.acme eq_refl)
    as (_ & _ & Hallowed).
  rewrite (Hallowed eq_refl). reflexivity.
Defined.

(** C9 as stated fails for the variant by email: the realm allows
    web-public access, and the spectator's request is refused all the same. *)
Lemma avatar_by_email_refuses_spectators :
  Users.get_valid_realm_from_request Scenario.users_env Scenario.plain_request
    Scenario.db_three = Ok Scenario.acme
  ∧ Users.allow_web_public_streams_access Scenario.users_env Scenario.acme = true
  ∧ Users.avatar_by_email Scenario.users_env Scenario.plain_request None
      "hamlet@acme.example" false Scenario.db_three
    = (Raise MissingAuthenticationError, Scenario.db_three).
Proof. repeat split. Qed.

(** ** Creating a bot *)

Section MonadLemmas.
Context {S : Type}.

Lemma bind_ok_inv {A B : Type} (m : M S A) (k : A → M S B) (s s' : S) (b : B) :
  bind m k s = (Ok b, s') → ∃ a s1, m s = (Ok a, s1) ∧ k a s1 = (Ok b, s').
Proof.
  unfold bind. destruct (m s) as [[a|e] s1]; [|done]. intros H. by exists a, s1.
Qed.

Lemma bind_raise {A B : Type} (m : M S A) (k : A → M S B) (s s' : S) (e : exn) :
  m s = (Raise e, s') → bind m k s = (Raise e, s').
Proof. unfold bind. by intros ->. Qed.

Lemma bind_ok {A B : Type} (m : M S A) (k : A → M S B) (s s1 : S) (a : A) :
  m s = (Ok a, s1) → bind m k s = k a s1.
Proof. unfold bind. by intros ->. Qed.

Lemma preserves_ret {A T} (f : S → T) (a : A) : preserves f (ret a).
Proof. by intros s r s' [= _ <-]. Qed.

Lemma preserves_raise {A T} (f : S → T) (e : exn) : preserves f (raise (A:=A) e).
Proof. by intros s r s' [= _ <-]. Qed.

Lemma preserves_lift {A T} (f : S → T) (c : result A) : preserves f (lift c).
Proof. by intros s r s' [= _ <-]. Qed.

Lemma preserves_gets {A T} (f : S → T) (g : S → A) : preserves f (gets g).
Proof. by intros s r s' [= _ <-]. Qed.

Lemma preserves_bind {A B T} (f : S → T) (m : M S A) (k : A → M S B) :
  preserves f m → (∀ a, preserves f (k a)) → preserves f (bind m k).
Proof.
  intros Hm Hk s r s'. unfold bind. destruct (m s) as [[a|e] s1] eqn:Hs.
  - intros Hka. rewrite (Hk a _ _ _ Hka). by eapply Hm.
  - intros [= _ <-]. by eapply Hm.
Qed.

Lemma preserves_when {T} (f : S → T) (c : bool) (m : M S unit) :
  preserves f m → preserves f (when c m).
Proof. destruct c; [done|]. intros _. apply preserves_ret. Qed.

End MonadLemmas.

Create HintDb preserves.

#[local] Hint Resolve preserves_ret preserves_raise preserves_lift preserves_gets
  preserves_when : preserves.

Section AddBotProperties.
Import Users.
Variable E : UsersEnv.

Lemma preserves_record_effect (e : effect) : preserves users (record_effect e).
Proof. by intros s r s' [= _ <-]. Qed.

Lemma preserves_set_bot_config_items (bot : Z) (items : list (string * string)) :
  preserves users (set_bot_config_items bot items).
Proof.
  induction items as [|[key value] items IH]; simpl.
  - apply preserves_ret.
  - apply preserves_bind; [apply preserves_record_effect|done].
Qed.

Lemma preserves_assert_file_size {T} (f : DB → T) (file : UploadedFile) :
  preserves f (assert_file_size file).
Proof. unfold assert_file_size. destruct (file_size file); auto with preserves. Qed.

Lemma preserves_only_uploaded_file {T} (f : DB → T) (request : HttpRequest) :
  preserves f (only_uploaded_file request).
Proof.
  unfold only_uploaded_file.
  destruct (MultiValueDict_values (FILES request)) as [|[user_file|] [|second values]];
    auto with preserves.
  apply preserves_bind; [apply preserves_assert_file_size|]. auto with preserves.
Qed.

Lemma preserves_stream_for_optional_name {T} (f : DB → T) (user_profile : UserProfile)
    (name : option string) :
  preserves f (stream_for_optional_name E user_profile name).
Proof.
  unfold stream_for_optional_name. destruct name; [|auto with preserves].
  repeat (apply preserves_bind; [auto with preserves|intros ?]). auto with preserves.
Qed.

(** A failed check is the failure of [add_bot_backend], with nothing
    written. *)
Lemma add_bot_backend_checks_raise (request : HttpRequest) (user_profile : UserProfile)
    (p : AddBotParams) (db : DB) (e : exn) :
  add_bot_backend_checks E user_profile p db = Raise e →
  add_bot_backend E request user_profile p db = (Raise e, db).
Proof.
  intros H. unfold add_bot_backend. unfold bind at 1, gets at 1. rewrite H. done.
Qed.


(** What a successful [add_bot_backend] has done: the checks passed, at most
    one file was uploaded, and one row was added to the table, for an active
    account of the caller's realm with the address and the full name the
    checks computed and the avatar source the number of files decides. *)
Lemma add_bot_backend_ok_inv (request : HttpRequest) (user_profile : UserProfile)
    (p : AddBotParams) (db db' : DB) (response : HttpResponse) :
  add_bot_backend E request user_profile p db = (Ok response, db') →
  ∃ checked bot,
    add_bot_backend_checks E user_profile p db = Ok checked
    ∧ users db' = users db ++ [bot]
    ∧ delivery_email bot = checked_email checked
    ∧ full_name bot = checked_full_name checked
    ∧ realm bot = realm user_profile
    ∧ is_active bot = true
    ∧ bot_owner_id bot = Some (user_id user_profile)
    ∧ avatar_source bot = (if bool_decide (MultiValueDict_len (FILES request) = 0%nat)
                           then AVATAR_FROM_GRAVATAR E else AVATAR_FROM_USER E)
    ∧ (MultiValueDict_len (FILES request) ≤ 1)%nat.
Proof.
  unfold add_bot_backend. intros H.
  apply bind_ok_inv in H as (c & s1 & Hc & H). injection Hc as <- <-.
  apply bind_ok_inv in H as (checked & s1 & Hc & H). injection Hc as Hchecks <-.
  apply bind_ok_inv in H as (source & s1 & Hsource & H).
  assert (s1 = db
          ∧ source = (if bool_decide (MultiValueDict_len (FILES request) = 0%nat)
                      then AVATAR_FROM_GRAVATAR E else AVATAR_FROM_USER E)
          ∧ (MultiValueDict_len (FILES request) ≤ 1)%nat) as (-> & Hsrc & Hlen).
  { revert Hsource.
    destruct (decide (MultiValueDict_len (FILES request) = 0%nat)) as [Hnone|Hsome].
    - rewrite !(bool_decide_eq_true_2 _ Hnone). intros [= <- <-]. split_and!; [done|done|lia].
    - rewrite !(bool_decide_eq_false_2 _ Hsome).
      destruct (decide (MultiValueDict_len (FILES request) = 1%nat)) as [Hone|Hmany].
      + rewrite (bool_decide_eq_false_2 (MultiValueDict_len (FILES request) ≠ 1%nat))
          by (by intros ?).
        intros [= <- <-]. split_and!; [done|done|lia].
      + by rewrite (bool_decide_eq_true_2 _ Hmany). }
  clear Hsource.
  apply bind_ok_inv in H as (sending & s1 & Hs1 & H).
  apply (preserves_stream_for_optional_name id) in Hs1 as Hid1. simpl in Hid1. subst s1.
  apply bind_ok_inv in H as (events & s1 & Hs2 & H).
  apply (preserves_stream_for_optional_name id) in Hs2 as Hid2. simpl in Hid2. subst s1.
  apply bind_ok_inv in H as ([] & s1 & Hcfg & H).
  assert (s1 = db) as ->.
  { revert Hcfg. apply (λ Hp : preserves id _, Hp db (Ok tt) s1).
    match goal with |- context [if ?b then _ else _] => destruct b end;
      auto with preserves. }
  apply bind_ok_inv in H as (bot & s1 & Hcreate & H).
  unfold do_create_user, bind, gets, modify, record_effect, ret in Hcreate.
  injection Hcreate as <- <-.
  set (bot := mkUserProfile _ _ _ _ _ _ _ _ _ _ _ _ _ _ _ _) in *.
  exists checked, bot.
  split_and!; try done.
  revert H. set (s1 := mkDB _ _). change (users db ++ [bot]) with (users s1).
  generalize s1. clear s1. intros s1 H.
  apply bind_ok_inv in H as ([] & s2 & Hup & H).
  assert (users s2 = users s1) as <-.
  { apply (λ Hp : preserves users _, Hp _ _ _ Hup).
    match goal with |- context [if ?b then _ else _] => destruct b end;
      [|auto with preserves].
    apply preserves_bind; [apply preserves_only_uploaded_file|].
    intros user_file. apply preserves_record_effect. }
  apply bind_ok_inv in H as ([] & s3 & Hsvc & H).
  assert (users s3 = users s2) as <-.
  { apply (λ Hp : preserves users _, Hp _ _ _ Hsvc).
    match goal with |- context [if ?b then _ else _] => destruct b end;
      [|auto with preserves].
    destruct (checked_service_name checked); [|auto with preserves].
    apply preserves_bind; [auto with preserves|]. intros ?. apply preserves_record_effect. }
  apply bind_ok_inv in H as ([] & s4 & Hint & H).
  assert (users s4 = users s3) as <-.
  { apply (λ Hp : preserves users _, Hp _ _ _ Hint).
    apply preserves_when, preserves_record_effect. }
  apply bind_ok_inv in H as ([] & s5 & Hitems & H).
  assert (users s5 = users s4) as <-.
  { apply (λ Hp : preserves users _, Hp _ _ _ Hitems).
    apply preserves_when, preserves_set_bot_config_items. }
  apply bind_ok_inv in H as ([] & s6 & Hnote & H).
  assert (users s6 = users s5) as <-.
  { apply (λ Hp : preserves users _, Hp _ _ _ Hnote). apply preserves_record_effect. }
  apply (λ Hp : preserves users _, Hp _ _ _ H). apply preserves_ret.
Qed.

(** What a derived identity rests on: the checked short name, the bot domain
    of the realm, the address composed of the two, and the checked full name. *)
Lemma add_bot_backend_identity_ok_inv (user_profile : UserProfile) (p : AddBotParams)
    (db : DB) (ident : CheckedBot) :
  add_bot_backend_identity E user_profile p db = Ok ident →
  ∃ short domain,
    check_short_name E (short_name_raw p) = Ok short
    ∧ get_bot_domain E (realm user_profile) = Ok domain
    ∧ Address_addr_spec (short +:+ "-bot") domain = Ok (checked_email ident)
    ∧ check_full_name E (full_name_raw p) user_profile (realm user_profile) db
      = Ok (checked_full_name ident).
Proof.
  unfold add_bot_backend_identity, rbind.
  destruct (check_short_name E (short_name_raw p)) as [short|]; [|done].
  destruct (check_full_name E (full_name_raw p) user_profile (realm user_profile) db)
    as [name|]; [|done].
  destruct (get_bot_domain E (realm user_profile)) as [domain|e].
  - destruct (Address_addr_spec (short +:+ "-bot") domain) as [address|e] eqn:Haddr.
    + match goal with |- context [if ?b then _ else _] => destruct b end.
      * repeat match goal with |- context [if ?b then _ else _] => destruct b; simpl end;
          try done; intros [= <-]; by exists short, domain.
      * match goal with |- context [if ?b then _ else _] => destruct b; simpl end;
          try done; intros [= <-]; by exists short, domain.
    + by destruct e.
  - by destruct e.
Qed.

Lemma add_bot_backend_checks_ok_inv (user_profile : UserProfile) (p : AddBotParams)
    (db : DB) (checked : CheckedBot) :
  add_bot_backend_checks E user_profile p db = Ok checked →
  add_bot_backend_identity E user_profile p db = Ok checked.
Proof.
  unfold add_bot_backend_checks, rbind.
  destruct (add_bot_backend_identity E user_profile p db) as [ident|]; [|done].
  destruct (get_user_by_delivery_email _ _ db); [done|].
  repeat match goal with |- context [match ?r with Ok _ => _ | Raise _ => _ end] =>
           destruct r; try done end.
Qed.

(** The checks of an attempt whose identity is derived, in a realm where an
    active account has the full name already: the address in use is reported
    first, the name otherwise. *)
Lemma add_bot_backend_checks_name_taken (user_profile : UserProfile) (p : AddBotParams)
    (db : DB) (ident : CheckedBot) :
  add_bot_backend_identity E user_profile p db = Ok ident →
  Exists (λ u, realm_id (realm u) = realm_id (realm user_profile)
               ∧ full_name u = checked_full_name ident ∧ is_active u = true) (users db) →
  add_bot_backend_checks E user_profile p db
  = Raise (match get_user_by_delivery_email (checked_email ident) (realm user_profile) db with
           | Some _ => EmailAlreadyInUseError
           | None => bot_name_collision_error
           end).
Proof.
  intros Hident Htaken. unfold add_bot_backend_checks, rbind. rewrite Hident.
  destruct (get_user_by_delivery_email _ _ db); [done|].
  unfold check_bot_name_available. by rewrite bool_decide_eq_true_2.
Qed.


(** C7, as the code has it. When [add_bot_backend] succeeds for the short
    name [foo] in a realm whose bot domain is [bots.example.com], the one row
    it adds has the address [foo-bot@bots.example.com]. After that, every
    attempt in the same realm that produces the full name of this bot raises
    and leaves the state as it was; once the identity of the second bot is
    derived, the error is the email-in-use error if its address is in use, and
    the name-collision error otherwise. *)
Theorem add_bot_backend_address_and_name (request : HttpRequest) (user_profile : UserProfile)
    (p : AddBotParams) (db db' : DB) (response : HttpResponse) :
  add_bot_backend E request user_profile p db = (Ok response, db') →
  check_short_name E (short_name_raw p) = Ok "foo" →
  get_bot_domain E (realm user_profile) = Ok "bots.example.com" →
  ∃ bot,
    users db' = users db ++ [bot]
    ∧ delivery_email bot = "foo-bot@bots.example.com"
    ∧ ∀ request2 user_profile2 p2,
        realm_id (realm user_profile2) = realm_id (realm user_profile) →
        check_full_name E (full_name_raw p2) user_profile2 (realm user_profile2) db'
        = Ok (full_name bot) →
        (∃ e, add_bot_backend E request2 user_profile2 p2 db' = (Raise e, db'))
        ∧ (∀ ident, add_bot_backend_identity E user_profile2 p2 db' = Ok ident →
             add_bot_backend E request2 user_profile2 p2 db'
             = (Raise (match get_user_by_delivery_email (checked_email ident)
                               (realm user_profile2) db' with
                       | Some _ => EmailAlreadyInUseError
                       | None => bot_name_collision_error
                       end), db')).
Proof.
  intros Hok Hshort Hdomain.
  destruct (add_bot_backend_ok_inv _ _ _ _ _ _ Hok)
    as (checked & bot & Hc & Husers & Hmail & Hname & Hrealm & Hact & _).
  exists bot. split; [done|]. split.
  - apply add_bot_backend_checks_ok_inv, add_bot_backend_identity_ok_inv in Hc
      as (short & domain & Hs & Hd & Haddr & _).
    rewrite Hshort in Hs. rewrite Hdomain in Hd. simplify_eq.
    assert (Address_addr_spec ("foo" +:+ "-bot") "bots.example.com"
            = Ok "foo-bot@bots.example.com") as Hfoo by (vm_compute; reflexivity).
    rewrite Hfoo in Haddr. injection Haddr as Haddr. by rewrite Hmail, <- Haddr.
  - intros request2 user_profile2 p2 Hsame Hfull.
    assert (∀ ident, add_bot_backend_identity E user_profile2 p2 db' = Ok ident →
              add_bot_backend_checks E user_profile2 p2 db'
              = Raise (match get_user_by_delivery_email (checked_email ident)
                               (realm user_profile2) db' with
                       | Some _ => EmailAlreadyInUseError
                       | None => bot_name_collision_error
                       end)) as Htaken.
    { intros ident Hident. apply add_bot_backend_checks_name_taken; [done|].
      apply add_bot_backend_identity_ok_inv in Hident as (_ & _ & _ & _ & _ & Hn).
      rewrite Hfull in Hn. injection Hn as Hn.
      apply Exists_exists. exists bot. rewrite Husers, Hrealm, <- Hn.
      split; [apply elem_of_app; right; by left|done]. }
    split.
    + destruct (add_bot_backend_identity E user_profile2 p2 db') as [ident|e] eqn:Hident.
      * eexists. apply add_bot_backend_checks_raise. by apply Htaken.
      * exists e. apply add_bot_backend_checks_raise.
        unfold add_bot_backend_checks, rbind. by rewrite Hident.
    + intros ident Hident. apply add_bot_backend_checks_raise. by apply Htaken.
Qed.

End AddBotProperties.

(** Hamlet creates the bot [foo]; a second request, for the short name
    [bar] and the same full name, is refused for the name. *)
Lemma add_bot_backend_address_and_name_witness :
  let first := Users.add_bot_backend Scenario.users_env Scenario.plain_request
                 Scenario.hamlet Scenario.foo_params Scenario.db_three in
  first.1 = Ok (Users.JsonSuccess
                  [("user_id", Users.JInt 4); ("api_key", Users.JStr "key-4");
                   ("avatar_url", Users.JStr "/user_avatars/4.png");
                   ("default_sending_stream", Users.JNull);
                   ("default_events_register_stream", Users.JNull);
                   ("default_all_public_streams", Users.JNull)])
  ∧ delivery_email <$> last (Users.users first.2) = Some "foo-bot@bots.example.com"
  ∧ Users.add_bot_backend Scenario.users_env Scenario.plain_request Scenario.hamlet
      Scenario.bar_params first.2
    = (Raise Users.bot_name_collision_error, first.2).
Proof.
  intros first.
  assert (first = (Ok (Users.JsonSuccess
                         [("user_id", Users.JInt 4); ("api_key", Users.JStr "key-4");
                          ("avatar_url", Users.JStr "/user_avatars/4.png");
                          ("default_sending_stream", Users.JNull);
                          ("default_events_register_stream", Users.JNull);
                          ("default_all_public_streams", Users.JNull)]), first.2)) as Hok
    by (vm_compute; reflexivity).
  split; [by rewrite Hok|].
  destruct (add_bot_backend_address_and_name Scenario.users_env Scenario.plain_request
              Scenario.hamlet Scenario.foo_params Scenario.db_three first.2 _ Hok
              eq_refl eq_refl) as (bot & Husers & Hmail & Hsecond).
  split; [rewrite Husers, last_snoc; simpl; by rewrite Hmail|].
  assert (Users.full_name_raw Scenario.bar_params = "Foo Bot") as Hraw by reflexivity.
  assert (full_name bot = "Foo Bot") as Hname.
  { assert (last (Users.users first.2) = Some bot) as Hlast by (by rewrite Husers, last_snoc).
    vm_compute in Hlast. by injection Hlast as <-. }
  destruct (Hsecond Scenario.plain_request Scenario.hamlet Scenario.bar_params eq_refl)
    as [_ Herror]; [by rewrite Hname|].
  rewrite (Herror (Users.mkCheckedBot (Some "bar") "Foo Bot" "bar-bot@bots.example.com"));
    [|vm_compute; reflexivity].
  vm_compute. reflexivity.
Defined.

(** C7 as stated fails: the same request once more produces the same full
    name, and is refused for the address of the bot, which is in use, before
    the name is looked at. *)
Lemma add_bot_backend_recreation_email_in_use :
  let first := Users.add_bot_backend Scenario.users_env Scenario.plain_request
                 Scenario.hamlet Scenario.foo_params Scenario.db_three in
  is_ok first.1 = true
  ∧ full_name <$> last (Users.users first.2) = Some "Foo Bot"
  ∧ Users.check_full_name Scenario.users_env (Users.full_name_raw Scenario.foo_params)
      Scenario.hamlet Scenario.acme first.2 = Ok "Foo Bot"
  ∧ (Users.add_bot_backend Scenario.users_env Scenario.plain_request Scenario.hamlet
       Scenario.foo_params first.2).1
    = Raise EmailAlreadyInUseError.
Proof. vm_compute. repeat split. Qed.



(** * Further properties *)

(** ** More on the subdomain validator *)

Section SubdomainMore.
Import Forms.
Variable E : SubdomainEnv.

(** X1. The flag [allow_reserved_subdomain] changes one outcome only: with
    the flag the validator returns where it raises the overridable "reserved"
    error without it, and does the same in every other case. *)
Theorem check_subdomain_available_override (subdomain : string) :
  check_subdomain_available E subdomain true
  = match check_subdomain_available E subdomain false with
    | Raise (OverridableValidationError _ _) => Ok tt
    | outcome => outcome
    end.
Proof.
  unfold check_subdomain_available.
  case_bool_decide; [by destruct (is_root_domain_available E)|].
  destruct (decide (subdomain = EmptyString)) as [->|Hne]; [done|].
  destruct (extremal_reads_in_range subdomain Hne) as (first & last & -> & ->). simpl.
  case_bool_decide; simpl; [done|].
  case_bool_decide; simpl; [done|].
  destruct (re_match_subdomain_class 0 subdomain); simpl; [|done].
  destruct (Py.len subdomain <? 3); [done|].
  destruct (realm_with_string_id_exists (realm_objects E) subdomain); [done|].
  by destruct (is_reserved_subdomain E subdomain).
Qed.

(** X2. What acceptance of a subdomain other than the sentinel means: it
    is at least three characters long, has no dash at either end, passes
    the pattern of the source, is the [string_id] of no realm, and is not
    reserved unless the flag allows reserved names. *)
Theorem check_subdomain_available_sound (subdomain : string)
    (allow_reserved_subdomain : bool) :
  check_subdomain_available E subdomain allow_reserved_subdomain = Ok tt →
  subdomain ≠ SUBDOMAIN_FOR_ROOT_DOMAIN E →
  3 ≤ Py.len subdomain
  ∧ Py.str_getitem subdomain 0 ≠ Ok dash
  ∧ Py.str_getitem subdomain (-1) ≠ Ok dash
  ∧ re_match_subdomain_class 0 subdomain = true
  ∧ ¬ Exists (λ r, string_id r = subdomain) (realm_objects E)
  ∧ (is_reserved_subdomain E subdomain = false ∨ allow_reserved_subdomain = true).
Proof.
  unfold check_subdomain_available, realm_with_string_id_exists. intros H Hroot.
  rewrite bool_decide_eq_false_2 in H by done.
  destruct (Py.str_getitem subdomain 0) as [first|e]; simpl in H; [|done].
  case_bool_decide as Hf; simpl in H; [done|].
  destruct (Py.str_getitem subdomain (-1)) as [last|e]; simpl in H; [|done].
  case_bool_decide as Hl; simpl in H; [done|].
  destruct (re_match_subdomain_class 0 subdomain); simpl in H; [|done].
  destruct (Z.ltb_spec (Py.len subdomain) 3); [done|].
  case_bool_decide as Hex; [done|].
  split_and!; [done|congruence|congruence|done|done|].
  destruct (is_reserved_subdomain E subdomain); [|by left].
  destruct allow_reserved_subdomain; [by right|done].
Qed.

Lemma all_in_subdomain_class_newline (s : string) :
  all_in_subdomain_class s = true →
  re_match_subdomain_class 0 (s +:+ String newline EmptyString) = true.
Proof.
  induction s as [|c s IH]; simpl; [done|].
  intros [-> Hs]%andb_prop. by apply IH.
Qed.

Lemma string_length_snoc (s : string) (c : ascii) :
  String.length (s +:+ String c EmptyString) = Datatypes.S (String.length s).
Proof. induction s as [|d s IH]; simpl; [done|]. by rewrite IH. Qed.

Lemma string_get_snoc (s : string) (c : ascii) :
  String.get (String.length s) (s +:+ String c EmptyString) = Some c.
Proof. induction s as [|d s IH]; simpl; done. Qed.

Lemma str_getitem_last_snoc (s : string) (c : ascii) :
  Py.str_getitem (s +:+ String c EmptyString) (-1) = Ok c.
Proof.
  unfold Py.str_getitem, Py.len.
  replace (-1 <? 0) with true by done.
  rewrite string_length_snoc.
  destruct (Z.ltb_spec (-1 + Z.of_nat (Datatypes.S (String.length s))) 0); [lia|].
  destruct (Z.leb_spec (Z.of_nat (Datatypes.S (String.length s)))
              (-1 + Z.of_nat (Datatypes.S (String.length s)))); [lia|].
  simpl orb. cbv iota.
  replace (Z.to_nat (-1 + Z.of_nat (Datatypes.S (String.length s))))
    with (String.length s) by lia.
  by rewrite string_get_snoc.
Qed.

(** X3. The pattern of the source ends in [$], which also matches before a
    newline that ends the string: a name of two or more characters of the
    class, with no dash in front, is accepted when a newline is added to it,
    as long as the result is no realm's [string_id], not reserved and not
    the sentinel. Two characters and a newline are enough for the length
    check. *)
Theorem check_subdomain_available_trailing_newline (name : string)
    (allow_reserved_subdomain : bool) :
  let subdomain := name +:+ String newline EmptyString in
  all_in_subdomain_class name = true →
  (2 ≤ String.length name)%nat →
  Py.str_getitem name 0 ≠ Ok dash →
  subdomain ≠ SUBDOMAIN_FOR_ROOT_DOMAIN E →
  ¬ Exists (λ r, string_id r = subdomain) (realm_objects E) →
  is_reserved_subdomain E subdomain = false →
  check_subdomain_available E subdomain allow_reserved_subdomain = Ok tt.
Proof.
  intros subdomain Hclass Hlen Hfirst Hroot Hfree Hres.
  assert (∃ c, Py.str_getitem subdomain 0 = Ok c ∧ c ≠ dash) as (c & Hc & Hdash).
  { destruct name as [|c name]; [simpl in Hlen; lia|]. exists c.
    rewrite str_getitem_first in Hfirst. split; [apply str_getitem_first|congruence]. }
  pose proof (str_getitem_last_snoc name newline) as Hlast.
  pose proof (all_in_subdomain_class_newline _ Hclass) as Hre.
  assert ((Py.len subdomain <? 3) = false) as Hlong.
  { apply Z.ltb_ge. unfold Py.len, subdomain. rewrite string_length_snoc. lia. }
  fold subdomain in Hlast, Hre.
  unfold check_subdomain_available, realm_with_string_id_exists.
  rewrite bool_decide_eq_false_2 by done.
  rewrite Hc, Hlast, Hre, Hlong, Hres. unfold rbind.
  rewrite (bool_decide_eq_false_2 (c = dash)) by done.
  rewrite (bool_decide_eq_false_2 (newline = dash)) by done.
  by rewrite bool_decide_eq_false_2.
Qed.

(** X4. [clean_realm_subdomain] outside realm creation returns the empty
    string without validating anything. In realm creation, a value it
    returns has passed [check_subdomain_available]; it is the sentinel when
    the form data has [realm_in_root_domain], whatever was typed, and the
    typed subdomain otherwise. *)
Theorem clean_realm_subdomain_validated (cleaned_subdomain : string)
    (data : gmap string string) :
  clean_realm_subdomain E false cleaned_subdomain data = Ok ""
  ∧ (∀ subdomain, clean_realm_subdomain E true cleaned_subdomain data = Ok subdomain →
       check_subdomain_available E subdomain false = Ok tt
       ∧ subdomain = (if bool_decide (is_Some (data !! "realm_in_root_domain"))
                      then SUBDOMAIN_FOR_ROOT_DOMAIN E else cleaned_subdomain))
  ∧ (is_Some (data !! "realm_in_root_domain") →
     ∀ other, clean_realm_subdomain E true cleaned_subdomain data
              = clean_realm_subdomain E true other data).
Proof.
  split; [done|]. split.
  - intros subdomain. unfold clean_realm_subdomain. simpl. unfold rbind.
    destruct (check_subdomain_available E _ false) as [[]|] eqn:Hc; [|done].
    intros [= <-]. done.
  - intros Hflag other. unfold clean_realm_subdomain. simpl.
    by rewrite !bool_decide_eq_true_2.
Qed.

End SubdomainMore.

(** A name accepted with the flag only, and a name of two letters and a
    newline. *)
Lemma check_subdomain_available_sound_witness :
  let E := Forms.mkSubdomainEnv "" (λ s, bool_decide (s = "zulip"))
             [mkRealm 1 "acme" "Acme" false] in
  Forms.check_subdomain_available E "zulip" true = Ok tt
  ∧ 3 ≤ Py.len "zulip"
  ∧ (Forms.is_reserved_subdomain E "zulip" = false ∨ true = true).
Proof.
  intros E.
  assert (Forms.check_subdomain_available E "zulip" true = Ok tt) as H by reflexivity.
  split; [exact H|].
  destruct (check_subdomain_available_sound E "zulip" true H) as (Hlen & _ & _ & _ & _ & Hres);
    [discriminate|].
  split; [exact Hlen|exact Hres].
Defined.

Lemma check_subdomain_available_trailing_newline_witness :
  Forms.check_subdomain_available
    (Forms.mkSubdomainEnv "" (λ s, bool_decide (s = "zulip")) [mkRealm 1 "acme" "Acme" false])
    ("ab" +:+ String Forms.newline EmptyString) false
  = Ok tt.
Proof.
  apply (check_subdomain_available_trailing_newline
           (Forms.mkSubdomainEnv "" (λ s, bool_decide (s = "zulip"))
              [mkRealm 1 "acme" "Acme" false]) "ab" false);
    [reflexivity|simpl; lia|by vm_compute|by vm_compute|compute_done|reflexivity].
Defined.

(** ** More on the captcha, the password reset and the other forms *)

Section FormsMore.
Import Forms.

(** X5. A failed [clean_captcha] leaves the session as it was: no challenge
    is consumed by a submission that is refused, at whichever step. *)
Theorem clean_captcha_failure_keeps_session (S : CaptchaSettings) (L : CaptchaLib) (now : Z)
    (data : gmap string string) (st st' : CaptchaState) (e : exn) :
  clean_captcha S L now data st = (Raise e, st') → session st' = session st.
Proof.
  unfold clean_captcha.
  destruct (negb (USING_CAPTCHA S) || negb (Py.truthy_opt (ALTCHA_HMAC_KEY S)));
    [by intros [= _ <-]|].
  unfold bind, lift, gets, modify, raise, ret, captcha_logging.
  destruct (verify_solution L now _ _ true) as [[] err|e0]; simpl.
  - destruct (b64decode L _) as [raw|]; [|by intros [= _ <-]].
    destruct (orjson_loads L raw) as [d|]; [|by intros [= _ <-]].
    destruct (dict_getitem d "challenge") as [challenge|]; [|by intros [= _ <-]].
    case_bool_decide; simpl; [by intros [= _ <-]|done].
  - by intros [= _ <-].
  - destruct (is_validation_error e0); simpl; by intros [= _ <-].
Qed.

(** X6. A successful [clean_captcha] consumes the challenge of the payload
    and nothing else: the other keys of the session, the entries of the other
    challenges, in their order, and the log are as before, so every other
    challenge that was outstanding still is. *)
Theorem clean_captcha_consumes_one_challenge (S : CaptchaSettings) (L : CaptchaLib) (now : Z)
    (data decoded : gmap string string) (st st' : CaptchaState) :
  clean_captcha S L now data st = (Ok decoded, st') →
  ∃ challenge,
    dict_getitem decoded "challenge" = Ok challenge
    ∧ session_get_altcha_challenges st'
      = filter (λ e, e.1 ≠ challenge) (session_get_altcha_challenges st)
    ∧ (∀ key, key ≠ "altcha_challenges" → session st' !! key = session st !! key)
    ∧ (∀ other, other ≠ challenge →
         other ∈ (session_get_altcha_challenges st).*1 →
         other ∈ (session_get_altcha_challenges st').*1)
    ∧ captcha_log st' = captcha_log st.
Proof.
  intros Hok. destruct (clean_captcha_ok_inv _ _ _ _ _ _ _ Hok)
    as (_ & _ & _ & raw & challenge & _ & _ & Hc & _ & ->).
  exists challenge.
  assert (session_get_altcha_challenges
            (mkCaptchaState
               (<["altcha_challenges" :=
                    filter (λ e, e.1 ≠ challenge) (session_get_altcha_challenges st)]>
                  (session st)) (captcha_log st))
          = filter (λ e, e.1 ≠ challenge) (session_get_altcha_challenges st)) as Hget.
  { unfold session_get_altcha_challenges at 1. simpl. by rewrite lookup_insert_eq. }
  split_and!; [done|done| | |done].
  - intros key Hkey. simpl. by rewrite lookup_insert_ne.
  - intros other Hother (entry & -> & Hin)%list_elem_of_fmap. rewrite Hget.
    apply list_elem_of_fmap_2, list_elem_of_filter. done.
Qed.

(** X7. [save] hands the mailer at most one email, and only when it
    returns: whatever the request and the environment, the outbox after the
    call is the outbox before it, or, after a return, the outbox before it
    with a single reset email for the given address. *)
Theorem save_sends_at_most_one_email {RL : Type} (E : PasswordResetEnv RL) (address : string)
    (request : option HttpRequest) (st : ResetState RL) :
  outbox (save E address request st).2 = outbox st
  ∨ ((save E address request st).1 = Ok tt
     ∧ ∃ r user, outbox (save E address request st).2
                 = outbox st ++ [mkResetEmail address r user]).
Proof.
  destruct request as [request|]; [|by left].
  destruct (get_realm E (get_subdomain E request)) as [r|e] eqn:Hrealm.
  2:{ left. unfold save. rewrite Hrealm. done. }
  rewrite (save_unfold E _ _ _ _ Hrealm).
  destruct (negb (email_auth_enabled E r)); [by left|].
  destruct (email_belongs_to_ldap E r address); [by left|].
  destruct (deactivated r); [by left|].
  pose proof (save_rate_limits_outbox E address request st) as Hout.
  destruct (RATE_LIMITING E).
  - destruct (save_rate_limits E address request st) as [[[]|e] s1]; simpl in *.
    + right. split; [done|]. rewrite Hout. by eexists _, _.
    + left. by destruct (is_rate_limited_error e).
  - right. split; [done|]. by eexists _, _.
Qed.

(** The number of pieces of a split is the number of separators plus one. *)
Lemma str_split_length (sep : ascii) (s : string) :
  length (str_split sep s) = Datatypes.S (str_count sep s).
Proof.
  induction s as [|c s IH]; simpl; [done|].
  case_bool_decide; simpl; [by rewrite IH|].
  destruct (str_split sep s); simpl in *; lia.
Qed.

Lemma validate_each_ok (validate_email : string → result unit) (emails : list string) :
  validate_each validate_email emails = Ok tt →
  Forall (λ address, validate_email address = Ok tt) emails.
Proof.
  induction emails as [|address emails IH]; simpl; [constructor|].
  unfold rbind. destruct (validate_email address) as [[]|] eqn:Hv; [|done].
  intros H. constructor; [done|by apply IH].
Qed.

(** X8. What the [emails] field of [FindMyTeamForm] accepts: the input is a
    non-empty string, the list has one stripped piece for each part between
    commas, so one more than there are commas, at least one and at most ten,
    and every piece has passed [validate_email]. *)
Theorem FindMyTeamForm_emails_accepted (validate_email : string → result unit)
    (raw : option string) (emails : list string) :
  FindMyTeamForm_emails validate_email raw = Ok emails →
  ∃ s, raw = Some s ∧ s ≠ ""
       ∧ emails = Py.strip <$> str_split comma s
       ∧ length emails = Datatypes.S (str_count comma s)
       ∧ (length emails ≤ 10)%nat
       ∧ Forall (λ address, validate_email address = Ok tt) emails.
Proof.
  unfold FindMyTeamForm_emails, MultiEmailField_to_python, MultiEmailField_validate,
    clean_emails, rbind.
  destruct raw as [s|]; simpl; [|done].
  unfold Py.truthy. destruct (decide (s = "")) as [->|Hs]; [done|].
  rewrite (bool_decide_eq_false_2 (s = "")) by done. simpl.
  set (l := Py.strip <$> str_split comma s).
  assert (length l = Datatypes.S (str_count comma s)) as Hlen
    by (unfold l; by rewrite length_fmap, str_split_length).
  rewrite bool_decide_eq_false_2 by (intros Hl; by rewrite Hl in Hlen). simpl.
  destruct (validate_each validate_email l) as [[]|] eqn:Hv; [|done].
  destruct (Z.ltb_spec 10 (Z.of_nat (length l))); [done|].
  intros [= <-]. exists s. split_and!; [done|done|done|done|lia|by apply validate_each_ok].
Qed.

(** X9. A failed login that resolved no user is answered with the same
    error, "Incorrect email or password.", whether or not [authenticate]
    reports matching accounts on another subdomain, and also for a deactivated
    mirror dummy, as long as [authenticate] flags no inactive realm and no
    password that must be reset. *)
Theorem OurAuthenticationForm_clean_generic_error (A : AuthEnv) (request : HttpRequest)
    (username : string) (password : option string) (r : Realm)
    (return_data : gmap string bool) (matching : string) (log : list log_record) :
  Py.truthy_opt password = true →
  auth_get_realm A (auth_get_subdomain A request) = Ok r →
  authenticate A request username (default "" password) r
  = Authenticated None return_data matching →
  return_data_get return_data "inactive_realm" = false →
  return_data_get return_data "password_reset_needed" = false →
  return_data_get return_data "inactive_user" = false
  ∨ return_data_get return_data "is_mirror_dummy" = true →
  (OurAuthenticationForm_clean A (Some request) (Some username) password log).1
  = Raise (ValidationError INVALID_ACCOUNT_CREDENTIALS_ERROR).
Proof.
  intros Hpw Hrealm Hauth Hir Hpr Hdummy.
  unfold OurAuthenticationForm_clean. rewrite Hpw.
  unfold bind at 1, lift at 1. rewrite Hrealm, Hauth, Hir, Hpr.
  assert (return_data_get return_data "inactive_user"
          && negb (return_data_get return_data "is_mirror_dummy") = false) as ->.
  { destruct Hdummy as [->| ->]; [done|by rewrite andb_false_r]. }
  unfold bind, modify, raise, ret.
  by destruct (return_data_get return_data "invalid_subdomain").
Qed.

End FormsMore.

(** The replay of the solved payload, refused at the look-up. *)
Lemma clean_captcha_failure_keeps_session_witness :
  let first := Forms.clean_captcha Scenario.captcha_settings Scenario.captcha_lib 10
                 Scenario.captcha_data Scenario.captcha_state in
  let second := Forms.clean_captcha Scenario.captcha_settings Scenario.captcha_lib 10
                  Scenario.captcha_data first.2 in
  second.1 = Raise Forms.validation_failed
  ∧ Forms.session second.2 = Forms.session first.2.
Proof.
  intros first second.
  assert (second = (Raise Forms.validation_failed, second.2)) as H
    by (vm_compute; reflexivity).
  split; [by rewrite H|].
  exact (clean_captcha_failure_keeps_session Scenario.captcha_settings Scenario.captcha_lib
           10 Scenario.captcha_data first.2 second.2 Forms.validation_failed H).
Defined.

(** The first submission consumes [c1] and leaves [c2] outstanding. *)
Lemma clean_captcha_consumes_one_challenge_witness :
  let first := Forms.clean_captcha Scenario.captcha_settings Scenario.captcha_lib 10
                 Scenario.captcha_data Scenario.captcha_state in
  first.1 = Ok {["challenge" := "c1"]}
  ∧ "c2" ∈ (Forms.session_get_altcha_challenges first.2).*1.
Proof.
  intros first.
  assert (first = (Ok {["challenge" := "c1"]}, first.2)) as H by (vm_compute; reflexivity).
  split; [by rewrite H|].
  destruct (clean_captcha_consumes_one_challenge Scenario.captcha_settings
              Scenario.captcha_lib 10 Scenario.captcha_data {["challenge" := "c1"]}
              Scenario.captcha_state first.2 H) as (challenge & Hc & _ & _ & Hothers & _).
  assert (challenge = "c1") as -> by (vm_compute in Hc; by injection Hc as <-).
  apply Hothers; [discriminate|compute_done].
Defined.

(** Two addresses separated by a comma and a space. *)
Lemma FindMyTeamForm_emails_accepted_witness :
  Forms.FindMyTeamForm_emails Scenario.refuse_empty (Some "iago@acme.example, hamlet@acme.example")
  = Ok ["iago@acme.example"; "hamlet@acme.example"]
  ∧ length ["iago@acme.example"; "hamlet@acme.example"]
    = Datatypes.S (Forms.str_count Forms.comma "iago@acme.example, hamlet@acme.example").
Proof.
  assert (Forms.FindMyTeamForm_emails Scenario.refuse_empty
            (Some "iago@acme.example, hamlet@acme.example")
          = Ok ["iago@acme.example"; "hamlet@acme.example"]) as H by (vm_compute; reflexivity).
  split; [exact H|].
  destruct (FindMyTeamForm_emails_accepted _ _ _ H) as (s & [= <-] & _ & _ & Hlen & _).
  exact Hlen.
Defined.

(** A login on the wrong subdomain. *)
Lemma OurAuthenticationForm_clean_generic_error_witness :
  (Forms.OurAuthenticationForm_clean Scenario.auth_env (Some Scenario.plain_request)
     (Some "hamlet@acme.example") (Some "secret") []).1
  = Raise (ValidationError Forms.INVALID_ACCOUNT_CREDENTIALS_ERROR).
Proof.
  apply (OurAuthenticationForm_clean_generic_error Scenario.auth_env Scenario.plain_request
           "hamlet@acme.example" (Some "secret") Scenario.acme
           {["invalid_subdomain" := true]} "[7]" []);
    [reflexivity|reflexivity|reflexivity|reflexivity|reflexivity|by left].
Defined.

(** ** The realm keeps a human owner *)

Section OwnerInvariant.
Import Users.
Variable E : UsersEnv.

Lemma same_key_same_row {A B : Type} (f : A → B) (l : list A) (x y : A) :
  NoDup (f <$> l) → x ∈ l → y ∈ l → f x = f y → x = y.
Proof.
  induction l as [|a l IH]; simpl; [by intros _ ?%elem_of_nil|].
  intros [Ha Hl]%NoDup_cons [->|Hx]%elem_of_cons [->|Hy]%elem_of_cons Hxy; [done| | |by apply IH].
  - exfalso. apply Ha. rewrite Hxy. by apply list_elem_of_fmap_2.
  - exfalso. apply Ha. rewrite <- Hxy. by apply list_elem_of_fmap_2.
Qed.

(** A row that an update of another row leaves alone is an owner as before. *)
Lemma owner_survives_update (r : Realm) (db db' : DB) (uid : Z)
    (f : UserProfile → UserProfile) (o : UserProfile) :
  users db' = (λ u, if bool_decide (user_id u = uid) then f u else u) <$> users db →
  o ∈ get_human_owner_users E r db → user_id o ≠ uid →
  o ∈ get_human_owner_users E r db'.
Proof.
  intros Husers [Ho Hin]%list_elem_of_filter Hne.
  apply list_elem_of_filter. split; [done|]. rewrite Husers.
  apply list_elem_of_fmap. exists o. by rewrite bool_decide_eq_false_2.
Qed.

(** An update that touches none of the attributes that make an owner keeps
    every owner, as the updated row. *)
Lemma owners_survive_neutral_update (r : Realm) (db db' : DB) (uid : Z)
    (f : UserProfile → UserProfile) :
  (∀ u, realm (f u) = realm u ∧ is_bot (f u) = is_bot u ∧ role (f u) = role u
        ∧ is_active (f u) = is_active u) →
  users db' = (λ u, if bool_decide (user_id u = uid) then f u else u) <$> users db →
  get_human_owner_users E r db ≠ [] → get_human_owner_users E r db' ≠ [].
Proof.
  intros Hf Husers Hne.
  destruct (get_human_owner_users E r db) as [|o owners] eqn:Ho; [done|].
  assert (o ∈ get_human_owner_users E r db) as [Hattr Hin]%list_elem_of_filter
    by (rewrite Ho; by left).
  intros Hnil.
  assert ((if bool_decide (user_id o = uid) then f o else o)
            ∈ get_human_owner_users E r db') as Hmem.
  { apply list_elem_of_filter. split.
    - case_bool_decide; [|done]. destruct (Hf o) as (-> & -> & -> & ->). done.
    - rewrite Husers. apply list_elem_of_fmap. by exists o. }
  rewrite Hnil in Hmem. by apply elem_of_nil in Hmem.
Qed.

(** The step both deactivations and the role change rest on: a row other
    than the last human owner's may lose what makes an owner, and every realm
    that had a human owner still has one. *)
Lemma owners_survive_guarded_update (target : UserProfile) (db db' : DB)
    (f : UserProfile → UserProfile) (r : Realm) :
  NoDup (user_id <$> users db) →
  target ∈ users db →
  check_last_owner E target db = false →
  users db' = (λ u, if bool_decide (user_id u = user_id target) then f u else u)
              <$> users db →
  get_human_owner_users E r db ≠ [] → get_human_owner_users E r db' ≠ [].
Proof.
  intros Hnd Hin Hlast Husers Hne.
  destruct (get_human_owner_users E r db) as [|o owners] eqn:Ho; [done|].
  assert (o ∈ get_human_owner_users E r db) as Hoin by (rewrite Ho; by left).
  assert (∃ o', o' ∈ get_human_owner_users E r db ∧ user_id o' ≠ user_id target)
    as (o' & Ho' & Hid).
  { destruct (decide (user_id o = user_id target)) as [Heq|Hneq]; [|by exists o].
    pose proof Hoin as [(Hr & Hbot & Hrole & Hact) Hou]%list_elem_of_filter.
    assert (o = target) as -> by (by apply (same_key_same_row user_id (users db))).
    destruct (decide (Forall (λ u, user_id u = user_id target)
                        (get_human_owner_users E r db))) as [Hall|Hex].
    - exfalso. rewrite check_last_owner_only_owner in Hlast; [done..|].
      intros u Hu Hur Hub Huo Hua. rewrite Forall_forall in Hall. apply Hall.
      apply list_elem_of_filter. split; [|done]. split_and!; [congruence|done..].
    - apply not_Forall_Exists in Hex; [|apply _].
      apply Exists_exists in Hex as (o' & Ho' & Hid). by exists o'. }
  intros Hnil.
  pose proof (owner_survives_update r db db' (user_id target) f o' Husers Ho' Hid) as Hmem.
  rewrite Hnil in Hmem. by apply elem_of_nil in Hmem.
Qed.

(** X10. A successful [deactivate_user_own_backend], on a table with
    distinct ids that holds the caller, leaves every realm that had an active
    human owner with one. *)
Theorem deactivate_user_own_backend_keeps_owner (request : HttpRequest)
    (user_profile : UserProfile) (db db' : DB) (response : HttpResponse) :
  NoDup (user_id <$> users db) →
  user_profile ∈ users db →
  deactivate_user_own_backend E request user_profile db = (Ok response, db') →
  ∀ r, get_human_owner_users E r db ≠ [] → get_human_owner_users E r db' ≠ [].
Proof.
  intros Hnd Hin. unfold deactivate_user_own_backend, bind, gets, raise.
  case_bool_decide; [done|].
  destruct (is_realm_owner E user_profile && check_last_owner E user_profile db) eqn:Hlast;
    [done|].
  unfold do_deactivate_user, change_user, bind, modify, record_effect, ret. simpl.
  intros [= _ <-]. simpl.
  intros r. apply (owners_survive_guarded_update user_profile db _ (set_is_active false));
    [done|done| |done].
  unfold check_last_owner in *. by destruct (is_realm_owner E user_profile).
Qed.

End OwnerInvariant.

(** ** Deactivating another user or a bot *)

Section DeactivationMore.
Import Users.
Variables (E : UsersEnv) (D : DeactivateEnv).

(** What a successful [deactivate_user_backend] went through and did. *)
Lemma deactivate_user_backend_ok_inv (request : HttpRequest) (user_profile : UserProfile)
    (comment : option string) (uid : Z) (s s' : MailDB) (response : HttpResponse) :
  deactivate_user_backend E D request user_profile comment uid s = (Ok response, s') →
  ∃ target,
    access_user_by_id D user_profile uid None None true (mail_db s) = Ok target
    ∧ (is_realm_owner E target = true → is_realm_owner E user_profile = true)
    ∧ check_last_owner E target (mail_db s) = false
    ∧ mail_db s' = mkDB (users (update_row (user_id target) (set_is_active false) (mail_db s)))
                     (journal (mail_db s)
                      ++ [UserDeactivated (user_id target) (user_id user_profile)])
    ∧ mail_outbox s' =
        mail_outbox s ++
        match comment with
        | Some text =>
            [mkSentEmail "zerver/emails/deactivate" [user_id target] (FromAddress_NOREPLY D)
               [("deactivation_notification_comment", Py.strip text);
                ("realm_url", realm_url D (realm target));
                ("realm_name", realm_name (realm target))]]
        | None => []
        end.
Proof.
  unfold deactivate_user_backend, bind, gets, lift, raise.
  destruct (access_user_by_id D user_profile uid None None true (mail_db s))
    as [target|e] eqn:Haccess; [|done].
  destruct (is_realm_owner E target && negb (is_realm_owner E user_profile)) eqn:Howner; [done|].
  destruct (check_last_owner E target (mail_db s)) eqn:Hlast; [done|].
  unfold _deactivate_user_profile_backend, on_db, do_deactivate_user, change_user, send_email,
    bind, modify, record_effect, ret, lift. simpl.
  intros Hrun. exists target. split; [done|]. split.
  { intros Ht. rewrite Ht in Howner. by destruct (is_realm_owner E user_profile). }
  split; [done|].
  destruct comment as [text|]; simpl in Hrun.
  - destruct (send_email_outcome D _) as [[]|e]; [|done]. by injection Hrun as _ <-.
  - injection Hrun as _ <-. simpl. by rewrite app_nil_r.
Qed.

(** X11. A successful [deactivate_user_backend], on a table with distinct
    ids that holds the account [access_user_by_id] returned, has deactivated
    an owner only for a caller who is an owner, and every realm that had an
    active human owner still has one. *)
Theorem deactivate_user_backend_keeps_owner (request : HttpRequest)
    (user_profile : UserProfile) (comment : option string) (uid : Z)
    (s s' : MailDB) (response : HttpResponse) :
  NoDup (user_id <$> users (mail_db s)) →
  (∀ target, access_user_by_id D user_profile uid None None true (mail_db s) = Ok target →
             target ∈ users (mail_db s)) →
  deactivate_user_backend E D request user_profile comment uid s = (Ok response, s') →
  (∀ target, access_user_by_id D user_profile uid None None true (mail_db s) = Ok target →
             is_realm_owner E target = true → is_realm_owner E user_profile = true)
  ∧ ∀ r, get_human_owner_users E r (mail_db s) ≠ [] →
         get_human_owner_users E r (mail_db s') ≠ [].
Proof.
  intros Hnd Hin (target & Haccess & Howner & Hlast & Hdb & _)%deactivate_user_backend_ok_inv.
  split.
  - intros t Ht. rewrite Haccess in Ht. by injection Ht as <-.
  - intros r.
    apply (owners_survive_guarded_update E target (mail_db s) _ (set_is_active false));
      [done|by apply Hin|done|by rewrite Hdb].
Qed.


(** X13. [deactivate_bot_backend], which has no guard for the last owner,
    hands no email to the mailer; and when the account [access_bot_by_id]
    returns is a bot of a table with distinct ids, every realm that had an
    active human owner still has one after the call. *)
Theorem deactivate_bot_backend_keeps_owner (request : HttpRequest)
    (user_profile : UserProfile) (bot_id : Z) (s s' : MailDB) (outcome : result HttpResponse) :
  NoDup (user_id <$> users (mail_db s)) →
  (∀ target, access_bot_by_id E user_profile bot_id (mail_db s) = Ok target →
             target ∈ users (mail_db s) ∧ is_bot target = true) →
  deactivate_bot_backend E D request user_profile bot_id s = (outcome, s') →
  mail_outbox s' = mail_outbox s
  ∧ ∀ r, get_human_owner_users E r (mail_db s) ≠ [] →
         get_human_owner_users E r (mail_db s') ≠ [].
Proof.
  intros Hnd Hbot. unfold deactivate_bot_backend, bind, gets, lift.
  destruct (access_bot_by_id E user_profile bot_id (mail_db s)) as [target|e] eqn:Haccess;
    [|by intros [= _ <-]].
  destruct (Hbot target eq_refl) as [Hin Hisbot].
  unfold _deactivate_user_profile_backend, on_db, do_deactivate_user, change_user,
    bind, modify, record_effect, ret. simpl.
  intros [= _ <-]. simpl. split; [done|]. intros r.
  apply (owners_survive_guarded_update E target (mail_db s) _ (set_is_active false));
    [done|done| |done].
  unfold check_last_owner. rewrite Hisbot. simpl. by rewrite andb_false_r.
Qed.

End DeactivationMore.

Lemma deactivate_user_own_backend_keeps_owner_witness :
  Users.get_human_owner_users Scenario.users_env Scenario.acme
    (Users.deactivate_user_own_backend Scenario.users_env Scenario.plain_request
       Scenario.iago Scenario.db_two_owners).2 ≠ [].
Proof.
  apply (deactivate_user_own_backend_keeps_owner Scenario.users_env Scenario.plain_request
           Scenario.iago Scenario.db_two_owners _ (Users.JsonSuccess [])).
  - compute_done.
  - compute_done.
  - reflexivity.
  - vm_compute. discriminate.
Defined.

Lemma deactivate_bot_backend_keeps_owner_witness :
  let s' := (Users.deactivate_bot_backend Scenario.users_env Scenario.deactivate_env
               Scenario.plain_request Scenario.hamlet 4 Scenario.mail_with_bot).2 in
  Users.mail_outbox s' = []
  ∧ Users.get_human_owner_users Scenario.users_env Scenario.acme (Users.mail_db s') ≠ [].
Proof.
  intros s'.
  destruct (deactivate_bot_backend_keeps_owner Scenario.users_env Scenario.deactivate_env
              Scenario.plain_request Scenario.hamlet 4 Scenario.mail_with_bot s'
              (Ok (Users.JsonSuccess []))) as [Hout Howners].
  - compute_done.
  - intros target [= <-]. split; [compute_done|reflexivity].
  - reflexivity.
  - split; [exact Hout|]. apply Howners. vm_compute. discriminate.
Defined.

Lemma deactivate_user_backend_keeps_owner_witness :
  Users.get_human_owner_users Scenario.users_env Scenario.acme
    (Users.mail_db
       (Users.deactivate_user_backend Scenario.users_env Scenario.deactivate_env
          Scenario.plain_request Scenario.emilia (Some "  bye  ") 1
          Scenario.mail_two_owners).2) ≠ [].
Proof.
  destruct (deactivate_user_backend_keeps_owner Scenario.users_env Scenario.deactivate_env
              Scenario.plain_request Scenario.emilia (Some "  bye  ") 1
              Scenario.mail_two_owners
              (Users.deactivate_user_backend Scenario.users_env Scenario.deactivate_env
                 Scenario.plain_request Scenario.emilia (Some "  bye  ") 1
                 Scenario.mail_two_owners).2
              (Users.JsonSuccess [])) as [_ Howners].
  - compute_done.
  - intros target [= <-]. compute_done.
  - reflexivity.
  - apply Howners. vm_compute. discriminate.
Defined.

(** ** Updating a user *)

Section UpdateUserMore.
Import Users.
Variable E : UsersEnv.

(** X14. A request that asks for the role, the name and the address the
    target already has (or a blank name), and carries no profile data, is
    answered with success whoever sends it, and changes nothing: no row and
    no journal entry. The address may only be named by a caller allowed to
    change addresses. *)
Theorem update_user_backend_nothing_to_change (request : HttpRequest)
    (user_profile target : UserProfile) (full_name_param new_email : option string)
    (role_param : option Z) (db : DB) :
  (∀ new_role, role_param = Some new_role → new_role = role target) →
  (∀ name, full_name_param = Some name → name = full_name target ∨ Py.strip name = "") →
  (∀ address, new_email = Some address →
     address = delivery_email target
     ∧ can_change_user_emails user_profile = true ∧ is_realm_admin E user_profile = true) →
  update_user_backend E request user_profile target full_name_param new_email None role_param db
  = (Ok (json_success request []), db).
Proof.
  intros Hrole Hname Hemail. unfold update_user_backend.
  assert ((bool_decide (new_email ≠ None)
           && (negb (can_change_user_emails user_profile)
               || negb (is_realm_admin E user_profile))) = false) as ->.
  { destruct new_email as [address|]; [|done].
    destruct (Hemail address eq_refl) as (_ & -> & ->). done. }
  unfold when at 1. rewrite (bind_ok _ _ db db tt) by done.
  rewrite (bind_ok _ _ db db target).
  2:{ destruct role_param as [new_role|]; [|done].
      rewrite (Hrole new_role eq_refl). by rewrite bool_decide_eq_false_2 by (by intros ?). }
  rewrite (bind_ok _ _ db db target).
  2:{ destruct full_name_param as [name|]; [|done].
      destruct (Hname name eq_refl) as [->| ->].
      - by rewrite (bool_decide_eq_false_2 (full_name target ≠ full_name target))
          by (by intros ?).
      - rewrite (bool_decide_eq_true_2 ("" = "")) by done. simpl.
        by rewrite andb_false_r. }
  rewrite (bind_ok _ _ db db tt) by done.
  rewrite (bind_ok _ _ db db tt); [done|].
  destruct new_email as [address|]; [|done].
  destruct (Hemail address eq_refl) as (-> & _).
  by rewrite bool_decide_eq_false_2 by (by intros ?).
Qed.

Lemma preserves_clean_profile_data_loop (target user_profile : UserProfile)
    (profile_data : list ProfileDataElement) (clean : list (Z * (string + list Z))) :
  preserves users (clean_profile_data_loop E target user_profile profile_data clean).
Proof.
  revert clean. induction profile_data as [|entry rest IH]; intros clean; simpl.
  - apply preserves_ret.
  - assert (preserves users
              (c <- gets (check_remove_custom_profile_field_value_checks E target (pd_id entry)) ;;
               lift c ;;
               record_effect (ProfileFieldValueRemoved (user_id target) (pd_id entry)
                                (user_id user_profile)) ;;
               clean_profile_data_loop E target user_profile rest clean)%py) as Hremove.
    { apply preserves_bind; [apply preserves_gets|]. intros c.
      apply preserves_bind; [apply preserves_lift|]. intros _.
      apply preserves_bind; [apply preserves_record_effect|]. intros _. apply IH. }
    destruct (pd_value entry) as [v|]; [|done].
    match goal with |- context [if ?b then _ else _] => destruct b end; [apply IH|done].
Qed.

(** A stored attribute other than the realm, the bot flag, the role and the
    active flag changes no realm's having a human owner. *)
Lemma change_user_keeps_owner (u : UserProfile) (f : UserProfile → UserProfile) (e : effect)
    (r : Realm) (s s' : DB) (outcome : result UserProfile) :
  (∀ x, realm (f x) = realm x ∧ is_bot (f x) = is_bot x ∧ role (f x) = role x
        ∧ is_active (f x) = is_active x) →
  change_user u f e s = (outcome, s') →
  get_human_owner_users E r s ≠ [] → get_human_owner_users E r s' ≠ [].
Proof.
  intros Hf. unfold change_user, bind, modify, record_effect, ret. simpl.
  intros [= _ <-]. by apply (owners_survive_neutral_update E r s _ (user_id u) f).
Qed.

(** Splits on the guard of the first conditional of the goal. *)
Ltac split_on_guard :=
  match goal with |- context [if ?b then _ else _] => destruct b end.

(** X15. A successful [update_user_backend], on a table with distinct ids
    that holds the target, leaves every realm that had an active human owner
    with one, whatever role, name, profile data and address it stored. *)
Theorem update_user_backend_keeps_owner (request : HttpRequest)
    (user_profile target : UserProfile) (full_name_param new_email : option string)
    (profile_data : option (list ProfileDataElement)) (role_param : option Z)
    (db db' : DB) (response : HttpResponse) :
  NoDup (user_id <$> users db) →
  target ∈ users db →
  update_user_backend E request user_profile target full_name_param new_email profile_data
    role_param db = (Ok response, db') →
  ∀ r, get_human_owner_users E r db ≠ [] → get_human_owner_users E r db' ≠ [].
Proof.
  intros Hnd Hin Hrun r Hdb. unfold update_user_backend in Hrun.
  apply bind_ok_inv in Hrun as ([] & s1 & Hguard & Hrun).
  assert (s1 = db) as ->.
  { revert Hguard. unfold when, raise, ret. split_on_guard; simpl; by intros [= <-]. }
  clear Hguard.
  apply bind_ok_inv in Hrun as (target1 & s2 & Hrole & Hrun).
  assert (get_human_owner_users E r s2 ≠ []) as Hs2.
  { destruct role_param as [new_role|]; [|by injection Hrole as _ <-].
    case_bool_decide; [|by injection Hrole as _ <-].
    apply bind_ok_inv in Hrole as ([] & s & Hperm & Hrole).
    assert (s = db) as ->.
    { revert Hperm. unfold raise, ret.
      split_on_guard; [done|]. split_on_guard; simpl; by intros [= <-]. }
    clear Hperm.
    apply bind_ok_inv in Hrole as (last & s & [= <- <-] & Hrole).
    apply bind_ok_inv in Hrole as ([] & s & Hlast & Hrole).
    destruct (bool_decide (role target = ROLE_REALM_OWNER E) && check_last_owner E target db)
      eqn:Hnotlast; [done|].
    injection Hlast as <-.
    apply bind_ok_inv in Hrole as ([] & s & Hbilling & Hrole).
    assert (s = db) as ->.
    { revert Hbilling. split_on_guard; [|by intros [= <-]].
      unfold bind, gets, lift. simpl. by intros [= _ <-]. }
    clear Hbilling.
    unfold do_change_user_role, change_user, bind, modify, record_effect, ret in Hrole.
    simpl in Hrole. injection Hrole as _ <-.
    apply (owners_survive_guarded_update E target db _ (set_role new_role));
      [done|done| |done|done].
    unfold check_last_owner, is_realm_owner in *.
    by destruct (bool_decide (role target = ROLE_REALM_OWNER E)). }
  clear Hrole Hdb.
  apply bind_ok_inv in Hrun as (target2 & s3 & Hname & Hrun).
  assert (get_human_owner_users E r s3 ≠ []) as Hs3.
  { destruct full_name_param as [name|]; [|by injection Hname as _ <-].
    destruct (_ && _); [|by injection Hname as _ <-].
    apply bind_ok_inv in Hname as (c & s & [= <- <-] & Hname).
    apply bind_ok_inv in Hname as (checked & s & Hchecked & Hname).
    assert (s = s2) as -> by (revert Hchecked; unfold lift; by intros [= _ <-]).
    eapply (change_user_keeps_owner _ _ _ r); [|exact Hname|exact Hs2]. done. }
  clear Hname Hs2.
  apply bind_ok_inv in Hrun as ([] & s4 & Hdata & Hrun).
  assert (get_human_owner_users E r s4 ≠ []) as Hs4.
  { assert (users s4 = users s3) as Husers; [|unfold get_human_owner_users; by rewrite Husers].
    destruct profile_data as [entries|]; [|by injection Hdata as <-].
    revert Hdata. apply (λ Hp : preserves users _, Hp _ _ _).
    apply preserves_bind; [apply preserves_clean_profile_data_loop|]. intros clean.
    apply preserves_bind; [apply preserves_gets|]. intros c.
    apply preserves_bind; [apply preserves_lift|]. intros _.
    apply preserves_record_effect. }
  clear Hdata Hs3.
  apply bind_ok_inv in Hrun as ([] & s5 & Hmail & Hrun).
  injection Hrun as _ <-.
  destruct new_email as [address|]; [|by injection Hmail as <-].
  case_bool_decide; [|by injection Hmail as <-].
  apply bind_ok_inv in Hmail as ([] & s & Hassert & Hmail).
  assert (s = s4) as ->.
  { revert Hassert. unfold when, raise, ret. split_on_guard; simpl; by intros [= <-]. }
  apply bind_ok_inv in Hmail as ([] & s & Hvalid & Hmail).
  assert (s = s4) as ->.
  { revert Hvalid. unfold when, raise, ret. split_on_guard; simpl; by intros [= <-]. }
  apply bind_ok_inv in Hmail as (c & s & [= <- <-] & Hmail).
  apply bind_ok_inv in Hmail as ([] & s & Hfree & Hmail).
  assert (s = s4) as ->.
  { revert Hfree. unfold raise, lift.
    destruct (validate_email_not_already_in_realm E (realm user_profile) address s4)
      as [[]|[]]; by intros [= <-]. }
  apply bind_ok_inv in Hmail as (target3 & s & Hchange & [= <-]).
  eapply (change_user_keeps_owner _ _ _ r); [|exact Hchange|exact Hs4]. done.
Qed.

End UpdateUserMore.

Lemma update_user_backend_nothing_to_change_witness :
  Users.update_user_backend Scenario.users_env Scenario.plain_request Scenario.hamlet
    Scenario.iago (Some "   ") None None (Some 100) Scenario.db_three
  = (Ok (Users.JsonSuccess []), Scenario.db_three).
Proof.
  apply (update_user_backend_nothing_to_change Scenario.users_env Scenario.plain_request
           Scenario.hamlet Scenario.iago (Some "   ") None (Some 100) Scenario.db_three).
  - intros new_role [= <-]. reflexivity.
  - intros name [= <-]. right. reflexivity.
  - intros address [=].
Defined.

Lemma update_user_backend_keeps_owner_witness :
  Users.get_human_owner_users Scenario.users_env Scenario.acme
    (Users.update_user_backend Scenario.users_env Scenario.plain_request Scenario.iago
       Scenario.emilia (Some "Emilia B") (Some "emilia.b@acme.example") None (Some 400)
       Scenario.db_two_owners).2 ≠ [].
Proof.
  apply (update_user_backend_keeps_owner Scenario.users_env Scenario.plain_request
           Scenario.iago Scenario.emilia (Some "Emilia B") (Some "emilia.b@acme.example")
           None (Some 400) Scenario.db_two_owners _ (Users.JsonSuccess [])).
  - compute_done.
  - compute_done.
  - vm_compute. reflexivity.
  - vm_compute. discriminate.
Defined.

(** ** Avatars of accounts the caller may not see *)

Section AvatarMore.
Import Users.
Variable E : UsersEnv.

(** X16. For an authenticated caller [avatar_by_id] answers a request for
    an account the caller may not access exactly as a request for an id that
    no account has, and it leaves the state as it was. *)
Theorem avatar_by_id_inaccessible_as_unknown (request : HttpRequest) (user : UserProfile)
    (unknown_id hidden_id : Z) (hidden : UserProfile) (medium : bool) (db : DB) :
  get_user_by_id_in_realm_including_cross_realm E unknown_id (realm user) db = None →
  get_user_by_id_in_realm_including_cross_realm E hidden_id (realm user) db = Some hidden →
  check_can_access_user E hidden user db = false →
  avatar_by_id E request (Some user) hidden_id medium db
  = avatar_by_id E request (Some user) unknown_id medium db
  ∧ (avatar_by_id E request (Some user) hidden_id medium db).2 = db.
Proof.
  intros Hunknown Hhidden Haccess.
  unfold avatar_by_id, bind, gets, ret, assert_url. simpl.
  rewrite Hunknown, Hhidden, Haccess. simpl.
  by destruct (get_avatar_for_inaccessible_user E).
Qed.

End AvatarMore.

Lemma avatar_by_id_inaccessible_as_unknown_witness :
  Users.avatar_by_id Scenario.guarded_users_env Scenario.plain_request (Some Scenario.ophelia)
    1 false Scenario.db_with_guest
  = (Ok (Users.HttpRedirect "/static/images/unknown-user-avatar.png"), Scenario.db_with_guest)
  ∧ Users.avatar_by_id Scenario.guarded_users_env Scenario.plain_request
      (Some Scenario.ophelia) 77 false Scenario.db_with_guest
    = (Ok (Users.HttpRedirect "/static/images/unknown-user-avatar.png"),
       Scenario.db_with_guest).
Proof.
  destruct (avatar_by_id_inaccessible_as_unknown Scenario.guarded_users_env
              Scenario.plain_request Scenario.ophelia 77 1 Scenario.iago false
              Scenario.db_with_guest eq_refl eq_refl eq_refl) as [Hsame _].
  split; [|rewrite <- Hsame]; reflexivity.
Defined.

(** ** The account a bot creation adds *)

Section AddBotMore.
Import Users.
Variable E : UsersEnv.

(** Passed checks found the address unused in the realm and the full name
    held by no active account of the realm. *)
Lemma add_bot_backend_checks_free (user_profile : UserProfile) (p : AddBotParams)
    (db : DB) (checked : CheckedBot) :
  add_bot_backend_checks E user_profile p db = Ok checked →
  ∀ u, u ∈ users db → realm_id (realm u) = realm_id (realm user_profile) →
       delivery_email u ≠ checked_email checked
       ∧ (is_active u = true → full_name u ≠ checked_full_name checked).
Proof.
  intros Hchecks.
  pose proof (add_bot_backend_checks_ok_inv E _ _ _ _ Hchecks) as Hident.
  revert Hchecks. unfold add_bot_backend_checks, rbind. rewrite Hident.
  destruct (get_user_by_delivery_email (checked_email checked) (realm user_profile) db)
    as [taken|] eqn:Haddress; [done|].
  destruct (check_bot_name_available (realm_id (realm user_profile))
              (checked_full_name checked) false db) as [[]|e] eqn:Hname; [|done].
  intros _ u Hu Hrealm. split.
  - intros Hsame. unfold get_user_by_delivery_email in Haddress.
    assert (u ∈ filter (λ u, delivery_email u = checked_email checked
                             ∧ realm_id (realm u) = realm_id (realm user_profile))
                  (users db)) as Hin by (by apply list_elem_of_filter).
    destruct (filter _ (users db)); [by apply elem_of_nil in Hin|done].
  - intros Hactive Hsame. revert Hname. unfold check_bot_name_available.
    rewrite bool_decide_eq_true_2; [done|].
    apply Exists_exists. by exists u.
Qed.

(** X17. A successful [add_bot_backend] adds one row and changes no other;
    the new account is in the caller's realm, owned by the caller and
    active, and in that realm its address was used by no account and its full
    name by no active account. *)
Theorem add_bot_backend_fresh_account (request : HttpRequest) (user_profile : UserProfile)
    (p : AddBotParams) (db db' : DB) (response : HttpResponse) :
  add_bot_backend E request user_profile p db = (Ok response, db') →
  ∃ bot,
    users db' = users db ++ [bot]
    ∧ realm bot = realm user_profile
    ∧ bot_owner_id bot = Some (user_id user_profile)
    ∧ is_active bot = true
    ∧ ∀ u, u ∈ users db → realm_id (realm u) = realm_id (realm bot) →
           delivery_email u ≠ delivery_email bot
           ∧ (is_active u = true → full_name u ≠ full_name bot).
Proof.
  intros (checked & bot & Hchecks & Hrows & Haddress & Hname & Hrealm & Hactive & Howner & _)
    %add_bot_backend_ok_inv.
  exists bot. split_and!; [done..|].
  rewrite Haddress, Hname, Hrealm. by apply (add_bot_backend_checks_free user_profile p).
Qed.

End AddBotMore.

Lemma add_bot_backend_fresh_account_witness :
  let run := Users.add_bot_backend Scenario.users_env Scenario.plain_request
               Scenario.hamlet Scenario.foo_params Scenario.db_with_bot in
  length (Users.users run.2) = 5%nat
  ∧ bot_owner_id <$> last (Users.users run.2) = Some (Some 2)
  ∧ is_active <$> last (Users.users run.2) = Some true.
Proof.
  intros run.
  assert (run = (Ok (Users.JsonSuccess
                       [("user_id", Users.JInt 5); ("api_key", Users.JStr "key-5");
                        ("avatar_url", Users.JStr "/user_avatars/5.png");
                        ("default_sending_stream", Users.JNull);
                        ("default_events_register_stream", Users.JNull);
                        ("default_all_public_streams", Users.JNull)]), run.2)) as Hok
    by (vm_compute; reflexivity).
  destruct (add_bot_backend_fresh_account Scenario.users_env Scenario.plain_request
              Scenario.hamlet Scenario.foo_params Scenario.db_with_bot run.2 _ Hok)
    as (bot & Hrows & _ & Howner & Hactive & _).
  rewrite Hrows, last_snoc, length_app. simpl. by rewrite Howner, Hactive.
Defined.
